(** * The recommendation subsystem of the content / e-commerce application

    A shallow embedding of the recommendation code of [app.py],
    [recommendation_engine.py], [product_recommendation_engine.py],
    [user_type_classifier.py] and of the tables of [models.py] they read,
    with the file helpers of [app.py], the tag and coupon methods of
    [models.py] and the overall score of [ai_relevance.py].

    Conventions.
    - A Python [float] is an exact real number ([R]): sums, products,
      quotients and square roots are the mathematical ones, rounding and
      overflow are not modelled.  The one exception is module [Binary64],
      which computes [calculate_content_similarity] with IEEE binary64
      operations, where the rounding decides a bound.
    - A Python [str] is a [string]; a character is its code point (0..255).
    - A [dict] (and a [defaultdict]) is an association list in insertion
      order, as Python iterates it.  A [set] is a duplicate-free list; the
      order in which Python enumerates a set is not specified, the lists
      below keep first occurrences in order.
    - A table is the list of its rows; a query without ORDER BY yields the
      rows in table order, ORDER BY is a stable sort of that list.
    - [datetime.utcnow()] is a parameter [now], a number of seconds.
    - Code under [try: ... except Exception] runs in the [result] monad and
      the handler is applied by [try_except]; a failure of the database
      itself is not modelled.
    - Of the libraries the code calls, scikit-learn's [cosine_similarity]
      is written out on dense rows, the weighting of [TfidfVectorizer] and
      [re.search] are parameters, and the two [re.sub] patterns of the code
      are written as string functions. *)

From Stdlib Require Import Reals Lra Lia ZArith List String Ascii Bool.
From Stdlib Require Import Permutation Sorted.
From Stdlib Require PrimFloat FloatOps SpecFloat.
Import ListNotations.
Open Scope R_scope.

(* ================================================================== *)
(** * Python values, exceptions, dicts, sets and sorting *)
(* ================================================================== *)

Module Py.

Inductive exn : Type :=
| TypeError | ValueError | KeyError | IndexError
| ZeroDivisionError | IntegrityError.

Inductive result (A : Type) : Type :=
| Ok (a : A)
| Raise (e : exn).
Arguments Ok {A} a.
Arguments Raise {A} e.

Definition bind {A B} (m : result A) (f : A -> result B) : result B :=
  match m with
  | Ok a => f a
  | Raise e => Raise e
  end.

(** [try: body  except Exception as e: handler e] *)
Definition try_except {A} (body : result A) (handler : exn -> A) : A :=
  match body with
  | Ok a => a
  | Raise e => handler e
  end.

Fixpoint mapM {A B} (f : A -> result B) (l : list A) : result (list B) :=
  match l with
  | [] => Ok []
  | x :: l' =>
      bind (f x) (fun y => bind (mapM f l') (fun ys => Ok (y :: ys)))
  end.

Fixpoint foldM {A S} (f : S -> A -> result S) (l : list A) (s : S) : result S :=
  match l with
  | [] => Ok s
  | x :: l' => bind (f s x) (foldM f l')
  end.

(** Comparisons of floats as booleans. *)
Definition Rltb (x y : R) : bool := if Rlt_dec x y then true else false.
Definition Rleb (x y : R) : bool := if Rle_dec x y then true else false.
Definition Req0 (x : R) : bool := if Req_dec_T x 0 then true else false.

(** [x / y] on floats: raises ZeroDivisionError when [y == 0]. *)
Definition truediv (x y : R) : result R :=
  if Req0 y then Raise ZeroDivisionError else Ok (x / y).

Definition sum (l : list R) : R := fold_right Rplus 0 l.

(** Hashable keys: what a dict or a set compares ([__eq__]). *)
Class Key (K : Type) := { keq : K -> K -> bool }.

#[export] Instance Key_Z : Key Z := {| keq := Z.eqb |}.
#[export] Instance Key_nat : Key nat := {| keq := Nat.eqb |}.
#[export] Instance Key_string : Key string := {| keq := String.eqb |}.
#[export] Instance Key_pair {A B} `{Key A} `{Key B} : Key (A * B) :=
  {| keq := fun x y => (keq (fst x) (fst y) && keq (snd x) (snd y))%bool |}.

(** The comparison of a key type decides equality. *)
Class KeyLaws (K : Type) `{Key K} := {
  keq_spec : forall a b : K, keq a b = true <-> a = b
}.

Section Containers.
Context {K : Type} `{Key K}.

(** [k in l] *)
Fixpoint mem (k : K) (l : list K) : bool :=
  match l with
  | [] => false
  | x :: l' => if keq k x then true else mem k l'
  end.

(** [set(l)]: first occurrences, in order. *)
Fixpoint set_of_aux (seen l : list K) : list K :=
  match l with
  | [] => []
  | x :: l' => if mem x seen then set_of_aux seen l'
               else x :: set_of_aux (x :: seen) l'
  end.
Definition set_of (l : list K) : list K := set_of_aux [] l.

(** [a & b] and [a | b] on sets. *)
Definition inter (a b : list K) : list K := filter (fun x => mem x b) a.
Definition union (a b : list K) : list K :=
  a ++ filter (fun x => negb (mem x a)) b.

Definition dict (V : Type) : Type := list (K * V).

Fixpoint lookup {V} (d : dict V) (k : K) : option V :=
  match d with
  | [] => None
  | (k', v) :: d' => if keq k k' then Some v else lookup d' k
  end.

(** [k in d] *)
Definition has_key {V} (d : dict V) (k : K) : bool :=
  match lookup d k with Some _ => true | None => false end.

(** [d[k]]: raises KeyError when the key is absent. *)
Definition getitem {V} (d : dict V) (k : K) : result V :=
  match lookup d k with Some v => Ok v | None => Raise KeyError end.

(** [d.get(k, default)], also [d[k]] of a defaultdict read. *)
Definition get {V} (d : dict V) (k : K) (default : V) : V :=
  match lookup d k with Some v => v | None => default end.

(** [d[k] = v]: an existing key keeps its place, a new key goes last. *)
Fixpoint setitem {V} (d : dict V) (k : K) (v : V) : dict V :=
  match d with
  | [] => [(k, v)]
  | (k', v') :: d' =>
      if keq k k' then (k', v) :: d' else (k', v') :: setitem d' k v
  end.

(** [d[k] += v] on a [defaultdict(float)]. *)
Definition additem (d : dict R) (k : K) (v : R) : dict R :=
  setitem d k (get d k 0 + v).

(** The truth value of a dict: it is not empty. *)
Definition nonempty_dict {V} (d : dict V) : bool :=
  match d with [] => false | _ => true end.

Definition keys {V} (d : dict V) : list K := map fst d.
Definition values {V} (d : dict V) : list V := map snd d.

(** SQL [GROUP BY key] with [SUM(quantity)]: one row per group, in the
    order the groups are first met. *)
Definition group_sum (rows : list (K * Z)) : dict Z :=
  fold_left (fun acc '(k, q) => setitem acc k (get acc k 0%Z + q)%Z) rows [].
End Containers.

Arguments dict K V : clear implicits.

(** A stable sort by insertion.  [before y x] says that [y] has to stay
    ahead of [x]; an element moves only past those, so elements that
    compare equal keep their order, as in Python's [sorted] (also with
    [reverse=True]). *)
Section Sort.
Context {A : Type} (before : A -> A -> bool).

Fixpoint insert (x : A) (l : list A) : list A :=
  match l with
  | [] => [x]
  | y :: l' => if before y x then y :: insert x l' else x :: l
  end.

Definition sort (l : list A) : list A := fold_right insert [] l.
End Sort.

(** [sorted(l, key=key, reverse=True)] with a float key. *)
Definition sorted_desc {A} (key : A -> R) (l : list A) : list A :=
  sort (fun y x => Rltb (key x) (key y)) l.

(** [sorted(l, key=key)] with an integer key. *)
Definition sorted_asc {A} (key : A -> Z) (l : list A) : list A :=
  sort (fun y x => (key y <? key x)%Z) l.

(** [enumerate(l)] *)
Fixpoint enumerate_from {A} (i : nat) (l : list A) : list (nat * A) :=
  match l with
  | [] => []
  | x :: l' => (i, x) :: enumerate_from (S i) l'
  end.
Definition enumerate {A} (l : list A) : list (nat * A) := enumerate_from 0 l.

(** An object passed to [math.sqrt]: a float, or a generator expression. *)
Inductive object : Type :=
| PyFloat (x : R)
| PyGenerator (items : list R).

(** [math.sqrt]: a float is required (TypeError otherwise), and a
    non-negative one (ValueError: math domain error). *)
Definition math_sqrt (o : object) : result R :=
  match o with
  | PyFloat x => if Rltb x 0 then Raise ValueError else Ok (sqrt x)
  | PyGenerator _ => Raise TypeError
  end.

(** [round(x, ndigits)]: to the nearest multiple of [10 ^ -ndigits], a tie
    going to the even one. *)
Definition round_half_even (y : R) : Z :=
  let f := Int_part y in
  let d := y - IZR f in
  if Rltb d (1 / 2) then f
  else if Rltb (1 / 2) d then (f + 1)%Z
  else if Z.even f then f else (f + 1)%Z.

Definition round (x : R) (ndigits : nat) : R :=
  IZR (round_half_even (x * 10 ^ ndigits)) / 10 ^ ndigits.

(** ** Strings *)

Definition code (c : ascii) : N := N_of_ascii c.

(** [c.isspace()], which is also what [str.split()], [str.strip()] and the
    pattern [\s] use. *)
Definition is_space (c : ascii) : bool :=
  let n := code c in
  (((9 <=? n) && (n <=? 13)) || ((28 <=? n) && (n <=? 32))
   || (n =? 133) || (n =? 160))%N%bool.

Definition lower_char (c : ascii) : ascii :=
  let n := code c in
  if (((65 <=? n) && (n <=? 90))
      || ((192 <=? n) && (n <=? 222) && negb (n =? 215)))%N%bool
  then ascii_of_N (n + 32) else c.

(** [s.lower()] *)
Fixpoint lower (s : string) : string :=
  match s with
  | EmptyString => EmptyString
  | String c s' => String (lower_char c) (lower s')
  end.

Definition is_empty (s : string) : bool :=
  match s with EmptyString => true | _ => false end.

(** [s.split()]: the maximal runs of non-whitespace characters; [cur] is
    the run being read. *)
Fixpoint split_aux (s cur : string) : list string :=
  match s with
  | EmptyString => if is_empty cur then [] else [cur]
  | String c s' =>
      if is_space c
      then if is_empty cur then split_aux s' EmptyString
           else cur :: split_aux s' EmptyString
      else split_aux s' (cur ++ String c EmptyString)
  end.
Definition split (s : string) : list string := split_aux s EmptyString.

(** [s.split(sep)] for a one-character separator: empty pieces are kept. *)
Fixpoint split_on_aux (sep : ascii) (s cur : string) : list string :=
  match s with
  | EmptyString => [cur]
  | String c s' =>
      if Ascii.eqb c sep then cur :: split_on_aux sep s' EmptyString
      else split_on_aux sep s' (cur ++ String c EmptyString)
  end.
Definition split_on (sep : ascii) (s : string) : list string :=
  split_on_aux sep s EmptyString.

Fixpoint lstrip (s : string) : string :=
  match s with
  | EmptyString => EmptyString
  | String c s' => if is_space c then lstrip s' else s
  end.

Fixpoint rstrip (s : string) : string :=
  match s with
  | EmptyString => EmptyString
  | String c s' =>
      let r := rstrip s' in
      if (is_empty r && is_space c)%bool then EmptyString else String c r
  end.

(** [s.strip()] *)
Definition strip (s : string) : string := rstrip (lstrip s).

(** [sep.join(l)] *)
Fixpoint join (sep : string) (l : list string) : string :=
  match l with
  | [] => EmptyString
  | [x] => x
  | x :: l' => (x ++ sep ++ join sep l')%string
  end.

(** [kw in s] on strings. *)
Fixpoint substring_in (kw s : string) : bool :=
  if String.prefix kw s then true
  else match s with
       | EmptyString => false
       | String _ s' => substring_in kw s'
       end.

(** [Counter(l).most_common(n)]: the counts in first-seen order, stably
    sorted by descending count, the first [n] of them. *)
Definition counter {K} `{Key K} (l : list K) : dict K Z :=
  group_sum (map (fun k => (k, 1%Z)) l).
Definition most_common {K} `{Key K} (n : nat) (l : list K) : list (K * Z) :=
  firstn n (sort (fun y x => (snd x <? snd y)%Z) (counter l)).

(** [l[i]] on a list: IndexError when [i] is out of range. *)
Definition list_getitem {A} (l : list A) (i : nat) : result A :=
  match nth_error l i with Some x => Ok x | None => Raise IndexError end.

(** [s.rsplit(sep, 1)] for a one-character separator: the string cut at
    its last [sep], or the string alone when it holds none. *)
Fixpoint rpartition (sep : ascii) (s : string) : option (string * string) :=
  match s with
  | EmptyString => None
  | String c s' =>
      match rpartition sep s' with
      | Some (before, after) => Some (String c before, after)
      | None => if Ascii.eqb c sep then Some (EmptyString, s') else None
      end
  end.

Definition rsplit1 (sep : ascii) (s : string) : list string :=
  match rpartition sep s with
  | Some (before, after) => [before; after]
  | None => [s]
  end.

End Py.

Import Py.
Notation "x <- m ;; k" := (Py.bind m (fun x => k))
  (at level 61, m at next level, right associativity).

(* ================================================================== *)
(** * models.py: the tables the recommendation code reads and writes *)
(* ================================================================== *)

Module Models.

(** [Content]; [tags] is a nullable column. *)
Record Content : Type := {
  content_id : Z;
  title : string;
  content_body : string;
  category : string;
  status : string;
  author : string;
  tags : option string;
  created_at : Z
}.

(** [UserInteraction] *)
Record UserInteraction : Type := {
  interaction_id : Z;
  user_id : string;
  interaction_content_id : Z;
  interaction_type : string;
  interaction_score : R;
  timestamp : Z
}.

Record Product : Type := {
  product_id : Z;
  product_name : string;
  product_category : string;
  is_active : bool;
  product_created_at : Z
}.

Record Order : Type := {
  order_id : Z;
  order_user_id : string;
  order_status : string
}.

Record OrderItem : Type := {
  item_order_id : Z;
  item_product_id : Z;
  item_quantity : Z
}.

Record CartItem : Type := {
  cart_user_id : string;
  cart_product_id : Z;
  cart_quantity : Z
}.

(** The database: one list of rows per table ([users] holds the ids). *)
Record Database : Type := {
  users : list string;
  contents : list Content;
  interactions : list UserInteraction;
  products : list Product;
  orders : list Order;
  order_items : list OrderItem;
  cart_items : list CartItem
}.

Definition seconds_per_day : Z := 86400.

(** [Content.query.get(id)], [Product.query.get(id)] *)
Definition get_content (db : Database) (cid : Z) : option Content :=
  find (fun c => (content_id c =? cid)%Z) (contents db).
Definition get_product (db : Database) (pid : Z) : option Product :=
  find (fun p => (product_id p =? pid)%Z) (products db).

Definition is_published (c : Content) : bool := (status c =? "Published")%string.

(** [Content.get_tags_list] *)
Definition get_tags_list (c : Content) : list string :=
  match tags c with
  | None => []
  | Some t =>
      if is_empty t then []
      else filter (fun tag => negb (is_empty tag)) (map strip (split_on "," t))
  end.

Definition with_interactions (db : Database) (l : list UserInteraction) : Database :=
  {| users := users db; contents := contents db; interactions := l;
     products := products db; orders := orders db;
     order_items := order_items db; cart_items := cart_items db |}.

(** The constraints of the [user_interactions] table: the two CHECK
    constraints and the foreign key to [content]. *)
Definition interaction_types : list string :=
  ["view"; "edit"; "like"; "share"; "delete"]%string.

(** The CHECK constraint [order_status_check] of the [orders] table. *)
Definition order_statuses : list string :=
  ["pending"; "paid"; "shipped"; "delivered"; "cancelled"]%string.

Definition interaction_ok (db : Database) (i : UserInteraction) : bool :=
  (Rleb 0 (interaction_score i)
   && mem (interaction_type i) interaction_types
   && existsb (fun c => (content_id c =? interaction_content_id i)%Z) (contents db))%bool.

(** The id of a new row.  The table draws it from a sequence, which a
    rolled-back INSERT also advances: which unused number a row gets
    depends on the history of the store.  The model takes the number after
    the largest stored id; the statements about new rows rely on its
    being unused only, and quantify over the id. *)
Definition next_interaction_id (db : Database) : Z :=
  (1 + fold_right Z.max 0 (map interaction_id (interactions db)))%Z.

(** [db.session.add(UserInteraction(...)); db.session.commit()]: the row
    gets a fresh id and the default timestamp; a violated constraint makes
    the commit raise. *)
Definition add_interaction (db : Database) (now : Z) (uid : string) (cid : Z)
    (itype : string) (iscore : R) : result Database :=
  let row := {| interaction_id := next_interaction_id db; user_id := uid;
                interaction_content_id := cid; interaction_type := itype;
                interaction_score := iscore; timestamp := now |} in
  if interaction_ok db row
  then Ok (with_interactions db (interactions db ++ [row]))
  else Raise IntegrityError.

(** A commit after attributes of the first row satisfying [p] (the row a
    [.first()] query returned) were assigned, giving [row']. *)
Fixpoint update_first (p : UserInteraction -> bool) (row' : UserInteraction)
    (l : list UserInteraction) : list UserInteraction :=
  match l with
  | [] => []
  | x :: l' => if p x then row' :: l' else x :: update_first p row' l'
  end.

Definition update_interaction (db : Database) (p : UserInteraction -> bool)
    (row' : UserInteraction) : result Database :=
  if interaction_ok db row'
  then Ok (with_interactions db (update_first p row' (interactions db)))
  else Raise IntegrityError.

(** [Content.set_tags_list]: the assignment to [self.tags], as the row
    after the call. *)
Definition set_tags_list (c : Content) (tags_list : list string) : Content :=
  {| content_id := content_id c; title := title c; content_body := content_body c;
     category := category c; status := status c; author := author c;
     tags := match tags_list with
             | [] => Some EmptyString
             | _ => Some (join ", " tags_list)
             end;
     created_at := created_at c |}.

(** [Coupon]: only [discount_type] and [discount_value] are NOT NULL;
    [now] is [datetime.now()]. *)
Record Coupon : Type := {
  discount_type : string;
  discount_value : R;
  minimum_amount : option R;
  maximum_discount : option R;
  usage_limit : option Z;
  usage_count : option Z;
  starts_at : option Z;
  expires_at : option Z;
  coupon_is_active : option bool
}.

(** [Coupon.is_valid].  A column that is NULL or 0 is false as a
    condition; comparing a NULL [usage_count] with a number raises
    TypeError. *)
Definition is_valid (c : Coupon) (now : Z) : result bool :=
  if negb (match coupon_is_active c with Some b => b | None => false end)
  then Ok false
  else if match starts_at c with Some t => (now <? t)%Z | None => false end
  then Ok false
  else if match expires_at c with Some t => (t <? now)%Z | None => false end
  then Ok false
  else
    match usage_limit c with
    | None => Ok true
    | Some limit =>
        if (limit =? 0)%Z then Ok true
        else match usage_count c with
             | None => Raise TypeError
             | Some n => if (limit <=? n)%Z then Ok false else Ok true
             end
    end.

(** [Coupon.calculate_discount(amount)] *)
Definition calculate_discount (c : Coupon) (now : Z) (amount : R) : result R :=
  valid <- is_valid c now ;;
  below <- (if negb valid then Ok true
            else match minimum_amount c with
                 | None => Raise TypeError
                 | Some m => Ok (Rltb amount m)
                 end) ;;
  if below then Ok 0
  else if (discount_type c =? "percentage")%string
  then
    let discount := amount * (discount_value c / 100) in
    let discount :=
      match maximum_discount c with
      | None => discount
      | Some cap => if Req0 cap then discount else Rmin discount cap
      end in
    Ok discount
  else if (discount_type c =? "fixed")%string
  then Ok (Rmin (discount_value c) amount)
  else Ok 0.

(** The values the CHECK constraints [content_user_type_check] and
    [file_type_check] allow for [Content.user_type] and [File.file_type]. *)
Definition user_types : list string := ["tech"; "business"; "mixed"]%string.
Definition file_types : list string :=
  ["image"; "document"; "video"; "audio"; "archive"; "other"]%string.

End Models.

Import Models.

(* ================================================================== *)
(** * app.py: the recommendation functions of the route module *)
(* ================================================================== *)

Module App.

(** [re.sub(r'<[^>]+>', '', s)].  A match starts at a [<] that is followed
    by at least one character other than [>] and then by a [>]; it ends at
    the first [>].  The function reads the string from its end: next to
    the result for the rest [s'] it keeps, when [s'] has a [>], whether
    that first [>] is the first character of [s'], and the result for
    what follows it. *)
Fixpoint strip_tags_aux (s : string) : string * option (bool * string) :=
  match s with
  | EmptyString => (EmptyString, None)
  | String c s' =>
      let '(r, g) := strip_tags_aux s' in
      let r' :=
        if Ascii.eqb c "<"
        then match g with
             | Some (false, after) => after
             | _ => String c r
             end
        else String c r in
      let g' :=
        if Ascii.eqb c ">" then Some (true, r)
        else match g with
             | Some (_, after) => Some (false, after)
             | None => None
             end in
      (r', g')
  end.
Definition strip_tags (s : string) : string := fst (strip_tags_aux s).

Definition is_alnum (c : ascii) : bool :=
  let n := code c in
  (((48 <=? n) && (n <=? 57)) || ((65 <=? n) && (n <=? 90))
   || ((97 <=? n) && (n <=? 122)))%N%bool.

(** [re.sub(r'[^a-zA-Z0-9\s]', '', s)] *)
Fixpoint strip_special (s : string) : string :=
  match s with
  | EmptyString => EmptyString
  | String c s' =>
      if (is_alnum c || is_space c)%bool then String c (strip_special s')
      else strip_special s'
  end.

Definition stop_words : list string :=
  ["the"; "a"; "an"; "and"; "or"; "but"; "in"; "on"; "at"; "to"; "for"; "of";
   "with"; "by"; "is"; "are"; "was"; "were"; "be"; "been"; "being"; "have";
   "has"; "had"; "do"; "does"; "did"; "will"; "would"; "could"; "should";
   "may"; "might"; "can"; "this"; "that"; "these"; "those"; "i"; "you"; "he";
   "she"; "it"; "we"; "they"; "me"; "him"; "her"; "us"; "them"; "my"; "your";
   "his"; "its"; "our"; "their"; "not"; "no"; "yes"; "if"; "when"; "where";
   "why"; "how"]%string.

Definition extract_keywords (text : string) (num_keywords : nat) : list string :=
  let clean_text := strip_special (strip_tags (lower text)) in
  let words := filter (fun word => ((3 <? String.length word)%nat
                                    && negb (mem word stop_words))%bool)
                      (split clean_text) in
  map fst (most_common num_keywords words).

(** [len(a & b) / len(a | b)] for two non-empty sets. *)
Definition overlap (a b : list string) : R :=
  INR (List.length (inter a b)) / INR (List.length (union a b)).

Definition nonempty {A} (l : list A) : bool :=
  match l with [] => false | _ => true end.

(** [calculate_content_similarity], over exact reals;
    [Binary64.calculate_content_similarity] is the same function with
    binary64 operations. *)
Definition calculate_content_similarity (content1 content2 : Content) : R :=
  let score := 0 in
  let score := if (category content1 =? category content2)%string
               then score + 0.4 else score in
  let tags1 := set_of (get_tags_list content1) in
  let tags2 := set_of (get_tags_list content2) in
  let score := if (nonempty tags1 && nonempty tags2)%bool
               then score + 0.3 * overlap tags1 tags2 else score in
  let keywords1 := set_of (extract_keywords (content_body content1) 10) in
  let keywords2 := set_of (extract_keywords (content_body content2) 10) in
  let score := if (nonempty keywords1 && nonempty keywords2)%bool
               then score + 0.2 * overlap keywords1 keywords2 else score in
  let score := if (author content1 =? author content2)%string
               then score + 0.1 else score in
  score.

(** An entry [{'content': .., 'similarity': .., 'score': ..}]. *)
Record ContentRec : Type := {
  rec_content : Content;
  similarity : R;
  rec_score : R
}.

Definition get_content_recommendations (db : Database) (cid : Z) (limit : nat)
    : list ContentRec :=
  match get_content db cid with
  | None => []
  | Some current_content =>
      let other_content :=
        filter (fun c => (negb (content_id c =? cid)%Z && is_published c)%bool)
               (contents db) in
      let recommendations :=
        flat_map (fun c =>
                    let sim := calculate_content_similarity current_content c in
                    if Rltb 0 sim
                    then [{| rec_content := c; similarity := sim; rec_score := sim |}]
                    else [])
                 other_content in
      firstn limit (sorted_desc similarity recommendations)
  end.

(** An entry [{'content': .., 'score': ..}] of the trending list. *)
Record TrendingRec : Type := {
  trending_content : Content;
  tag_score : nat
}.

Definition get_trending_content (db : Database) (limit : nat) : list TrendingRec :=
  let recent_content :=
    firstn 20 (sort (fun y x => (created_at x <? created_at y)%Z)
                    (filter is_published (contents db))) in
  let all_tags := flat_map get_tags_list recent_content in
  let popular_tags := map fst (most_common 5 all_tags) in
  let trending :=
    flat_map (fun c =>
                let content_tags := get_tags_list c in
                let tag_score :=
                  List.length (filter (fun tag => mem tag popular_tags) content_tags) in
                if (0 <? tag_score)%nat
                then [{| trending_content := c; tag_score := tag_score |}]
                else [])
             recent_content in
  firstn limit (sort (fun y x => (tag_score x <? tag_score y)%nat) trending).

(** [track_user_interaction]; [session_user_id] is what [get_user_id()]
    returns.  A failed commit is rolled back. *)
Definition track_user_interaction (db : Database) (now : Z) (session_user_id : string)
    (cid : Z) (itype : string) (iscore : R) : Database :=
  try_except (add_interaction db now session_user_id cid itype iscore)
             (fun _ => db).

(** [build_user_item_matrix]: the interactions of the last 30 days; a later
    interaction with the same item overwrites the earlier score. *)
Definition UserItemMatrix : Type := dict string (dict Z R).

Definition recent_interactions (db : Database) (now : Z) : list UserInteraction :=
  let cutoff_date := (now - 30 * seconds_per_day)%Z in
  filter (fun i => (cutoff_date <=? timestamp i)%Z) (interactions db).

Definition build_user_item_matrix (db : Database) (now : Z)
    : UserItemMatrix * list string * list Z :=
  let rows := recent_interactions db now in
  let user_item_matrix :=
    fold_left (fun m i =>
                 setitem m (user_id i)
                   (setitem (get m (user_id i) []) (interaction_content_id i)
                            (interaction_score i)))
              rows [] in
  (user_item_matrix, set_of (map user_id rows),
   set_of (map interaction_content_id rows)).

(** [calculate_user_similarity]: the dot product over the common items,
    divided by the square root of the product of the two full sums of
    squares. *)
Definition calculate_user_similarity (user1_items user2_items : dict Z R) : R :=
  let common_items := inter (set_of (keys user1_items)) (set_of (keys user2_items)) in
  if (List.length common_items =? 0)%nat then 0
  else
    let sum_squares1 := Py.sum (map (fun item => get user1_items item 0 ^ 2) (keys user1_items)) in
    let sum_squares2 := Py.sum (map (fun item => get user2_items item 0 ^ 2) (keys user2_items)) in
    let sum_products :=
      Py.sum (map (fun item => get user1_items item 0 * get user2_items item 0)
                  common_items) in
    let denominator := sqrt (sum_squares1 * sum_squares2) in
    if Req0 denominator then 0
    else sum_products / denominator.

(** The neighbours: every other user with a positive similarity. *)
Definition user_similarities (m : UserItemMatrix) (users : list string)
    (target_user_id : string) (target_user_items : dict Z R) : dict string R :=
  fold_left (fun sims uid =>
               if negb (uid =? target_user_id)%string
               then let sim := calculate_user_similarity target_user_items (get m uid []) in
                    if Rltb 0 sim then setitem sims uid sim else sims
               else sims)
            users [].

(** The scoring loop: [recommendations[item_id] += weight * rating] with
    [weight = similarity / total_similarity]; it runs only when the total
    is not 0. *)
Definition cf_scores (m : UserItemMatrix) (target_user_items : dict Z R)
    (sims : dict string R) : dict Z R :=
  let total_similarity := Py.sum (values sims) in
  fold_left (fun recs '(uid, sim) =>
               let weight := sim / total_similarity in
               fold_left (fun recs '(item_id, rating) =>
                            if negb (has_key target_user_items item_id)
                            then additem recs item_id (weight * rating) else recs)
                         (get m uid []) recs)
            sims [].

(** An entry [{'content': .., 'cf_score': ..}]. *)
Record CFRec : Type := {
  cf_content : Content;
  cf_score : R
}.

Definition get_collaborative_filtering_recommendations (db : Database) (now : Z)
    (target_user_id : string) (limit : nat) : list CFRec :=
  let '(user_item_matrix, users, items) := build_user_item_matrix db now in
  if negb (has_key user_item_matrix target_user_id) then []
  else
    let target_user_items := get user_item_matrix target_user_id [] in
    let sims := user_similarities user_item_matrix users target_user_id target_user_items in
    let total_similarity := Py.sum (values sims) in
    if Req0 total_similarity then []
    else
      let recommendations := cf_scores user_item_matrix target_user_items sims in
      let sorted_recommendations := sorted_desc snd recommendations in
      let content_ids := map fst (firstn limit sorted_recommendations) in
      let recommended_content :=
        filter (fun c => (mem (content_id c) content_ids && is_published c)%bool)
               (contents db) in
      map (fun c => {| cf_content := c;
                       cf_score := Py.round (get sorted_recommendations (content_id c) 0) 3 |})
          recommended_content.

(** An entry of the hybrid list. *)
Record HybridRec : Type := {
  hybrid_content : Content;
  content_score : R;
  hybrid_cf_score : R;
  hybrid_score : R
}.

Definition get_hybrid_recommendations (db : Database) (now : Z)
    (session_user_id : string) (cid : Z) (limit : nat) : list HybridRec :=
  let content_based := get_content_recommendations db cid (limit / 2 + 1) in
  let cf_based :=
    get_collaborative_filtering_recommendations db now session_user_id (limit / 2 + 1) in
  let all_recommendations :=
    fold_left (fun all rec =>
                 setitem all (content_id (rec_content rec))
                   {| hybrid_content := rec_content rec;
                      content_score := similarity rec;
                      hybrid_cf_score := 0;
                      hybrid_score := similarity rec * 0.6 |})
              content_based [] in
  let all_recommendations :=
    fold_left (fun all rec =>
                 match lookup all (content_id (cf_content rec)) with
                 | Some e =>
                     setitem all (content_id (cf_content rec))
                       {| hybrid_content := hybrid_content e;
                          content_score := content_score e;
                          hybrid_cf_score := cf_score rec;
                          hybrid_score := hybrid_score e + cf_score rec * 0.4 |}
                 | None =>
                     setitem all (content_id (cf_content rec))
                       {| hybrid_content := cf_content rec;
                          content_score := 0;
                          hybrid_cf_score := cf_score rec;
                          hybrid_score := cf_score rec * 0.4 |}
                 end)
              cf_based all_recommendations in
  firstn limit (sorted_desc hybrid_score (values all_recommendations)).

(** ** File handling helpers *)

Definition ALLOWED_IMAGE_EXTENSIONS : list string :=
  ["png"; "jpg"; "jpeg"; "gif"; "webp"; "svg"]%string.
Definition ALLOWED_DOCUMENT_EXTENSIONS : list string :=
  ["pdf"; "doc"; "docx"; "txt"; "rtf"; "odt"]%string.
Definition ALLOWED_VIDEO_EXTENSIONS : list string :=
  ["mp4"; "webm"; "avi"; "mov"; "wmv"; "flv"]%string.
Definition ALLOWED_AUDIO_EXTENSIONS : list string :=
  ["mp3"; "wav"; "ogg"; "flac"; "aac"; "m4a"]%string.
Definition ALLOWED_ARCHIVE_EXTENSIONS : list string :=
  ["zip"; "rar"; "7z"; "tar"; "gz"]%string.
Definition ALLOWED_OTHER_EXTENSIONS : list string :=
  ["csv"; "xlsx"; "xls"; "ppt"; "pptx"]%string.

Definition ALL_ALLOWED_EXTENSIONS : list string :=
  union (union (union (union (union ALLOWED_IMAGE_EXTENSIONS ALLOWED_DOCUMENT_EXTENSIONS)
                             ALLOWED_VIDEO_EXTENSIONS)
                      ALLOWED_AUDIO_EXTENSIONS)
               ALLOWED_ARCHIVE_EXTENSIONS)
        ALLOWED_OTHER_EXTENSIONS.

(** ['.' in filename and filename.rsplit('.', 1)[1].lower() in ALL_ALLOWED_EXTENSIONS] *)
Definition allowed_file (filename : string) : result bool :=
  if substring_in "." filename
  then ext <- list_getitem (rsplit1 "." filename) 1 ;;
       Ok (mem (lower ext) ALL_ALLOWED_EXTENSIONS)
  else Ok false.

Definition get_file_type (extension : string) : string :=
  let extension := lower extension in
  if mem extension ALLOWED_IMAGE_EXTENSIONS then "image"
  else if mem extension ALLOWED_DOCUMENT_EXTENSIONS then "document"
  else if mem extension ALLOWED_VIDEO_EXTENSIONS then "video"
  else if mem extension ALLOWED_AUDIO_EXTENSIONS then "audio"
  else if mem extension ALLOWED_ARCHIVE_EXTENSIONS then "archive"
  else "other".

End App.

(* ================================================================== *)
(** * recommendation_engine.py: PersonalizedRecommendationEngine *)
(* ================================================================== *)

Module Engine.

(** The preference profile returned by [analyze_user_behavior]. *)
Record Preferences : Type := {
  categories : dict string R;
  authors : dict string R;
  pref_tags : dict string R;
  total_interactions : nat;
  recent_activity : nat
}.

Definition _get_default_preferences : Preferences :=
  {| categories := []; authors := []; pref_tags := [];
     total_interactions := 0; recent_activity := 0 |}.

(** [interaction_weights.get(interaction_type, 1.0)] *)
Definition interaction_weights : dict string R :=
  [("view", 1.0); ("edit", 3.0); ("like", 2.0); ("share", 2.5); ("create", 4.0)]%string.

Definition time_decay_factor : R := 0.95.

(** [[tag.strip().lower() for tag in content.tags.split(',')]], for a
    non-empty [tags] column. *)
Definition tag_list (c : Content) : list string :=
  match tags c with
  | None => []
  | Some t => if is_empty t then [] else map (fun tag => lower (strip tag)) (split_on "," t)
  end.

(** [max(values)] of a non-empty list. *)
Definition max_value (l : list R) : R :=
  match l with
  | [] => 0
  | x :: l' => fold_left Rmax l' x
  end.

(** One round of the accumulation loop, for the [i]-th interaction in
    timestamp order out of [n]. *)
Definition accumulate (db : Database) (n : nat)
    (acc : dict string R * dict string R * dict string R)
    (entry : nat * UserInteraction)
    : dict string R * dict string R * dict string R :=
  let '(category_scores, author_scores, tag_scores) := acc in
  let '(i, interaction) := entry in
  match get_content db (interaction_content_id interaction) with
  | None => acc
  | Some content =>
      if negb (is_published content) then acc
      else
        let time_weight := time_decay_factor ^ (n - i - 1) in
        let interaction_weight :=
          get interaction_weights (interaction_type interaction) 1.0 in
        let total_weight :=
          interaction_weight * time_weight * interaction_score interaction in
        (additem category_scores (category content) total_weight,
         additem author_scores (author content) total_weight,
         fold_left (fun ts tag => additem ts tag (total_weight * 0.5))
                   (tag_list content) tag_scores)
  end.

(** [{k: v / m for k, v in scores.items()}] *)
Definition normalize (scores : dict string R) (m : R) : result (dict string R) :=
  mapM (fun '(k, v) => q <- truediv v m ;; Ok (k, q)) scores.

Definition analyze_user_behavior (db : Database) (now : Z) (uid : string)
    : Preferences :=
  try_except
    (let recent_date := (now - 90 * seconds_per_day)%Z in
     let rows :=
       filter (fun i => ((user_id i =? uid)%string && (recent_date <=? timestamp i)%Z)%bool)
              (interactions db) in
     match rows with
     | [] => Ok _get_default_preferences
     | _ =>
         let '(category_scores, author_scores, tag_scores) :=
           fold_left (accumulate db (List.length rows))
                     (enumerate (sorted_asc timestamp rows)) ([], [], []) in
         let max_category_score :=
           if nonempty_dict category_scores then max_value (values category_scores) else 1 in
         let max_author_score :=
           if nonempty_dict author_scores then max_value (values author_scores) else 1 in
         let max_tag_score :=
           if nonempty_dict tag_scores then max_value (values tag_scores) else 1 in
         normalized_categories <- normalize category_scores max_category_score ;;
         normalized_authors <- normalize author_scores max_author_score ;;
         normalized_tags <- normalize tag_scores max_tag_score ;;
         Ok {| categories := normalized_categories;
               authors := normalized_authors;
               pref_tags := normalized_tags;
               total_interactions := List.length rows;
               recent_activity :=
                 List.length
                   (filter (fun i => (now - 7 * seconds_per_day <=? timestamp i)%Z) rows) |}
     end)
    (fun _ => _get_default_preferences).

(** [_get_trending_recommendations]: the published content of the last 30
    days, by number of interactions and then by creation date, both
    descending. *)
Definition interaction_count (db : Database) (c : Content) : nat :=
  List.length (filter (fun i => (interaction_content_id i =? content_id c)%Z)
                      (interactions db)).

Definition _get_trending_recommendations (db : Database) (now : Z)
    (num_recommendations : nat) : list Content :=
  let recent_date := (now - 30 * seconds_per_day)%Z in
  firstn num_recommendations
    (sort (fun y x =>
             ((interaction_count db x <? interaction_count db y)%nat
              || ((interaction_count db x =? interaction_count db y)%nat
                  && (created_at x <? created_at y)%Z))%bool)
          (filter (fun c => (is_published c && (recent_date <=? created_at c)%Z)%bool)
                  (contents db))).

(** scikit-learn's [cosine_similarity] of one dense row with the rows of a
    matrix: the inner products of the L2-normalised rows; a zero row is left
    as it is. *)
Definition dot (a b : list R) : R :=
  Py.sum (map (fun '(x, y) => x * y) (combine a b)).

Definition l2_normalize (v : list R) : list R :=
  let norm := sqrt (dot v v) in
  let norm := if Req0 norm then 1 else norm in
  map (fun x => x / norm) v.

Definition cosine_similarity (x : list R) (Y : list (list R)) : list R :=
  map (fun y => dot (l2_normalize x) (l2_normalize y)) Y.

Definition interactions_of (db : Database) (uid : string) : list UserInteraction :=
  filter (fun i => (user_id i =? uid)%string) (interactions db).

(** Row [uid] of the dense user x content matrix. *)
Definition matrix_row (db : Database) (content_ids : list Z) (uid : string) : list R :=
  map (fun cid =>
         Py.sum (map interaction_score
                   (filter (fun i => (interaction_content_id i =? cid)%Z)
                           (interactions_of db uid))))
      content_ids.

(** The neighbours: the other users with a similarity above 0.1, the ten
    most similar ones. *)
Definition top_similar_users (db : Database) (uid : string) : list (string * R) :=
  let user_ids := set_of (map user_id (interactions db)) in
  let content_ids := set_of (map interaction_content_id (interactions db)) in
  let user_similarities :=
    cosine_similarity (matrix_row db content_ids uid)
                      (map (matrix_row db content_ids) user_ids) in
  let similar_users :=
    flat_map (fun '(other, sim) =>
                if (negb (other =? uid)%string && Rltb 0.1 sim)%bool
                then [(other, sim)] else [])
             (combine user_ids user_similarities) in
  firstn 10 (sorted_desc snd similar_users).

(** The scoring loop:
    [content_scores[content_id] += similarity * interaction_score]. *)
Definition cf_content_scores (db : Database) (uid : string)
    (top : list (string * R)) : dict Z R :=
  let target_user_interactions :=
    set_of (map interaction_content_id (interactions_of db uid)) in
  fold_left (fun content_scores '(similar_user_id, sim) =>
               fold_left (fun content_scores interaction =>
                            if negb (mem (interaction_content_id interaction)
                                         target_user_interactions)
                            then additem content_scores
                                   (interaction_content_id interaction)
                                   (sim * interaction_score interaction)
                            else content_scores)
                         (interactions_of db similar_user_id) content_scores)
            top [].

Definition get_collaborative_filtering_recommendations (db : Database) (now : Z)
    (uid : string) (num_recommendations : nat) : list Content :=
  let user_ids := set_of (map user_id (interactions db)) in
  let content_ids := set_of (map interaction_content_id (interactions db)) in
  if ((List.length user_ids <? 2)%nat || (List.length content_ids <? 2)%nat)%bool
  then _get_trending_recommendations db now num_recommendations
  else if negb (mem uid user_ids)
  then _get_trending_recommendations db now num_recommendations
  else
    let content_scores := cf_content_scores db uid (top_similar_users db uid) in
    let sorted_recommendations := sorted_desc snd content_scores in
    let recommended_ids := map fst (firstn num_recommendations sorted_recommendations) in
    filter (fun c => (mem (content_id c) recommended_ids && is_published c)%bool)
           (contents db).

(** [get_preference_based_recommendations] *)
Definition days_old (now : Z) (c : Content) : Z :=
  ((now - created_at c) / seconds_per_day)%Z.

Definition preference_score (prefs : Preferences) (now : Z) (c : Content) : R :=
  let score := 0 in
  let score := match lookup (categories prefs) (category c) with
               | Some w => score + w * 2.0
               | None => score
               end in
  let score := match lookup (authors prefs) (author c) with
               | Some w => score + w * 1.5
               | None => score
               end in
  let score := fold_left (fun sc tag =>
                            match lookup (pref_tags prefs) tag with
                            | Some w => sc + w * 1.0
                            | None => sc
                            end)
                         (tag_list c) score in
  let recency_boost := Rmax 0 (1.0 - IZR (days_old now c) / 30.0) * 0.2 in
  score + recency_boost.

Definition get_preference_based_recommendations (db : Database) (now : Z)
    (uid : string) (user_preferences : Preferences) (num_recommendations : nat)
    : list Content :=
  let interacted_content_ids := map interaction_content_id (interactions_of db uid) in
  let all_content :=
    filter (fun c => (is_published c
                      && negb (mem (content_id c) interacted_content_ids))%bool)
           (contents db) in
  let content_scores :=
    map (fun c => (c, preference_score user_preferences now c)) all_content in
  map fst (firstn num_recommendations (sorted_desc snd content_scores)).

(** ** The content-based strategy

    [TfidfVectorizer] is scikit-learn's.  Its weighting is a parameter,
    [vectorize]; of the vectorizer only the document-frequency guard of
    [fit_transform] is written out, with the constructor arguments of
    [__init__] ([min_df=2], [max_df=0.8]): the fit raises ValueError when
    [max_df * n_doc < min_df]. *)
Record State : Type := {
  content_matrix : option (list (list R));
  content_features : dict Z nat
}.

Definition initial_state : State :=
  {| content_matrix := None; content_features := [] |}.

Section ContentBased.
Variable vectorize : list string -> result (list (list R)).

Definition fit_transform (texts : list string) : result (list (list R)) :=
  if Rltb (0.8 * INR (List.length texts)) 2 then Raise ValueError
  else vectorize texts.

Definition combined_text (c : Content) : string :=
  (title c ++ " " ++ content_body c ++ " "
   ++ match tags c with Some t => t | None => "" end
   ++ " " ++ category c ++ " " ++ author c)%string.

Definition build_content_features (st : State) (db : Database) : State :=
  match filter is_published (contents db) with
  | [] => st
  | published =>
      try_except
        (let content_texts :=
           map (fun c => App.strip_tags (lower (combined_text c))) published in
         let content_ids := map content_id published in
         m <- fit_transform content_texts ;;
         Ok {| content_matrix := Some m;
               content_features :=
                 fold_left (fun d '(k, v) => setitem d k v)
                           (combine content_ids (seq 0 (List.length content_ids))) [] |})
        (fun _ => st)
  end.

(** [matrix[idx]], [similarities[idx]] *)
Definition index {A} (l : list A) (idx : nat) : result A :=
  match nth_error l idx with Some x => Ok x | None => Raise IndexError end.

Definition vadd (a b : list R) : list R := map (fun '(x, y) => x + y) (combine a b).
Definition scale (a : list R) (w : R) : list R := map (fun x => x * w) a.

Definition content_based_body (st : State) (m : list (list R)) (db : Database)
    (now : Z) (uid : string) (num_recommendations : nat) : result (list Content) :=
  let user_interactions := interactions_of db uid in
  match user_interactions with
  | [] => Ok (_get_trending_recommendations db now num_recommendations)
  | _ =>
      let interacted_content_ids :=
        set_of (map interaction_content_id user_interactions) in
      let width := match m with [] => 0%nat | row :: _ => List.length row end in
      user_vector <-
        foldM (fun uv cid =>
                 match lookup (content_features st) cid with
                 | None => Ok uv
                 | Some content_idx =>
                     row <- index m content_idx ;;
                     let weight :=
                       Py.sum (map interaction_score
                                 (filter (fun i => (interaction_content_id i =? cid)%Z)
                                         user_interactions)) in
                     Ok (vadd uv (scale row weight))
                 end)
              interacted_content_ids (repeat 0 width) ;;
      let norm := sqrt (dot user_vector user_vector) in
      let user_vector :=
        if Rltb 0 norm then map (fun x => x / norm) user_vector else user_vector in
      let similarities := cosine_similarity user_vector m in
      content_similarities <-
        mapM (fun '(cid, content_idx) =>
                sim <- index similarities content_idx ;; Ok (cid, sim))
             (filter (fun '(cid, _) => negb (mem cid interacted_content_ids))
                     (content_features st)) ;;
      let recommended_ids :=
        map fst (firstn num_recommendations (sorted_desc snd content_similarities)) in
      Ok (filter (fun c => mem (content_id c) recommended_ids) (contents db))
  end.

Definition get_content_based_recommendations (st : State) (db : Database)
    (now : Z) (uid : string) (num_recommendations : nat) : list Content * State :=
  let st := match content_matrix st with
            | None => build_content_features st db
            | Some _ => st
            end in
  match content_matrix st with
  | None => ([], st)
  | Some m =>
      (try_except (content_based_body st m db now uid num_recommendations)
                  (fun _ => _get_trending_recommendations db now num_recommendations),
       st)
  end.

(** ** The hybrid strategy: rank-decayed weights 0.4, 0.3 and 0.3 *)
Definition rank_weight (w : R) (i : nat) : R := w * (1.0 - INR i * 0.05).

Definition blend_first (w : R) (l : list Content) (acc : dict Z R * list Z)
    : dict Z R * list Z :=
  fold_left (fun '(scores, seen) '(i, c) =>
               if negb (mem (content_id c) seen)
               then (additem scores (content_id c) (rank_weight w i),
                     content_id c :: seen)
               else (scores, seen))
            (enumerate l) acc.

Definition blend_next (w : R) (l : list Content) (acc : dict Z R * list Z)
    : dict Z R * list Z :=
  fold_left (fun '(scores, seen) '(i, c) =>
               if negb (mem (content_id c) seen)
               then (additem scores (content_id c) (rank_weight w i),
                     content_id c :: seen)
               else if has_key scores (content_id c)
               then (additem scores (content_id c) (rank_weight w i), seen)
               else (scores, seen))
            (enumerate l) acc.

(** The combined scores, as [recommendation_scores] holds them before
    the final sort. *)
Definition hybrid_scores (st : State) (db : Database) (now : Z) (uid : string)
    (num_recommendations : nat) : dict Z R * State :=
  let user_preferences := analyze_user_behavior db now uid in
  let '(content_based, st) :=
    get_content_based_recommendations st db now uid (num_recommendations * 2) in
  let collaborative :=
    get_collaborative_filtering_recommendations db now uid (num_recommendations * 2) in
  let preference_based :=
    get_preference_based_recommendations db now uid user_preferences
                                         (num_recommendations * 2) in
  (fst (blend_next 0.3 preference_based
          (blend_next 0.3 collaborative
             (blend_first 0.4 content_based ([], [])))), st).

Definition get_hybrid_recommendations (st : State) (db : Database) (now : Z)
    (uid : string) (num_recommendations : nat) : list Content * State :=
  let '(recommendation_scores, st) := hybrid_scores st db now uid num_recommendations in
  let sorted_recommendations := sorted_desc snd recommendation_scores in
  let final_content_ids :=
    map fst (firstn num_recommendations sorted_recommendations) in
  (filter (fun c => mem (content_id c) final_content_ids) (contents db), st).
End ContentBased.

(** ** Feedback tracking *)
Definition action_mapping : dict string (string * R) :=
  [("clicked", ("view", 1.0)); ("liked", ("like", 2.0)); ("shared", ("share", 2.5));
   ("dismissed", ("view", -0.5)); ("saved", ("like", 3.0))]%string.

(** [track_recommendation_feedback]: "create or update interaction". *)
Definition track_recommendation_feedback (db : Database) (now : Z) (uid : string)
    (cid : Z) (action : string) : Database :=
  try_except
    (match lookup action_mapping action with
     | None => Ok db
     | Some (itype, iscore) =>
         let same := fun i =>
           ((user_id i =? uid)%string && (interaction_content_id i =? cid)%Z
            && (interaction_type i =? itype)%string)%bool in
         match find same (interactions db) with
         | Some existing_interaction =>
             update_interaction db same
               {| interaction_id := interaction_id existing_interaction;
                  user_id := user_id existing_interaction;
                  interaction_content_id := interaction_content_id existing_interaction;
                  interaction_type := interaction_type existing_interaction;
                  interaction_score := interaction_score existing_interaction + iscore;
                  timestamp := now |}
         | None => add_interaction db now uid cid itype iscore
         end
     end)
    (fun _ => db).

End Engine.

(* ================================================================== *)
(** * product_recommendation_engine.py *)
(* ================================================================== *)

Module ProductEngine.

(** A recommendation entry [{'product': .., 'score': .., 'reason': ..}]. *)
Record Recommendation : Type := {
  product : Product;
  score : R;
  reason : string
}.

(** [user_product_matrix]: user id -> product id -> score. *)
Definition Matrix : Type := dict string (dict Z R).

(** [user_matrix[user][product] += value] on the nested defaultdict. *)
Definition matrix_add (m : Matrix) (u : string) (p : Z) (v : R) : Matrix :=
  setitem m u (additem (get m u []) p v).

(** The purchase query: users JOIN orders JOIN order_items
    WHERE o.status = 'completed' GROUP BY u.id, oi.product_id. *)
Definition purchase_query (db : Database) : dict (string * Z) Z :=
  group_sum
    (flat_map (fun u =>
       flat_map (fun o =>
         if ((order_user_id o =? u)%string && (order_status o =? "completed")%string)%bool
         then flat_map (fun oi =>
                if (item_order_id oi =? order_id o)%Z
                then [((u, item_product_id oi), item_quantity oi)] else [])
                (order_items db)
         else []) (orders db)) (users db)).

(** The cart query: users JOIN cart_items GROUP BY u.id, ci.product_id;
    its score column is SUM(quantity) * 0.3. *)
Definition cart_query (db : Database) : dict (string * Z) Z :=
  group_sum
    (flat_map (fun u =>
       flat_map (fun ci =>
         if (cart_user_id ci =? u)%string
         then [((u, cart_product_id ci), cart_quantity ci)] else [])
         (cart_items db)) (users db)).

Definition build_user_product_matrix (db : Database) : Matrix :=
  let after_purchases :=
    fold_left (fun m '((u, p), q) => matrix_add m u p (IZR q))
              (purchase_query db) [] in
  fold_left (fun m '((u, p), q) => matrix_add m u p (IZR q * 0.3))
            (cart_query db) after_purchases.

(** [calculate_user_similarity]: the vectors are taken over the common
    products only; the second magnitude hands [math.sqrt] a generator.
    The item-based strategy calls it with dicts keyed by user ids. *)
Definition calculate_user_similarity {K} `{Key K}
    (user1_products user2_products : dict K R) : R :=
  try_except
    (let common_products := inter (set_of (keys user1_products))
                                  (set_of (keys user2_products)) in
     if (List.length common_products =? 0)%nat then Ok 0
     else
       user1_vector <- mapM (getitem user1_products) common_products ;;
       user2_vector <- mapM (getitem user2_products) common_products ;;
       let dot_product :=
         Py.sum (map (fun '(u1, u2) => u1 * u2) (combine user1_vector user2_vector)) in
       magnitude1 <- math_sqrt (PyFloat (Py.sum (map (fun u1 => u1 ^ 2) user1_vector))) ;;
       magnitude2 <- math_sqrt (PyGenerator (map (fun u2 => u2 ^ 2) user2_vector)) ;;
       if (Req0 magnitude1 || Req0 magnitude2)%bool then Ok 0
       else
         let similarity := dot_product / (magnitude1 * magnitude2) in
         Ok (Rmax 0 similarity))
    (fun _ => 0).

(** The sales ranking of [get_popular_products]: active products, LEFT
    JOINed with their order items (the join with [orders] keeps every
    order item, completed or not), by total sold and then by creation
    date, both descending. *)
Definition total_sold (db : Database) (p : Product) : Z :=
  fold_right Z.add 0%Z
    (map item_quantity
       (filter (fun oi => (item_product_id oi =? product_id p)%Z) (order_items db))).

Definition popular_query (db : Database) (limit : nat) : list Product :=
  firstn limit
    (sort (fun y x =>
             ((total_sold db x <? total_sold db y)%Z
              || ((total_sold db x =? total_sold db y)%Z
                  && (product_created_at x <? product_created_at y)%Z))%bool)
          (filter is_active (products db))).

Definition get_popular_products (db : Database) (limit : nat) : list Recommendation :=
  flat_map (fun row =>
              match get_product db (product_id row) with
              | Some p => [{| product := p; score := 0.5; reason := "Popular product" |}]
              | None => []
              end)
           (popular_query db limit).

(** The neighbours of the target user: similarity above 0.1, the ten best. *)
Definition similar_users (m : Matrix) (target_user_id : string)
    (target_user_products : dict Z R) : list (string * R) :=
  let user_similarities :=
    flat_map (fun '(uid, user_products) =>
                if negb (uid =? target_user_id)%string
                then let similarity :=
                       calculate_user_similarity target_user_products user_products in
                     if Rltb 0.1 similarity then [(uid, similarity)] else []
                else []) m in
  firstn 10 (sorted_desc snd user_similarities).

(** The aggregation loop: [product_scores[product_id] += score * weight]
    with [weight = similarity / total_similarity]. *)
Definition aggregate_scores (m : Matrix) (target_user_products : dict Z R)
    (top_similar_users : list (string * R)) : result (dict Z R) :=
  let total_similarity := Py.sum (map snd top_similar_users) in
  foldM (fun product_scores '(similar_user_id, similarity) =>
           similar_user_products <- getitem m similar_user_id ;;
           weight <- truediv similarity total_similarity ;;
           Ok (fold_left (fun scores '(pid, s) =>
                            if negb (has_key target_user_products pid)
                            then additem scores pid (s * weight) else scores)
                         similar_user_products product_scores))
        top_similar_users [].

Definition user_based_body (db : Database) (m : Matrix) (target_user_id : string)
    (limit : nat) : result (list Recommendation) :=
  if negb (has_key m target_user_id) then Ok (get_popular_products db limit)
  else
    target_user_products <- getitem m target_user_id ;;
    let top_similar_users := similar_users m target_user_id target_user_products in
    match top_similar_users with
    | [] => Ok (get_popular_products db limit)
    | _ =>
        product_scores <- aggregate_scores m target_user_products top_similar_users ;;
        let sorted_recommendations := sorted_desc snd product_scores in
        Ok (flat_map (fun '(pid, s) =>
                        match get_product db pid with
                        | Some p =>
                            if is_active p
                            then [{| product := p; score := s;
                                     reason := "Users with similar preferences also liked this product" |}]
                            else []
                        | None => []
                        end)
                     (firstn limit sorted_recommendations))
    end.

(** [get_user_based_recommendations]: the engine builds its matrix when
    the cached one is empty; the second component is the cache afterwards. *)
Definition get_user_based_recommendations (db : Database) (cache : Matrix)
    (target_user_id : string) (limit : nat) : list Recommendation * Matrix :=
  let m := match cache with [] => build_user_product_matrix db | _ => cache end in
  (try_except (user_based_body db m target_user_id limit)
              (fun _ => get_popular_products db limit), m).

(** [get_item_based_recommendations]: the matrix turned into product ->
    user -> score, and the products whose user vectors are similar to the
    target's. *)
Definition product_users_of (m : Matrix) : dict Z (dict string R) :=
  fold_left (fun pu '(uid, user_products) =>
               fold_left (fun pu '(pid, s) =>
                            setitem pu pid (setitem (get pu pid []) uid s))
                         user_products pu)
            m [].

Definition similar_products (product_users : dict Z (dict string R)) (pid0 : Z)
    (target_product_users : dict string R) : list (Z * R) :=
  sorted_desc snd
    (flat_map (fun '(pid, pid_users) =>
                 if negb (pid =? pid0)%Z
                 then let similarity :=
                        calculate_user_similarity target_product_users pid_users in
                      if Rltb 0.1 similarity then [(pid, similarity)] else []
                 else [])
              product_users).

Definition get_item_based_recommendations (db : Database) (cache : Matrix)
    (pid0 : Z) (limit : nat) : list Recommendation * Matrix :=
  let m := match cache with [] => build_user_product_matrix db | _ => cache end in
  (try_except
     (let product_users := product_users_of m in
      if negb (has_key product_users pid0) then Ok (get_popular_products db limit)
      else
        target_product_users <- getitem product_users pid0 ;;
        let product_similarities :=
          similar_products product_users pid0 target_product_users in
        Ok (flat_map (fun '(pid, similarity) =>
                        match get_product db pid with
                        | Some p =>
                            if is_active p
                            then [{| product := p; score := similarity;
                                     reason := "Customers who bought this item also bought" |}]
                            else []
                        | None => []
                        end)
                     (firstn limit product_similarities)))
     (fun _ => get_popular_products db limit), m).

(** [get_category_based_recommendations] *)
Definition category_query (db : Database) (uid : string) : list string :=
  let rows :=
    flat_map (fun u =>
      if (u =? uid)%string then
        flat_map (fun o =>
          if ((order_user_id o =? u)%string && (order_status o =? "completed")%string)%bool
          then flat_map (fun oi =>
                 if (item_order_id oi =? order_id o)%Z
                 then flat_map (fun p =>
                        if (product_id p =? item_product_id oi)%Z
                        then [(product_category p, item_quantity oi)] else [])
                        (products db)
                 else []) (order_items db)
          else []) (orders db)
      else []) (users db) in
  map fst (firstn 3 (sort (fun y x => (snd x <? snd y)%Z) (group_sum rows))).

Definition purchased_query (db : Database) (uid : string) : list Z :=
  set_of
    (flat_map (fun o =>
       if ((order_user_id o =? uid)%string && (order_status o =? "completed")%string)%bool
       then flat_map (fun oi =>
              if (item_order_id oi =? order_id o)%Z then [item_product_id oi] else [])
              (order_items db)
       else []) (orders db)).

Definition get_category_based_recommendations (db : Database) (uid : string)
    (limit : nat) : list Recommendation :=
  match category_query db uid with
  | [] => get_popular_products db limit
  | preferred_categories =>
      let purchased_product_ids := purchased_query db uid in
      let recommended_products :=
        fold_left (fun recs cat =>
          let prods :=
            firstn limit
              (sort (fun y x => (product_created_at x <? product_created_at y)%Z)
                 (filter (fun p =>
                            ((product_category p =? cat)%string && is_active p
                             && negb (mem (product_id p) purchased_product_ids))%bool)
                         (products db))) in
          fold_left (fun recs p =>
                       if (List.length recs <? limit)%nat
                       then recs ++ [{| product := p; score := 0.8;
                                        reason := "Based on your interest in " ++ cat |}]
                       else recs) prods recs)
          preferred_categories [] in
      firstn limit recommended_products
  end.

(** [get_hybrid_recommendations]: the user-based entries boosted by 1.2,
    then category-based ones while there is room, then popular ones. *)
Definition add_user_based (user_based : list Recommendation)
    : list Recommendation * list Z :=
  fold_left (fun '(recs, seen) rec =>
               if negb (mem (product_id (product rec)) seen)
               then (recs ++ [{| product := product rec; score := score rec * 1.2;
                                 reason := reason rec |}],
                     product_id (product rec) :: seen)
               else (recs, seen))
            user_based ([], []).

Definition add_category_based (limit : nat) (category_based : list Recommendation)
    (acc : list Recommendation * list Z) : list Recommendation * list Z :=
  fold_left (fun '(recs, seen) rec =>
               if (negb (mem (product_id (product rec)) seen)
                   && (List.length recs <? limit)%nat)%bool
               then (recs ++ [rec], product_id (product rec) :: seen)
               else (recs, seen))
            category_based acc.

Definition add_popular (popular : list Recommendation)
    (acc : list Recommendation * list Z) : list Recommendation * list Z :=
  fold_left (fun '(recs, seen) rec =>
               if negb (mem (product_id (product rec)) seen)
               then (recs ++ [rec], product_id (product rec) :: seen)
               else (recs, seen))
            popular acc.

Definition get_hybrid_recommendations (db : Database) (cache : Matrix)
    (uid : string) (limit : nat) : list Recommendation * Matrix :=
  let '(user_based, cache') :=
    get_user_based_recommendations db cache uid (limit / 2 + 1) in
  let category_based := get_category_based_recommendations db uid (limit / 2 + 1) in
  let acc := add_category_based limit category_based (add_user_based user_based) in
  let acc :=
    if (List.length (fst acc) <? limit)%nat
    then add_popular (get_popular_products db (limit - List.length (fst acc))) acc
    else acc in
  (firstn limit (fst acc), cache').

End ProductEngine.

(** The module-level functions of [product_recommendation_engine.py]; the
    matrix cached by the global engine instance is passed and returned. *)
Module ProductApi.
Import ProductEngine.

Definition get_product_recommendations_for_user (db : Database) (cache : Matrix)
    (uid recommendation_type : string) (limit : nat) : list Recommendation * Matrix :=
  try_except
    (if (recommendation_type =? "user_based")%string
     then Ok (get_user_based_recommendations db cache uid limit)
     else if (recommendation_type =? "category_based")%string
     then Ok (get_category_based_recommendations db uid limit, cache)
     else if (recommendation_type =? "hybrid")%string
     then Ok (get_hybrid_recommendations db cache uid limit)
     else Ok (get_popular_products db limit, cache))
    (fun _ => (get_popular_products db limit, cache)).

(** The simplified [get_popular_products(limit)]: the products of the
    engine's entries. *)
Definition get_popular_products (db : Database) (limit : nat) : list Product :=
  try_except
    (Ok (map product (ProductEngine.get_popular_products db limit)))
    (fun _ =>
       firstn limit
         (sort (fun y x => (product_created_at x <? product_created_at y)%Z)
               (filter is_active (products db)))).

Definition get_user_recommendations (db : Database) (cache : Matrix) (uid : string)
    (limit : nat) : list Product * Matrix :=
  try_except
    (let '(recommendations, cache') := get_hybrid_recommendations db cache uid limit in
     Ok (map product recommendations, cache'))
    (fun _ => (get_popular_products db limit, cache)).

Definition get_similar_products (db : Database) (cache : Matrix) (pid : Z)
    (limit : nat) : list Recommendation * Matrix :=
  try_except
    (Ok (get_item_based_recommendations db cache pid limit))
    (fun _ => (ProductEngine.get_popular_products db limit, cache)).

End ProductApi.

(* ================================================================== *)
(** * user_type_classifier.py: UserTypeClassifier *)
(* ================================================================== *)

Module Classifier.

Definition tech_keywords : dict string (list string) :=
  [("programming",
    ["code"; "programming"; "development"; "software"; "api"; "database";
     "algorithm"; "framework"; "library"; "python"; "javascript"; "react";
     "node.js"; "sql"; "html"; "css"; "git"; "github"; "docker"; "kubernetes";
     "cloud"; "aws"; "azure"; "deployment"; "server"; "backend"; "frontend";
     "full-stack"; "devops"; "ci/cd"; "testing"; "debugging"; "refactoring"]);
   ("tech_concepts",
    ["machine learning"; "ai"; "artificial intelligence"; "data science";
     "cybersecurity"; "blockchain"; "iot"; "automation"; "integration";
     "architecture"; "microservices"; "scalability"; "performance";
     "optimization"; "analytics"; "big data"; "neural network"]);
   ("technical_roles",
    ["developer"; "engineer"; "programmer"; "architect"; "devops";
     "data scientist"; "analyst"; "technical lead"; "cto"; "tech team"])]%string.

Definition business_keywords : dict string (list string) :=
  [("strategy",
    ["strategy"; "business model"; "revenue"; "profit"; "growth"; "market";
     "customer"; "client"; "sales"; "marketing"; "roi"; "kpi"; "metrics";
     "budget"; "finance"; "investment"; "stakeholder"; "partnership"]);
   ("management",
    ["management"; "leadership"; "team"; "project management"; "agile";
     "scrum"; "planning"; "roadmap"; "milestone"; "delivery"; "timeline";
     "resource"; "allocation"; "efficiency"; "productivity"; "workflow"]);
   ("business_roles",
    ["manager"; "director"; "ceo"; "cfo"; "cmo"; "vp"; "executive";
     "business analyst"; "product manager"; "project manager"; "consultant";
     "stakeholder"; "decision maker"])]%string.

Definition category_mapping : dict string (list string) :=
  [("tech", ["Tutorial"; "Documentation"; "Technical Guide"; "API Reference"]);
   ("business", ["Business Plan"; "Market Analysis"; "Strategy Document";
                 "Financial Report"]);
   ("mixed", ["Product Description"; "Blog Post"; "News Article";
              "General Content"])]%string.

Section Scores.
(** [re.search(pattern, text)] of Python's [re] module; the boolean is
    the [re.IGNORECASE] flag. *)
Variable re_search : string -> bool -> string -> bool.

(** [sum(1 for keyword in keywords if keyword in text)] *)
Definition matches (keywords : list string) (text : string) : nat :=
  List.length (filter (fun keyword => substring_in keyword text) keywords).

Definition _calculate_tech_score (text category : string) : R :=
  let score := 0.0 in
  let word_count := List.length (split text) in
  if (word_count =? 0)%nat then 0.0
  else
    let score := if mem category (get category_mapping "tech"%string [])
                 then score + 0.4 else score in
    let score :=
      fold_left (fun score '(keyword_type, keywords) =>
                   if (keyword_type =? "programming")%string
                   then score + INR (matches keywords text) * 0.08
                   else if (keyword_type =? "tech_concepts")%string
                   then score + INR (matches keywords text) * 0.06
                   else score + INR (matches keywords text) * 0.04)
                tech_keywords score in
    let score :=
      if re_search "\b(function|class|import|export|const|let|var)\b" false text
      then score + 0.2 else score in
    let score :=
      if re_search "\b(SELECT|INSERT|UPDATE|DELETE)\b" true text
      then score + 0.15 else score in
    let score :=
      if re_search "[a-zA-Z]+\.[a-zA-Z]+\([^)]*\)" false text
      then score + 0.1 else score in
    Rmin score 1.0.

Definition _calculate_business_score (text category : string) : R :=
  let score := 0.0 in
  let word_count := List.length (split text) in
  if (word_count =? 0)%nat then 0.0
  else
    let score := if mem category (get category_mapping "business"%string [])
                 then score + 0.4 else score in
    let score :=
      fold_left (fun score '(keyword_type, keywords) =>
                   if (keyword_type =? "strategy")%string
                   then score + INR (matches keywords text) * 0.08
                   else if (keyword_type =? "management")%string
                   then score + INR (matches keywords text) * 0.06
                   else score + INR (matches keywords text) * 0.04)
                business_keywords score in
    let score :=
      if re_search "\$[\d,]+|\b\d+%|\bQ[1-4]\b|\bFY\d{4}\b" false text
      then score + 0.15 else score in
    let score :=
      if re_search "\b(increase|decrease|growth|decline) (by|of) \d+%" false text
      then score + 0.1 else score in
    let score :=
      if re_search "\b(revenue|profit|loss|budget|cost)\b" false text
      then score + 0.1 else score in
    Rmin score 1.0.

(** [classify_content]; [tags] is [None] or a list. *)
Definition classify_content (title content category : string)
    (tags : option (list string)) : string :=
  let full_text :=
    (title ++ " " ++ content ++ " "
     ++ join " " (match tags with Some l => l | None => [] end))%string in
  let full_text := lower full_text in
  let tech_score := _calculate_tech_score full_text category in
  let business_score := _calculate_business_score full_text category in
  if (Rltb business_score tech_score && Rltb 0.3 tech_score)%bool then "tech"%string
  else if (Rltb tech_score business_score && Rltb 0.3 business_score)%bool
  then "business"%string
  else "mixed"%string.
End Scores.

(** The dict returned by [get_classification_explanation]. *)
Record Explanation : Type := {
  expl_classification : string;
  expl_tech_score : R;
  expl_business_score : R;
  expl_tech_keywords : list string;
  expl_business_keywords : list string;
  expl_reasoning : string
}.

Section Explain.
Variable re_search : string -> bool -> string -> bool.
(** The format [{score:.2f}] of a float. *)
Variable format_2f : R -> string.

Definition _get_reasoning (classification : string) (tech_score business_score : R)
    (category : string) : string :=
  if (classification =? "tech")%string
  then ("Classified as Tech content due to high technical score ("
        ++ format_2f tech_score ++ ") with technical keywords and patterns.")%string
  else if (classification =? "business")%string
  then ("Classified as Business content due to high business score ("
        ++ format_2f business_score ++ ") with business-focused language.")%string
  else ("Classified as Mixed content with balanced scores (Tech: "
        ++ format_2f tech_score ++ ", Business: " ++ format_2f business_score
        ++ ") or general content.")%string.

Definition get_classification_explanation (title content category : string)
    (tags : option (list string)) : Explanation :=
  let full_text :=
    lower (title ++ " " ++ content ++ " "
           ++ join " " (match tags with Some l => l | None => [] end))%string in
  let tech_score := _calculate_tech_score re_search full_text category in
  let business_score := _calculate_business_score re_search full_text category in
  let classification := classify_content re_search title content category tags in
  let tech_matches :=
    flat_map (fun keyword_group => filter (fun kw => substring_in kw full_text) keyword_group)
             (values tech_keywords) in
  let business_matches :=
    flat_map (fun keyword_group => filter (fun kw => substring_in kw full_text) keyword_group)
             (values business_keywords) in
  {| expl_classification := classification;
     expl_tech_score := Py.round tech_score 3;
     expl_business_score := Py.round business_score 3;
     expl_tech_keywords := firstn 10 tech_matches;
     expl_business_keywords := firstn 10 business_matches;
     expl_reasoning := _get_reasoning classification tech_score business_score category |}.
End Explain.

End Classifier.

(* ================================================================== *)
(** * ai_relevance.py: the overall score of ContentRelevanceAnalyzer *)
(* ================================================================== *)

Module Relevance.

(** A value of the analysis read from JSON: a number or a string. *)
Inductive json : Type :=
| JNum (x : R)
| JStr (s : string).

Definition weights : dict string R :=
  [("clarity", 0.20); ("depth", 0.18); ("engagement", 0.18); ("relevance", 0.22);
   ("structure", 0.12); ("originality", 0.10)]%string.

(** [_calculate_overall_score].  [ai_scores] maps a criterion to a dict
    (with the entries ['score'] and ['explanation'], as the prompt asks
    for).  Multiplying a score that is a string by the weight raises
    TypeError. *)
Definition _calculate_overall_score (ai_scores : dict string (dict string json)) : R :=
  try_except
    (totals <-
       foldM (fun '(total_score, total_weight) '(criterion, weight) =>
                match lookup ai_scores criterion with
                | Some entry =>
                    match lookup entry "score"%string with
                    | Some (JNum score) =>
                        Ok (total_score + score * weight, total_weight + weight)
                    | Some (JStr _) => Raise TypeError
                    | None => Ok (total_score, total_weight)
                    end
                | None => Ok (total_score, total_weight)
                end)
             weights (0, 0) ;;
     let '(total_score, total_weight) := totals in
     if Rltb 0 total_weight then Ok (Py.round (total_score / total_weight) 1)
     else Ok 5.0)
    (fun _ => 5.0).

End Relevance.

(* ================================================================== *)
(** * Binary64 evaluation of one score *)
(* ================================================================== *)

Module Binary64.
Import PrimFloat.
#[local] Set Warnings "-inexact-float".

(** The additions [calculate_content_similarity] performs for two items
    with the same category, the same two tags, no keywords and the same
    author, carried out in IEEE binary64 (Python's [float]) instead of the
    exact reals used everywhere else. *)
Definition identical_items_score : float :=
  (0 + 0.4 + 0.3 * (2 / 2) + 0.1)%float.

Definition threshold : float := 0.8%float.

(** [len(s)] as an operand of [/]: the binary64 value nearest to the
    integer, which is the integer itself below 2^53.  (Python divides two
    ints of that size by converting both and dividing the floats.) *)
Definition of_len (n : nat) : float :=
  FloatOps.SF2Prim
    (SpecFloat.binary_normalize FloatOps.prec FloatOps.emax (Z.of_nat n) 0 false).

(** [len(a & b) / len(a | b)] for two non-empty sets. *)
Definition overlap (a b : list string) : float :=
  (of_len (List.length (inter a b)) / of_len (List.length (union a b)))%float.

(** [calculate_content_similarity] of app.py as the interpreter computes
    it: every [+=], [*] and [/] is a binary64 operation, in the order of
    the source. *)
Definition calculate_content_similarity (content1 content2 : Content) : float :=
  let score := 0%float in
  let score := if String.eqb (category content1) (category content2)
               then (score + 0.4)%float else score in
  let tags1 := set_of (get_tags_list content1) in
  let tags2 := set_of (get_tags_list content2) in
  let score := if (App.nonempty tags1 && App.nonempty tags2)%bool
               then (score + 0.3 * overlap tags1 tags2)%float else score in
  let keywords1 := set_of (App.extract_keywords (content_body content1) 10) in
  let keywords2 := set_of (App.extract_keywords (content_body content2) 10) in
  let score := if (App.nonempty keywords1 && App.nonempty keywords2)%bool
               then (score + 0.2 * overlap keywords1 keywords2)%float else score in
  let score := if String.eqb (author content1) (author content2)
               then (score + 0.1)%float else score in
  score.

(** The score of two items with the same category and the same author as
    a function of the tag quotient and of the keyword quotient, when there
    is one. *)
Definition score_of_overlaps (tag_overlap : float) (keyword_overlap : option float)
    : float :=
  let score := (0 + 0.4)%float in
  let score := (score + 0.3 * tag_overlap)%float in
  let score := match keyword_overlap with
               | Some k => (score + 0.2 * k)%float
               | None => score
               end in
  (score + 0.1)%float.

(** The keyword quotients: two sets of at most ten keywords share at most
    ten and hold at most twenty together. *)
Definition keyword_overlaps : list float :=
  flat_map (fun i => map (fun u => (of_len i / of_len u)%float) (seq 1 20)) (seq 0 11).

(** The number of distinct tags up to which the scores are evaluated.
    (The forms of forms.py accept a tags field of at most 500 characters.) *)
Definition max_tags : nat := 1000.

(** The check of one tag quotient [q]: without a keyword term the score
    is [identical_items_score], and with each of the keyword quotients
    [ks] it is at least that. *)
Definition quotient_checked (ks : list float) (q : float) : bool :=
  (eqb (score_of_overlaps q None) identical_items_score
   && leb identical_items_score (score_of_overlaps q None)
   && forallb (fun k => leb identical_items_score (score_of_overlaps q (Some k))) ks)%bool.

(** The check of every number of tags [t] with [1 <= t <= max_tags]. *)
Definition tag_counts_checked (ks : list float) : bool :=
  forallb (fun t => quotient_checked ks (of_len t / of_len t)%float) (seq 1 max_tags).

Definition scores_checked : bool := tag_counts_checked keyword_overlaps.

End Binary64.

(* ================================================================== *)
(** * Predicates of the specification and example data *)
(* ================================================================== *)

Module Spec.

(** Every stored interaction carries a score >= 0 (the CHECK constraint
    [interaction_score_positive_check]). *)
Definition scores_nonneg (db : Database) : Prop :=
  forall i, In i (interactions db) -> 0 <= interaction_score i.

(** Every stored order carries one of the statuses the table admits (the
    CHECK constraint [order_status_check]). *)
Definition order_statuses_allowed (db : Database) : Prop :=
  forall o, In o (orders db) -> In (order_status o) order_statuses.

(** The values of a dict of accumulated scores are >= 0. *)
Definition nonneg_values {K} (d : dict K R) : Prop :=
  Forall (fun kv => 0 <= snd kv) d.

(** A bucket of a preference profile is max-normalised: every weight lies
    in [0, 1], and a non-empty bucket holds a weight equal to 1. *)
Definition bucket_normalized (bucket : dict string R) : Prop :=
  (forall k w, In (k, w) bucket -> 0 <= w <= 1) /\
  (bucket <> [] -> exists k, In (k, 1) bucket).

(** What a neighbour contributes for an item: the rating the neighbour's
    entries give it (one entry at most in a dict, several interactions in
    the interaction log). *)
Definition rating (entries : list (Z * R)) (item : Z) : R :=
  Py.sum (map (fun '(it, r) => if (it =? item)%Z then r else 0) entries).

(** The similarity-weighted average of an item's rating over the selected
    neighbours, each given by its entries and its similarity. *)
Definition weighted_average (neighbours : list (list (Z * R) * R)) (item : Z) : R :=
  let total_similarity := Py.sum (map snd neighbours) in
  Py.sum (map (fun '(entries, sim) => sim / total_similarity * rating entries item)
              neighbours).

(** The raw sum of similarity times rating. *)
Definition raw_sum (neighbours : list (list (Z * R) * R)) (item : Z) : R :=
  Py.sum (map (fun '(entries, sim) => sim * rating entries item) neighbours).

(** The interactions of a user as (item, score) entries. *)
Definition entries_of (db : Database) (uid : string) : list (Z * R) :=
  map (fun i => (interaction_content_id i, interaction_score i))
      (Engine.interactions_of db uid).

(** How often a key occurs in a list, and the total of the quantities a
    list of rows holds for a key. *)
Definition occurrences {K} `{Key K} (k : K) (l : list K) : Z :=
  Z.of_nat (List.length (filter (keq k) l)).

Definition group_total {K} `{Key K} (k : K) (rows : list (K * Z)) : Z :=
  fold_right Z.add 0%Z (map snd (filter (fun r => keq k (fst r)) rows)).

(** Every character of a string satisfies [p]. *)
Fixpoint all_chars (p : ascii -> bool) (s : string) : bool :=
  match s with
  | EmptyString => true
  | String c s' => (p c && all_chars p s')%bool
  end.

(** A lower-case ASCII letter or a digit. *)
Definition is_lower_alnum (c : ascii) : bool :=
  let n := code c in
  (((48 <=? n) && (n <=? 57)) || ((97 <=? n) && (n <=? 122)))%N%bool.

(** Every value of a dict of accumulated scores is 0. *)
Definition zero_values {K} (d : dict K R) : Prop :=
  Forall (fun kv => snd kv = 0) d.

(** The units of product [p] in the cart of user [u], and the units of
    [p] in the order items of the completed orders of [u]. *)
Definition in_cart (db : Database) (u : string) (p : Z) : Z :=
  fold_right Z.add 0%Z
    (map cart_quantity
       (filter (fun ci => ((cart_user_id ci =? u)%string && (cart_product_id ci =? p)%Z)%bool)
               (cart_items db))).

Definition purchased (db : Database) (u : string) (p : Z) : Z :=
  fold_right Z.add 0%Z
    (flat_map (fun o =>
       if ((order_user_id o =? u)%string && (order_status o =? "completed")%string)%bool
       then map item_quantity
              (filter (fun oi => ((item_order_id oi =? order_id o)%Z
                                  && (item_product_id oi =? p)%Z)%bool)
                      (order_items db))
       else [])
       (orders db)).

End Spec.

Module Examples.

Definition post (cid : Z) (tag_column : option string) (created : Z) : Content :=
  {| content_id := cid; title := "Post"; content_body := "x";
     category := "Blog Post"; status := "Published"; author := "ann";
     tags := tag_column; created_at := created |}.

Definition event (rid : Z) (uid : string) (cid : Z) (iscore : R) (time : Z)
    : UserInteraction :=
  {| interaction_id := rid; user_id := uid; interaction_content_id := cid;
     interaction_type := "view"; interaction_score := iscore; timestamp := time |}.

Definition store (cs : list Content) (log : list UserInteraction) : Database :=
  {| users := []; contents := cs; interactions := log; products := [];
     orders := []; order_items := []; cart_items := [] |}.

(** Two posts of one category and one author, both without tags. *)
Definition untagged_pair : Content * Content := (post 1 None 0, post 2 None 0).

(** Two such posts carrying the same two tags. *)
Definition tagged_pair : Content * Content :=
  (post 1 (Some "News, Tech"%string) 0, post 2 (Some "Tech,News"%string) 0).

(** A catalogue of one published post that carries no tag. *)
Definition db_untagged : Database := store [post 1 None 0] [].

(** Two tagged posts; [u1] viewed the first and, later, liked the second
    with a stronger score. *)
Definition db_two_events : Database :=
  store [post 1 (Some "News, Tech"%string) 0; post 2 (Some "Tech"%string) 0]
        [event 1 "u1" 1 1.0 100;
         {| interaction_id := 2; user_id := "u1"; interaction_content_id := 2;
            interaction_type := "like"; interaction_score := 2.0; timestamp := 200 |}].

(** Two posts; [u1] viewed the first, [u2] both, with scores 3 and 4. *)
Definition db_two_users : Database :=
  store [post 1 None 0; post 2 None 0]
        [event 1 "u1" 1 1 100; event 2 "u2" 1 3 100; event 3 "u2" 2 4 100].

(** Two posts and no interaction; at time 864000 (day 10) the first post
    is ten days old and the second is new. *)
Definition db_two_posts : Database := store [post 1 None 0; post 2 None 864000] [].

(** A vectorizer weighting for the examples; with two documents the fit
    fails on the document-frequency guard before it is used. *)
Definition no_weighting : list string -> result (list (list R)) :=
  fun _ => Ok [].

(** One published post and one view of it by user [u1] at time 100. *)
Definition db_one_view : Database := store [post 1 None 0] [event 1 "u1" 1 1.0 100].

(** A shop with three products (the third one inactive), one order item
    for product 1 and product 2 in the cart of [u1]. *)
Definition gadget (pid : Z) (active : bool) (created : Z) : Product :=
  {| product_id := pid; product_name := "Gadget"; product_category := "Tools";
     is_active := active; product_created_at := created |}.

Definition db_shop : Database :=
  {| users := ["u1"%string]; contents := []; interactions := [];
     products := [gadget 1 true 0; gadget 2 true 10; gadget 3 false 20];
     orders := [];
     order_items := [{| item_order_id := 1; item_product_id := 1; item_quantity := 2 |}];
     cart_items := [{| cart_user_id := "u1"; cart_product_id := 2; cart_quantity := 1 |}] |}.

(** Two views of post 1 by [u1]; the first row carries the later
    timestamp (a feedback rewrote it). *)
Definition db_rewritten_view : Database :=
  store [post 1 None 0] [event 1 "u1" 1 5.0 900000; event 2 "u1" 1 1.0 864000].

(** The shop after [u1] paid an order for product 1. *)
Definition db_paid_order : Database :=
  {| users := ["u1"%string]; contents := []; interactions := [];
     products := [gadget 1 true 0; gadget 2 true 10; gadget 3 false 20];
     orders := [{| order_id := 1; order_user_id := "u1"; order_status := "paid" |}];
     order_items := [{| item_order_id := 1; item_product_id := 1; item_quantity := 2 |}];
     cart_items := [{| cart_user_id := "u1"; cart_product_id := 2; cart_quantity := 1 |}] |}.

End Examples.

(* ================================================================== *)
(** * Properties *)
(* ================================================================== *)

#[export] Instance KeyLaws_Z : KeyLaws Z.
Proof. constructor; exact Z.eqb_eq. Qed.

#[export] Instance KeyLaws_nat : KeyLaws nat.
Proof. constructor; exact Nat.eqb_eq. Qed.

#[export] Instance KeyLaws_string : KeyLaws string.
Proof. constructor; exact String.eqb_eq. Qed.

#[export] Instance KeyLaws_pair {A B} `{KeyLaws A} `{KeyLaws B} : KeyLaws (A * B).
Proof.
  constructor. intros [a1 a2] [b1 b2]; cbn.
  rewrite andb_true_iff, !keq_spec. split.
  - intros [-> ->]; reflexivity.
  - intros E; inversion E; auto.
Qed.

Lemma Rltb_true (x y : R) : x < y -> Rltb x y = true.
Proof. intros Hlt; unfold Rltb; destruct (Rlt_dec x y); [reflexivity | contradiction]. Qed.

Lemma Rltb_false (x y : R) : y <= x -> Rltb x y = false.
Proof. intros Hle; unfold Rltb; destruct (Rlt_dec x y); [lra | reflexivity]. Qed.

Lemma Rltb_spec (x y : R) : Rltb x y = true <-> x < y.
Proof.
  unfold Rltb; destruct (Rlt_dec x y); split; intros; try easy.
Qed.

Lemma Req0_true (x : R) : x = 0 -> Req0 x = true.
Proof. intros ->; unfold Req0; destruct (Req_dec_T 0 0); congruence. Qed.

Lemma Req0_false (x : R) : x <> 0 -> Req0 x = false.
Proof. intros Hx; unfold Req0; destruct (Req_dec_T x 0); congruence. Qed.

(** ** The product engine's similarity and its user-based strategy *)

(** Whatever the two users bought, the product engine's similarity is 0:
    either there is no common product, or [math.sqrt] is handed a generator
    and the TypeError is caught. *)
Lemma product_similarity_is_zero {K} `{Key K} (user1_products user2_products : dict K R) :
  ProductEngine.calculate_user_similarity user1_products user2_products = 0.
Proof.
  unfold ProductEngine.calculate_user_similarity.
  destruct (List.length _ =? 0)%nat; [reflexivity|].
  destruct (mapM (getitem user1_products) _) as [v1|e1]; [|reflexivity].
  destruct (mapM (getitem user2_products) _) as [v2|e2]; [|reflexivity].
  cbn [bind try_except].
  unfold math_sqrt at 1.
  destruct (Rltb _ 0); reflexivity.
Qed.

Lemma product_similar_users_nil (m : ProductEngine.Matrix) (target : string)
    (target_products : dict Z R) :
  ProductEngine.similar_users m target target_products = [].
Proof.
  unfold ProductEngine.similar_users.
  assert (E : forall l : ProductEngine.Matrix,
             flat_map (fun '(uid, user_products) =>
                if negb (uid =? target)%string
                then let similarity :=
                       ProductEngine.calculate_user_similarity target_products user_products in
                     if Rltb 0.1 similarity then [(uid, similarity)] else []
                else []) l = []).
  { induction l as [|[uid ps] l IH]; [reflexivity|].
    simpl. destruct (negb _); [|exact IH].
    rewrite product_similarity_is_zero, Rltb_false by lra. exact IH. }
  rewrite E. reflexivity.
Qed.

(** The item-based strategy shares the defect: for a product nobody has,
    it returns the popular products; for any other product no candidate
    passes the 0.1 threshold and the list is empty. *)
Lemma item_based_is_popular_or_empty (db : Database) (cache : ProductEngine.Matrix)
    (pid0 : Z) (limit : nat) :
  fst (ProductEngine.get_item_based_recommendations db cache pid0 limit)
  = ProductEngine.get_popular_products db limit
  \/ fst (ProductEngine.get_item_based_recommendations db cache pid0 limit) = [].
Proof.
  unfold ProductEngine.get_item_based_recommendations. cbn [fst].
  set (m := match cache with [] => _ | _ => _ end). clearbody m. cbv zeta.
  destruct (negb (has_key (ProductEngine.product_users_of m) pid0)); [left; reflexivity|].
  destruct (getitem (ProductEngine.product_users_of m) pid0) as [tp|e];
    [|left; reflexivity].
  cbn [bind try_except]. right.
  assert (E : ProductEngine.similar_products (ProductEngine.product_users_of m) pid0 tp = []).
  { unfold ProductEngine.similar_products.
    induction (ProductEngine.product_users_of m) as [|[pid us] l IH]; [reflexivity|].
    simpl. destruct (negb _); [|exact IH].
    rewrite product_similarity_is_zero, Rltb_false by lra. exact IH. }
  rewrite E. destruct limit; reflexivity.
Qed.

(** C9. For every cached matrix, target user and limit, the user-based
    strategy of the product engine returns exactly what
    [get_popular_products] returns for that limit: the similarity of every
    pair of users is 0.0, so no neighbour passes the 0.1 threshold. *)
Theorem user_based_is_popularity_fallback :
  forall (db : Database) (cache : ProductEngine.Matrix) (target_user_id : string)
         (limit : nat),
    (forall a b : dict Z R, ProductEngine.calculate_user_similarity a b = 0) /\
    fst (ProductEngine.get_user_based_recommendations db cache target_user_id limit)
    = ProductEngine.get_popular_products db limit.
Proof.
  intros db cache target limit. split; [apply product_similarity_is_zero|].
  unfold ProductEngine.get_user_based_recommendations. cbn [fst].
  set (m := match cache with [] => _ | _ => _ end). clearbody m.
  unfold ProductEngine.user_based_body.
  destruct (negb (has_key m target)); [reflexivity|].
  destruct (getitem m target) as [tp|e]; [|reflexivity].
  cbn [bind]. rewrite product_similar_users_nil. reflexivity.
Qed.

(** ** Sets, dicts and sorting *)

Section ContainerFacts.
Context {K : Type} `{KeyLaws K}.

Lemma keq_refl (k : K) : keq k k = true.
Proof. apply keq_spec; reflexivity. Qed.

Lemma keq_neq (a b : K) : a <> b -> keq a b = false.
Proof.
  intros Hne. destruct (keq a b) eqn:E; [|reflexivity].
  apply keq_spec in E; contradiction.
Qed.

Lemma mem_In (k : K) (l : list K) : mem k l = true <-> In k l.
Proof.
  induction l as [|x l IH]; simpl.
  - split; [discriminate | contradiction].
  - destruct (keq k x) eqn:E.
    + apply keq_spec in E; subst; tauto.
    + rewrite IH. split; [tauto|]. intros [->|Hin]; [|exact Hin].
      rewrite keq_refl in E; discriminate.
Qed.

Lemma mem_false (k : K) (l : list K) : mem k l = false <-> ~ In k l.
Proof.
  rewrite <- mem_In. destruct (mem k l); split; congruence.
Qed.

Lemma set_of_aux_In (x : K) (l seen : list K) :
  In x (set_of_aux seen l) <-> In x l /\ ~ In x seen.
Proof.
  revert seen; induction l as [|y l IH]; intros seen; simpl.
  - tauto.
  - destruct (mem y seen) eqn:E.
    + apply mem_In in E. rewrite IH. split.
      * tauto.
      * intros [[->|Hin] Hn]; [contradiction | tauto].
    + apply mem_false in E. simpl. rewrite IH. simpl. split.
      * intros [->|[Hin Hn]]; [tauto|]. split; [tauto|]. intros Hs; apply Hn; auto.
      * intros [[->|Hin] Hn]; [tauto|].
        destruct (keq x y) eqn:Exy.
        -- apply keq_spec in Exy; subst; tauto.
        -- right. split; [exact Hin|]. intros [->|Hs]; [|contradiction].
           rewrite keq_refl in Exy; discriminate.
Qed.

Lemma set_of_In (x : K) (l : list K) : In x (set_of l) <-> In x l.
Proof. unfold set_of. rewrite set_of_aux_In. simpl. tauto. Qed.

Lemma set_of_aux_NoDup (l seen : list K) : NoDup (set_of_aux seen l).
Proof.
  revert seen; induction l as [|y l IH]; intros seen; simpl.
  - constructor.
  - destruct (mem y seen); [apply IH|].
    constructor; [|apply IH].
    rewrite set_of_aux_In. simpl. tauto.
Qed.

Lemma set_of_NoDup (l : list K) : NoDup (set_of l).
Proof. apply set_of_aux_NoDup. Qed.

Lemma set_of_nil_iff (l : list K) : set_of l = [] <-> l = [].
Proof.
  split; [|intros ->; reflexivity].
  destruct l as [|x l]; [reflexivity|]. intros E.
  assert (Hin : In x (set_of (x :: l))) by (apply set_of_In; left; reflexivity).
  rewrite E in Hin; contradiction.
Qed.

Lemma inter_In (x : K) (a b : list K) : In x (inter a b) <-> In x a /\ In x b.
Proof. unfold inter. rewrite filter_In, mem_In. tauto. Qed.

(** Lookups after an assignment. *)
Lemma lookup_setitem_eq {V} (d : dict K V) (k : K) (v : V) :
  lookup (setitem d k v) k = Some v.
Proof.
  induction d as [|[k' v'] d IH]; simpl.
  - rewrite keq_refl; reflexivity.
  - destruct (keq k k') eqn:E; simpl; rewrite E; [reflexivity | exact IH].
Qed.

Lemma lookup_setitem_neq {V} (d : dict K V) (k k0 : K) (v : V) :
  k0 <> k -> lookup (setitem d k v) k0 = lookup d k0.
Proof.
  intros Hne. induction d as [|[k' v'] d IH]; simpl.
  - rewrite keq_neq by assumption; reflexivity.
  - destruct (keq k k') eqn:E; simpl.
    + apply keq_spec in E; subst k'. rewrite keq_neq by assumption; reflexivity.
    + destruct (keq k0 k'); [reflexivity | exact IH].
Qed.

Lemma keys_setitem_In {V} (d : dict K V) (k k0 : K) (v : V) :
  In k0 (keys (setitem d k v)) <-> k0 = k \/ In k0 (keys d).
Proof.
  unfold keys. induction d as [|[k' v'] d IH]; simpl.
  - intuition.
  - destruct (keq k k') eqn:E; simpl.
    + apply keq_spec in E; subst k'. intuition.
    + rewrite IH. intuition.
Qed.

Lemma keys_setitem_NoDup {V} (d : dict K V) (k : K) (v : V) :
  NoDup (keys d) -> NoDup (keys (setitem d k v)).
Proof.
  unfold keys. induction d as [|[k' v'] d IH]; simpl; intros Hnd.
  - constructor; [intros [] | constructor].
  - inversion Hnd as [|? ? Hnotin Hnd']; subst.
    destruct (keq k k') eqn:E; simpl.
    + constructor; assumption.
    + constructor; [|apply IH; assumption].
      intros Hin. apply (keys_setitem_In d k k' v) in Hin.
      destruct Hin as [->|Hin]; [|contradiction].
      rewrite keq_refl in E; discriminate.
Qed.

Lemma lookup_In_keys {V} (d : dict K V) (k : K) :
  (exists v, lookup d k = Some v) <-> In k (keys d).
Proof.
  unfold keys. induction d as [|[k' v'] d IH]; simpl.
  - split; [intros [v Hv]; discriminate | contradiction].
  - destruct (keq k k') eqn:E.
    + apply keq_spec in E; subst. split; [auto | eauto].
    + rewrite IH. split; [auto|]. intros [->|Hin]; [|exact Hin].
      rewrite keq_refl in E; discriminate.
Qed.

Lemma has_key_In {V} (d : dict K V) (k : K) : has_key d k = true <-> In k (keys d).
Proof.
  rewrite <- lookup_In_keys. unfold has_key.
  destruct (lookup d k); split; intros Hx; try discriminate; eauto.
  destruct Hx; discriminate.
Qed.

Lemma get_additem_eq (d : dict K R) (k : K) (v : R) :
  get (additem d k v) k 0 = get d k 0 + v.
Proof. unfold additem, get at 1. rewrite lookup_setitem_eq. reflexivity. Qed.

Lemma get_additem_neq (d : dict K R) (k k0 : K) (v : R) :
  k0 <> k -> get (additem d k v) k0 0 = get d k0 0.
Proof. intros Hne. unfold additem, get. rewrite lookup_setitem_neq by assumption. reflexivity. Qed.

Lemma In_lookup {V} (d : dict K V) (k : K) (v : V) :
  NoDup (keys d) -> In (k, v) d -> lookup d k = Some v.
Proof.
  unfold keys. induction d as [|[k' v'] d IH]; simpl; intros Hnd Hin; [contradiction|].
  inversion Hnd as [|? ? Hnotin Hnd']; subst.
  destruct Hin as [E|Hin].
  - inversion E; subst. rewrite keq_refl; reflexivity.
  - destruct (keq k k') eqn:E.
    + apply keq_spec in E; subst. exfalso; apply Hnotin.
      apply in_map_iff. exists (k', v); auto.
    + apply IH; assumption.
Qed.
End ContainerFacts.

Section SortFacts.
Context {A : Type} (before : A -> A -> bool).

Lemma insert_perm (x : A) (l : list A) : Permutation (x :: l) (insert before x l).
Proof.
  induction l as [|y l IH]; simpl; [reflexivity|].
  destruct (before y x); [|reflexivity].
  rewrite perm_swap. constructor. exact IH.
Qed.

Lemma sort_perm (l : list A) : Permutation l (sort before l).
Proof.
  induction l as [|x l IH]; simpl; [constructor|].
  rewrite <- insert_perm. constructor. exact IH.
Qed.

Lemma sort_length (l : list A) : List.length (sort before l) = List.length l.
Proof. symmetry. apply Permutation_length, sort_perm. Qed.

Lemma sort_In (x : A) (l : list A) : In x (sort before l) <-> In x l.
Proof.
  split; intros Hin.
  - eapply Permutation_in; [symmetry; apply sort_perm | exact Hin].
  - eapply Permutation_in; [apply sort_perm | exact Hin].
Qed.

Lemma sort_nil_iff (l : list A) : sort before l = [] <-> l = [].
Proof.
  split; [|intros ->; reflexivity]. intros E.
  apply length_zero_iff_nil. rewrite <- sort_length, E. reflexivity.
Qed.
End SortFacts.

(** [sorted(..., reverse=True)] yields a list in descending key order. *)
Lemma sorted_desc_sorted {A} (key : A -> R) (l : list A) :
  StronglySorted (fun a b => key b <= key a) (sorted_desc key l).
Proof.
  unfold sorted_desc, sort.
  induction l as [|x l IH]; simpl; [constructor|].
  set (s := fold_right _ _ _) in *. clearbody s.
  induction s as [|y s IHs]; simpl.
  - constructor; constructor.
  - inversion IH as [|? ? Hs Hall]; subst.
    destruct (Rltb (key x) (key y)) eqn:E.
    + apply Rltb_spec in E. constructor; [apply IHs; assumption|].
      rewrite Forall_forall in *. intros z Hz.
      apply (Permutation_in z (Permutation_sym (insert_perm _ x s))) in Hz.
      destruct Hz as [<-|Hz]; [lra | apply Hall; assumption].
    + assert (Hle : key y <= key x).
      { unfold Rltb in E. destruct (Rlt_dec (key x) (key y)); [discriminate | lra]. }
      constructor; [exact IH|].
      constructor; [exact Hle|].
      rewrite Forall_forall in *. intros z Hz. specialize (Hall z Hz). lra.
Qed.

Lemma firstn_StronglySorted {A} (Rel : A -> A -> Prop) (n : nat) (l : list A) :
  StronglySorted Rel l -> StronglySorted Rel (firstn n l).
Proof.
  revert n; induction l as [|x l IH]; intros [|n] Hs; simpl; try constructor.
  - inversion Hs; subst. apply IH; assumption.
  - inversion Hs as [|? ? Hs' Hall]; subst.
    rewrite Forall_forall in *. intros z Hz. apply Hall.
    clear -Hz. revert n Hz; induction l as [|y l IHl]; intros [|n]; simpl; try tauto.
    intros [->|Hin]; [auto | right; eapply IHl; exact Hin].
Qed.

(** ** The classifier on a text without words *)

Lemma is_space_lower_char (c : ascii) : is_space (lower_char c) = is_space c.
Proof. destruct c as [[] [] [] [] [] [] [] []]; reflexivity. Qed.

Lemma is_empty_append_char (cur : string) (c : ascii) :
  is_empty (cur ++ String c EmptyString) = false.
Proof. destruct cur; reflexivity. Qed.

Lemma split_aux_cur (s cur : string) : is_empty cur = false -> split_aux s cur <> [].
Proof.
  revert cur; induction s as [|c s IH]; intros cur Hc; simpl.
  - rewrite Hc; discriminate.
  - destruct (is_space c).
    + rewrite Hc; discriminate.
    + apply IH, is_empty_append_char.
Qed.

Lemma split_lower_nil (s : string) : split s = [] -> split (lower s) = [].
Proof.
  unfold split. induction s as [|c s IH]; simpl; intros Hs; [reflexivity|].
  rewrite is_space_lower_char. destruct (is_space c).
  - apply IH; exact Hs.
  - exfalso. revert Hs. apply split_aux_cur. reflexivity.
Qed.

Lemma tech_score_blank re_search (text category : string) :
  split text = [] -> Classifier._calculate_tech_score re_search text category = 0.
Proof.
  intros Hs. unfold Classifier._calculate_tech_score. rewrite Hs. simpl. lra.
Qed.

Lemma business_score_blank re_search (text category : string) :
  split text = [] -> Classifier._calculate_business_score re_search text category = 0.
Proof.
  intros Hs. unfold Classifier._calculate_business_score. rewrite Hs. simpl. lra.
Qed.

(** C10. Whatever the category and the tag list, when the title, the body
    and the tags put together hold no word (only whitespace),
    [classify_content] answers 'mixed': both score functions return 0.0 for
    a word count of zero, before any category bonus is added. *)
Theorem classify_content_blank_is_mixed :
  forall (re_search : string -> bool -> string -> bool)
         (title content category : string) (tags : option (list string)),
    split (title ++ " " ++ content ++ " "
           ++ join " " (match tags with Some l => l | None => [] end))%string = [] ->
    Classifier._calculate_tech_score re_search
      (lower (title ++ " " ++ content ++ " "
              ++ join " " (match tags with Some l => l | None => [] end))%string)
      category = 0 /\
    Classifier._calculate_business_score re_search
      (lower (title ++ " " ++ content ++ " "
              ++ join " " (match tags with Some l => l | None => [] end))%string)
      category = 0 /\
    Classifier.classify_content re_search title content category tags = "mixed"%string.
Proof.
  intros re_search title content category tags Hblank.
  apply split_lower_nil in Hblank.
  pose proof (tech_score_blank re_search _ category Hblank) as Ht.
  pose proof (business_score_blank re_search _ category Hblank) as Hb.
  repeat split; [exact Ht | exact Hb |].
  unfold Classifier.classify_content. cbv zeta.
  rewrite Ht, Hb. rewrite !Rltb_false by lra. reflexivity.
Qed.

(** A title and a body of blanks, no tags, in the tech category 'Tutorial'. *)
Lemma classify_content_blank_is_mixed_witness :
  split (" " ++ " " ++ "  " ++ " " ++ join " " [])%string = [] /\
  Classifier.classify_content (fun _ _ _ => true) " " "  " "Tutorial" None
  = "mixed"%string.
Proof.
  split; [reflexivity|].
  apply (classify_content_blank_is_mixed (fun _ _ _ => true) " " "  " "Tutorial" None).
  reflexivity.
Defined.

(** ** Feedback tracking and the interaction store *)

Lemma Rleb_true (x y : R) : x <= y -> Rleb x y = true.
Proof. intros Hle; unfold Rleb; destruct (Rle_dec x y); [reflexivity | contradiction]. Qed.

Lemma Rleb_spec (x y : R) : Rleb x y = true <-> x <= y.
Proof. unfold Rleb; destruct (Rle_dec x y); split; intros; try easy. Qed.

Lemma find_update_first (p : UserInteraction -> bool) (row' : UserInteraction)
    (l : list UserInteraction) (e : UserInteraction) :
  find p l = Some e ->
  exists pre post, l = pre ++ e :: post /\ p e = true /\
                   update_first p row' l = pre ++ row' :: post.
Proof.
  induction l as [|x l IH]; simpl; [discriminate|].
  destruct (p x) eqn:E.
  - intros [= ->]. exists [], l. auto.
  - intros Hf. destruct (IH Hf) as (pre & post & -> & Hp & Hu).
    exists (x :: pre), post. simpl. rewrite Hu. auto.
Qed.

Lemma next_interaction_id_fresh (db : Database) :
  ~ In (next_interaction_id db) (map interaction_id (interactions db)).
Proof.
  unfold next_interaction_id.
  assert (Hmax : forall (l : list Z) (x : Z), In x l -> (x <= fold_right Z.max 0 l)%Z).
  { induction l as [|y l IH]; simpl; [contradiction|].
    intros x [->|Hx]; [lia | specialize (IH x Hx); lia]. }
  intros Hin. apply Hmax in Hin. lia.
Qed.

Lemma interaction_ok_iff (db : Database) (i : UserInteraction) :
  interaction_ok db i = true
  <-> 0 <= interaction_score i /\ In (interaction_type i) interaction_types /\
      exists c, In c (contents db) /\ content_id c = interaction_content_id i.
Proof.
  unfold interaction_ok. rewrite !andb_true_iff, Rleb_spec, mem_In, existsb_exists.
  split.
  - intros [[Hs Ht] (c & Hc & E)]. apply Z.eqb_eq in E. eauto.
  - intros (Hs & Ht & c & Hc & E). split; [tauto|]. exists c. split; [exact Hc|].
    apply Z.eqb_eq; exact E.
Qed.

Lemma feedback_type_allowed (action itype : string) (iscore : R) :
  lookup Engine.action_mapping action = Some (itype, iscore) ->
  mem itype interaction_types = true.
Proof.
  unfold Engine.action_mapping. cbn [lookup keq Key_string].
  repeat (destruct (action =? _)%string; [intros E; inversion E; reflexivity|]).
  discriminate.
Qed.

Lemma find_first_split (p : UserInteraction -> bool) (row' e : UserInteraction)
    (pre post : list UserInteraction) :
  (forall i, In i pre -> p i = false) -> p e = true ->
  find p (pre ++ e :: post) = Some e /\
  update_first p row' (pre ++ e :: post) = pre ++ row' :: post.
Proof.
  intros Hpre He. induction pre as [|x pre IH]; simpl.
  - rewrite He. split; reflexivity.
  - rewrite (Hpre x) by (left; reflexivity).
    destruct IH as [-> ->]; [intros i Hi; apply Hpre; right; exact Hi|].
    split; reflexivity.
Qed.

Lemma with_interactions_same (db : Database) :
  with_interactions db (interactions db) = db.
Proof. destruct db; reflexivity. Qed.

(** C6 (as stated, refuted).  The store holds one view of post 1 by [u1],
    with score 1.0 and timestamp 100.  A 'clicked' feedback of [u1] on post
    1 at time 200 appends nothing: it rewrites that event, whose score
    becomes 2.0 and whose timestamp becomes 200. *)
Lemma feedback_rewrites_existing_event :
  interactions Examples.db_one_view = [Examples.event 1 "u1" 1 1.0 100] /\
  interactions (Engine.track_recommendation_feedback Examples.db_one_view 200 "u1" 1 "clicked")
  = [Examples.event 1 "u1" 1 (1.0 + 1.0) 200] /\
  ~ In (Examples.event 1 "u1" 1 1.0 100)
       (interactions
          (Engine.track_recommendation_feedback Examples.db_one_view 200 "u1" 1 "clicked")).
Proof.
  assert (E : interactions
                (Engine.track_recommendation_feedback Examples.db_one_view 200 "u1" 1 "clicked")
              = [Examples.event 1 "u1" 1 (1.0 + 1.0) 200]).
  { unfold Engine.track_recommendation_feedback. cbn.
    unfold update_interaction, interaction_ok. cbn.
    rewrite Rleb_true by lra. reflexivity. }
  split; [reflexivity|]. split; [exact E|].
  rewrite E. intros [H|[]]. discriminate H.
Qed.

(** C6 (amended).  Both tracking entry points keep every stored score
    >= 0 and touch no other table.
    [track_user_interaction] appends one event -- under an id no stored
    event has, with the given user, item, type and score and the current
    time -- when the score is not negative, the type is one the table
    allows and the item exists; otherwise the store is left as it was (the
    commit failed and was rolled back).
    [track_recommendation_feedback] leaves the store as it was when the
    action is unknown or the item does not exist.  For a known action,
    mapped to a type and a score, on an existing item:
    when the user has no event of that type on the item, it appends one
    event with the user, the item, the mapped type, the mapped score and
    the current time if the mapped score is not negative, and changes
    nothing if it is negative;
    when the user has such events, it rewrites the first of them in place
    -- the mapped score is added to its score and its timestamp becomes
    the current time, every other event and field is unchanged -- if the
    new score is not negative, and changes nothing if it is negative. *)
Theorem tracking_appends_or_upserts :
  forall (db : Database) (now : Z) (uid : string) (cid : Z),
    Spec.scores_nonneg db ->
    (forall (itype : string) (iscore : R),
       let db' := App.track_user_interaction db now uid cid itype iscore in
       let valid := 0 <= iscore /\ In itype interaction_types /\
                    exists c, In c (contents db) /\ content_id c = cid in
       Spec.scores_nonneg db' /\
       db' = with_interactions db (interactions db') /\
       (valid ->
        exists rid, ~ In rid (map interaction_id (interactions db)) /\
          interactions db'
          = interactions db
            ++ [{| interaction_id := rid; user_id := uid;
                   interaction_content_id := cid; interaction_type := itype;
                   interaction_score := iscore; timestamp := now |}]) /\
       (~ valid -> db' = db)) /\
    (forall action : string,
       let db' := Engine.track_recommendation_feedback db now uid cid action in
       Spec.scores_nonneg db' /\
       db' = with_interactions db (interactions db') /\
       (lookup Engine.action_mapping action = None -> db' = db) /\
       (~ (exists c, In c (contents db) /\ content_id c = cid) -> db' = db) /\
       (forall (itype : string) (delta : R),
          lookup Engine.action_mapping action = Some (itype, delta) ->
          (exists c, In c (contents db) /\ content_id c = cid) ->
          ((forall i, In i (interactions db) -> user_id i = uid ->
                      interaction_content_id i = cid -> interaction_type i <> itype) ->
           (0 <= delta ->
            exists rid, ~ In rid (map interaction_id (interactions db)) /\
              interactions db'
              = interactions db
                ++ [{| interaction_id := rid; user_id := uid;
                       interaction_content_id := cid; interaction_type := itype;
                       interaction_score := delta; timestamp := now |}]) /\
           (delta < 0 -> db' = db)) /\
          (forall (pre post : list UserInteraction) (old : UserInteraction),
             interactions db = pre ++ old :: post ->
             user_id old = uid -> interaction_content_id old = cid ->
             interaction_type old = itype ->
             (forall i, In i pre -> user_id i = uid ->
                        interaction_content_id i = cid -> interaction_type i <> itype) ->
             (0 <= interaction_score old + delta ->
              interactions db'
              = pre ++ {| interaction_id := interaction_id old; user_id := uid;
                          interaction_content_id := cid; interaction_type := itype;
                          interaction_score := interaction_score old + delta;
                          timestamp := now |} :: post) /\
             (interaction_score old + delta < 0 -> db' = db)))).
Proof.
  intros db now uid cid Hinv.
  assert (Hadd : forall t sc,
            let db' := try_except (add_interaction db now uid cid t sc) (fun _ => db) in
            let valid := 0 <= sc /\ In t interaction_types /\
                         exists c, In c (contents db) /\ content_id c = cid in
            Spec.scores_nonneg db' /\
            db' = with_interactions db (interactions db') /\
            (valid ->
             exists rid, ~ In rid (map interaction_id (interactions db)) /\
               interactions db'
               = interactions db
                 ++ [{| interaction_id := rid; user_id := uid;
                        interaction_content_id := cid; interaction_type := t;
                        interaction_score := sc; timestamp := now |}]) /\
            (~ valid -> db' = db)).
  { intros t sc db' valid. unfold db', add_interaction.
    set (row := {| interaction_id := next_interaction_id db; user_id := uid;
                   interaction_content_id := cid; interaction_type := t;
                   interaction_score := sc; timestamp := now |}).
    pose proof (interaction_ok_iff db row) as Hok. simpl in Hok. fold valid in Hok.
    destruct (interaction_ok db row); cbn [try_except].
    - assert (Hv : valid) by (apply Hok; reflexivity).
      split; [|split; [reflexivity|split]].
      + intros i Hin. cbn in Hin. apply in_app_or in Hin.
        destruct Hin as [Hin|[<-|[]]]; [apply Hinv; exact Hin | exact (proj1 Hv)].
      + intros _. exists (next_interaction_id db).
        split; [apply next_interaction_id_fresh | reflexivity].
      + intros Hn. contradiction.
    - split; [exact Hinv|]. split; [symmetry; apply with_interactions_same|].
      split; [|reflexivity].
      intros Hv. apply Hok in Hv. discriminate. }
  split; [exact Hadd|].
  intros action db'. unfold db', Engine.track_recommendation_feedback.
  destruct (lookup Engine.action_mapping action) as [[t d]|] eqn:Hmap.
  2:{ cbn [try_except]. split; [exact Hinv|].
      split; [symmetry; apply with_interactions_same|].
      split; [reflexivity|]. split; [reflexivity|]. discriminate. }
  pose proof (feedback_type_allowed _ _ _ Hmap) as Htype.
  set (same := fun i : UserInteraction =>
                 ((user_id i =? uid)%string && (interaction_content_id i =? cid)%Z
                  && (interaction_type i =? t)%string)%bool).
  assert (Hsame : forall i, same i = true <->
                    user_id i = uid /\ interaction_content_id i = cid /\
                    interaction_type i = t).
  { intros i. unfold same. rewrite !andb_true_iff, !String.eqb_eq, Z.eqb_eq. tauto. }
  destruct (find same (interactions db)) as [old|] eqn:Hfind.
  - (* an event of the mapped type exists *)
    destruct (find_update_first same
                {| interaction_id := interaction_id old;
                   user_id := user_id old;
                   interaction_content_id := interaction_content_id old;
                   interaction_type := interaction_type old;
                   interaction_score := interaction_score old + d;
                   timestamp := now |} _ _ Hfind)
      as (pre0 & post0 & Hl & Hold & Hupd).
    apply Hsame in Hold. destruct Hold as (Hu & Hc & Ht).
    unfold update_interaction.
    match goal with
    | |- context [interaction_ok db ?r] =>
        pose proof (interaction_ok_iff db r) as Hok;
        destruct (interaction_ok db r)
    end; cbn [interaction_score interaction_type interaction_content_id] in Hok;
      cbn [try_except].
    + assert (Hv : 0 <= interaction_score old + d) by (apply Hok; reflexivity).
      split; [|split; [reflexivity|split; [discriminate|split]]].
      * intros i Hin. cbn [interactions with_interactions] in Hin.
        rewrite Hupd in Hin. apply in_app_or in Hin. destruct Hin as [Hin|[<-|Hin]].
        -- apply Hinv. rewrite Hl. apply in_or_app; left; exact Hin.
        -- exact Hv.
        -- apply Hinv. rewrite Hl. apply in_or_app; right; right; exact Hin.
      * intros Hno. exfalso. apply Hno.
        destruct Hok as [Hok _]. destruct (Hok eq_refl) as (_ & _ & c & Hin & E).
        exists c. split; [exact Hin | congruence].
      * intros itype delta [= <- <-] Hcontent. split.
        -- intros Hnone. exfalso. apply find_some in Hfind.
           exact (Hnone old (proj1 Hfind) Hu Hc Ht).
        -- intros pre post old' Hl' Hu' Hc' Ht' Hpre.
           destruct (find_first_split same
                       {| interaction_id := interaction_id old';
                          user_id := user_id old';
                          interaction_content_id := interaction_content_id old';
                          interaction_type := interaction_type old';
                          interaction_score := interaction_score old' + d;
                          timestamp := now |} old' pre post) as [Hf' Hupd'].
           { intros i Hi. destruct (same i) eqn:E; [|reflexivity].
             exfalso. apply Hsame in E. destruct E as (E1 & E2 & E3).
             exact (Hpre i Hi E1 E2 E3). }
           { apply Hsame. auto. }
           rewrite <- Hl', Hfind in Hf'. injection Hf' as ->.
           split; [|intros Hneg; lra].
           intros _. cbn [interactions with_interactions].
           rewrite Hl' at 1. rewrite Hupd', Hu', Hc', Ht'. reflexivity.
    + assert (Hbad : ~ (0 <= interaction_score old + d /\
                        In (interaction_type old) interaction_types /\
                        exists c, In c (contents db)
                                  /\ content_id c = interaction_content_id old)).
      { intros Hv. apply Hok in Hv. discriminate. }
      split; [exact Hinv|]. split; [symmetry; apply with_interactions_same|].
      split; [discriminate|]. split; [reflexivity|].
      intros itype delta [= <- <-] Hcontent. split.
      * intros Hnone. exfalso. apply find_some in Hfind.
        exact (Hnone old (proj1 Hfind) Hu Hc Ht).
      * intros pre post old' Hl' Hu' Hc' Ht' Hpre.
        destruct (find_first_split same old' old' pre post) as [Hf' _].
        { intros i Hi. destruct (same i) eqn:E; [|reflexivity].
          exfalso. apply Hsame in E. destruct E as (E1 & E2 & E3).
          exact (Hpre i Hi E1 E2 E3). }
        { apply Hsame. auto. }
        rewrite <- Hl', Hfind in Hf'. injection Hf' as ->.
        split; [|reflexivity].
        intros Hpos. exfalso. apply Hbad. split; [exact Hpos|]. split.
        -- rewrite Ht. apply mem_In. exact Htype.
        -- rewrite Hc. exact Hcontent.
  - (* no event of the mapped type *)
    destruct (Hadd t d) as (Hs & Hframe & Hvalid & Hinvalid).
    split; [exact Hs|]. split; [exact Hframe|]. split; [discriminate|]. split.
    + intros Hno. apply Hinvalid. intros (_ & _ & Hc). exact (Hno Hc).
    + intros itype delta [= <- <-] Hcontent. split.
      * intros _. split.
        -- intros Hpos. apply Hvalid. split; [exact Hpos|].
           split; [apply mem_In; exact Htype | exact Hcontent].
        -- intros Hneg. apply Hinvalid. intros (Hpos & _). lra.
      * intros pre post old Hl Hu Hc Ht _. exfalso.
        assert (Hin : In old (interactions db))
          by (rewrite Hl; apply in_or_app; right; left; reflexivity).
        pose proof (find_none _ _ Hfind old Hin) as E.
        assert (E' : same old = true) by (apply Hsame; auto).
        congruence.
Qed.

(** The store with one view: a 'clicked' feedback of its user rewrites the
    event, a 'dismissed' feedback of another user is dropped. *)
Lemma tracking_appends_or_upserts_witness :
  Spec.scores_nonneg Examples.db_one_view /\
  interactions
    (Engine.track_recommendation_feedback Examples.db_one_view 200 "u1" 1 "clicked")
  = [Examples.event 1 "u1" 1 (1.0 + 1.0) 200] /\
  Engine.track_recommendation_feedback Examples.db_one_view 200 "u2" 1 "dismissed"
  = Examples.db_one_view.
Proof.
  assert (Hinv : Spec.scores_nonneg Examples.db_one_view).
  { intros i [<-|[]]. cbn. lra. }
  assert (Hpost : exists c, In c (contents Examples.db_one_view) /\ content_id c = 1%Z).
  { exists (Examples.post 1 None 0). split; [left|]; reflexivity. }
  split; [exact Hinv|]. split.
  - destruct (tracking_appends_or_upserts Examples.db_one_view 200 "u1" 1 Hinv)
      as [_ Hfeedback].
    destruct (Hfeedback "clicked"%string) as (_ & _ & _ & _ & Hmapped).
    destruct (Hmapped "view"%string 1.0 eq_refl Hpost) as [_ Hupsert].
    apply (Hupsert [] [] (Examples.event 1 "u1" 1 1.0 100)); try reflexivity.
    + intros i [].
    + cbn. lra.
  - destruct (tracking_appends_or_upserts Examples.db_one_view 200 "u2" 1 Hinv)
      as [_ Hfeedback].
    destruct (Hfeedback "dismissed"%string) as (_ & _ & _ & _ & Hmapped).
    destruct (Hmapped "view"%string (-0.5) eq_refl Hpost) as [Hnew _].
    apply Hnew.
    + intros i [<-|[]]. cbn. discriminate.
    + lra.
Defined.

(** ** The trending and popularity fallbacks *)

Lemma firstn_In {A} (n : nat) (l : list A) (x : A) : In x (firstn n l) -> In x l.
Proof.
  revert n; induction l as [|y l IH]; intros [|n]; simpl; try tauto.
  intros [->|Hin]; [auto | right; eapply IH; exact Hin].
Qed.

Lemma firstn_nonempty {A} (n : nat) (l : list A) :
  firstn n l <> [] <-> (0 < n)%nat /\ l <> [].
Proof.
  destruct n as [|n], l as [|x l]; simpl; split.
  - congruence.
  - intros [Hn _]; lia.
  - congruence.
  - intros [Hn _]; lia.
  - congruence.
  - intros [_ Hl]; congruence.
  - intros _. split; [lia | discriminate].
  - intros _. discriminate.
Qed.

Lemma flat_map_nonempty {A B} (f : A -> list B) (l : list A) :
  flat_map f l <> [] <-> exists x, In x l /\ f x <> [].
Proof.
  induction l as [|a l IH]; simpl.
  - split; [congruence | intros (x & [] & _)].
  - split.
    + intros Hne. destruct (f a) as [|b bs] eqn:E.
      * simpl in Hne. apply IH in Hne. destruct Hne as (x & Hin & Hx).
        exists x; auto.
      * exists a. split; [auto | rewrite E; discriminate].
    + intros (x & [->|Hin] & Hx).
      * destruct (f x); [congruence | discriminate].
      * intros E. apply app_eq_nil in E. destruct E as [_ E].
        revert E. apply IH. exists x; auto.
Qed.

Lemma filter_nonempty {A} (f : A -> bool) (l : list A) :
  filter f l <> [] <-> exists x, In x l /\ f x = true.
Proof.
  split.
  - intros Hne. destruct (filter f l) as [|x xs] eqn:E; [congruence|].
    exists x. apply filter_In. rewrite E. left; reflexivity.
  - intros (x & Hin & Hx) E.
    assert (Hf : In x (filter f l)) by (apply filter_In; auto).
    rewrite E in Hf; contradiction.
Qed.

Section CounterFacts.
Context {K : Type} `{KeyLaws K}.

Lemma group_sum_keys (rows : list (K * Z)) (k : K) :
  In k (keys (group_sum rows)) <-> In k (map fst rows).
Proof.
  unfold group_sum.
  assert (G : forall acc : dict K Z,
             In k (keys (fold_left
                           (fun acc '(k, q) => setitem acc k (get acc k 0%Z + q)%Z)
                           rows acc))
             <-> In k (keys acc) \/ In k (map fst rows)).
  { induction rows as [|[k' q] rows IH]; intros acc; simpl; [tauto|].
    rewrite IH, keys_setitem_In. intuition. }
  rewrite G. simpl. tauto.
Qed.

Lemma counter_keys (l : list K) (k : K) : In k (keys (counter l)) <-> In k l.
Proof.
  unfold counter. rewrite group_sum_keys, map_map. simpl. rewrite map_id. tauto.
Qed.

Lemma most_common_In (n : nat) (l : list K) (k : K) :
  In k (map fst (most_common n l)) -> In k l.
Proof.
  unfold most_common. intros Hin. apply in_map_iff in Hin.
  destruct Hin as ([k' c] & <- & Hin). apply firstn_In, sort_In in Hin.
  apply counter_keys. unfold keys. apply in_map_iff. exists (k', c); auto.
Qed.

Lemma most_common_nonempty (n : nat) (l : list K) :
  (0 < n)%nat -> l <> [] -> map fst (most_common n l) <> [].
Proof.
  intros Hn Hl E. apply map_eq_nil in E. revert E.
  unfold most_common. apply firstn_nonempty. split; [exact Hn|].
  rewrite sort_nil_iff. intros E.
  destruct l as [|x l]; [congruence|].
  assert (Hin : In x (keys (counter (x :: l)))) by (apply counter_keys; left; reflexivity).
  rewrite E in Hin; contradiction.
Qed.
End CounterFacts.

Lemma get_product_found (db : Database) (p : Product) :
  In p (products db) -> exists q, get_product db (product_id p) = Some q.
Proof.
  intros Hin. unfold get_product.
  destruct (find _ (products db)) as [q|] eqn:E; [eauto|].
  apply (find_none _ _ E) in Hin. rewrite Z.eqb_refl in Hin. discriminate.
Qed.

(** C5 (as stated, refuted).  The catalogue holds one published post, which
    carries no tag: [get_trending_content] returns the empty list. *)
Lemma trending_empty_on_untagged_catalogue :
  (exists c, In c (contents Examples.db_untagged) /\ is_published c = true) /\
  App.get_trending_content Examples.db_untagged 5 = [].
Proof.
  split; [|reflexivity].
  exists (Examples.post 1 None 0). split; [left; reflexivity | reflexivity].
Qed.

(** C5 (amended).  The three fallbacks are total functions of the store.
    [get_popular_products] is non-empty exactly when the limit is positive
    and some product is active.  The engine's trending list is non-empty
    exactly when the number asked for is positive and some published item
    was created within the last 30 days.  [get_trending_content] is
    non-empty exactly when the limit is positive and one of the 20 most
    recently created published items carries a tag. *)
Theorem fallbacks_nonempty_iff :
  forall (db : Database) (now : Z) (n : nat),
    (ProductEngine.get_popular_products db n <> [] <->
     (0 < n)%nat /\ exists p, In p (products db) /\ is_active p = true) /\
    (Engine._get_trending_recommendations db now n <> [] <->
     (0 < n)%nat /\
     exists c, In c (contents db) /\ is_published c = true
               /\ (now - 30 * seconds_per_day <= created_at c)%Z) /\
    (App.get_trending_content db n <> [] <->
     (0 < n)%nat /\
     exists c, In c (firstn 20 (sort (fun y x => (created_at x <? created_at y)%Z)
                                     (filter is_published (contents db))))
               /\ get_tags_list c <> []).
Proof.
  intros db now n. split; [|split].
  - unfold ProductEngine.get_popular_products.
    rewrite flat_map_nonempty. unfold ProductEngine.popular_query. split.
    + intros (row & Hin & _).
      assert (Hne : firstn n (sort
                (fun y x =>
                   ((ProductEngine.total_sold db x <? ProductEngine.total_sold db y)%Z
                    || ((ProductEngine.total_sold db x =? ProductEngine.total_sold db y)%Z
                        && (product_created_at x <? product_created_at y)%Z))%bool)
                (filter is_active (products db))) <> [])
        by (intros E; rewrite E in Hin; contradiction).
      apply firstn_nonempty in Hne. destruct Hne as [Hn Hne].
      split; [exact Hn|]. rewrite sort_nil_iff in Hne.
      apply filter_nonempty in Hne. exact Hne.
    + intros [Hn Hex]. apply filter_nonempty in Hex.
      remember (firstn n _) as q eqn:E.
      assert (Hq : q <> []).
      { rewrite E. apply firstn_nonempty. split; [exact Hn|].
        rewrite sort_nil_iff. exact Hex. }
      destruct q as [|row rows]; [congruence|].
      exists row. split; [left; reflexivity|].
      assert (Hin : In row (row :: rows)) by (left; reflexivity).
      rewrite E in Hin.
      apply firstn_In, sort_In, filter_In in Hin. destruct Hin as [Hin _].
      destruct (get_product_found db row Hin) as [q ->]. discriminate.
  - unfold Engine._get_trending_recommendations.
    rewrite firstn_nonempty, sort_nil_iff, filter_nonempty.
    split; intros [Hn (c & Hin & Hc)]; (split; [exact Hn|]); exists c.
    + apply andb_true_iff in Hc. destruct Hc as [Hp Ht].
      apply Z.leb_le in Ht. auto.
    + destruct Hc as [Hp Ht]. split; [exact Hin|].
      apply andb_true_iff. split; [exact Hp | apply Z.leb_le; exact Ht].
  - unfold App.get_trending_content.
    set (recent := firstn 20 _).
    rewrite firstn_nonempty, sort_nil_iff, flat_map_nonempty.
    split; intros [Hn Hex]; (split; [exact Hn|]).
    + destruct Hex as (c & Hin & Hc). exists c. split; [exact Hin|].
      intros E. apply Hc. cbv beta zeta. rewrite E. reflexivity.
    + destruct Hex as (c & Hin & Hc).
      assert (Hall : flat_map get_tags_list recent <> []).
      { apply flat_map_nonempty. exists c; auto. }
      pose proof (most_common_nonempty 5 _ ltac:(lia) Hall) as Hpop.
      destruct (map fst (most_common 5 (flat_map get_tags_list recent)))
        as [|t ts] eqn:Et; [congruence|].
      assert (Ht : In t (flat_map get_tags_list recent)).
      { apply (most_common_In 5). rewrite Et. left; reflexivity. }
      apply in_flat_map in Ht. destruct Ht as (c' & Hin' & Ht).
      exists c'. split; [exact Hin'|]. cbv beta zeta.
      destruct (filter (fun tag => mem tag (t :: ts)) (get_tags_list c')) as [|u us] eqn:Ef.
      * exfalso.
        assert (Hf : In t (filter (fun tag => mem tag (t :: ts)) (get_tags_list c'))).
        { apply filter_In. split; [exact Ht|]. apply mem_In. left; reflexivity. }
        rewrite Ef in Hf; contradiction.
      * simpl. discriminate.
Qed.

(** ** The content-specific similarity *)

(** The string functions on inputs whose Python results are known. *)
Example strip_tags_values :
  App.strip_tags "a<b>c<>d<e" = "ac<>d<e"%string /\
  App.strip_tags "<<x>>" = ">"%string /\
  App.strip_special "it's 100% <ok>" = "its 100 ok"%string.
Proof. repeat split; reflexivity. Qed.

Example extract_keywords_value :
  App.extract_keywords
    "<p>Hello World, hello world! Python python PYTHON code coding the these with</p> extra?mark"
    10
  = ["python"; "hello"; "world"; "code"; "coding"; "extramark"]%string.
Proof. reflexivity. Qed.

Example get_tags_list_value :
  get_tags_list (Examples.post 1 (Some " News, Tech,, ai ,"%string) 0)
  = ["News"; "Tech"; "ai"]%string /\
  Engine.tag_list (Examples.post 1 (Some " News, Tech,, ai ,"%string) 0)
  = ["news"; "tech"; ""; "ai"; ""]%string.
Proof. split; reflexivity. Qed.

Lemma filter_all {A} (f : A -> bool) (l : list A) :
  (forall x, In x l -> f x = true) -> filter f l = l.
Proof.
  induction l as [|x l IH]; simpl; intros Hall; [reflexivity|].
  rewrite Hall by (left; reflexivity). f_equal. apply IH. intros y Hy; apply Hall; right; exact Hy.
Qed.

Lemma filter_none {A} (f : A -> bool) (l : list A) :
  (forall x, In x l -> f x = false) -> filter f l = [].
Proof.
  induction l as [|x l IH]; simpl; intros Hall; [reflexivity|].
  rewrite Hall by (left; reflexivity). apply IH. intros y Hy; apply Hall; right; exact Hy.
Qed.

Lemma overlap_nonneg (a b : list string) : 0 <= App.overlap a b.
Proof.
  unfold App.overlap, Rdiv.
  apply Rmult_le_pos; [apply pos_INR|].
  destruct (List.length (union a b)) as [|n] eqn:E.
  - simpl. rewrite Rinv_0. lra.
  - left. apply Rinv_0_lt_compat. apply lt_0_INR. lia.
Qed.

Lemma overlap_same (a b : list string) :
  a <> [] -> (forall t, In t a <-> In t b) -> App.overlap a b = 1.
Proof.
  intros Hne Hsame. unfold App.overlap, inter, union.
  rewrite (filter_all (fun x => mem x b) a)
    by (intros x Hx; apply mem_In, Hsame; exact Hx).
  rewrite (filter_none (fun x => negb (mem x a)) b)
    by (intros x Hx; apply negb_false_iff, mem_In, Hsame; exact Hx).
  rewrite app_nil_r. apply Rinv_r.
  apply not_0_INR. destruct a; [congruence | simpl; lia].
Qed.

(** C8 (as stated, refuted).  Two posts have the same category, the same
    author and the same (empty) tag set; the tag term is skipped when a tag
    set is empty, and their score is 0.4 + 0.1. *)
Lemma same_category_author_no_tags_scores_half :
  category (fst Examples.untagged_pair) = category (snd Examples.untagged_pair) /\
  author (fst Examples.untagged_pair) = author (snd Examples.untagged_pair) /\
  get_tags_list (fst Examples.untagged_pair) = get_tags_list (snd Examples.untagged_pair) /\
  App.calculate_content_similarity (fst Examples.untagged_pair) (snd Examples.untagged_pair)
  = 0.5 /\
  ~ 0.8 <= App.calculate_content_similarity (fst Examples.untagged_pair)
                                            (snd Examples.untagged_pair).
Proof.
  assert (E : App.calculate_content_similarity (fst Examples.untagged_pair)
                                               (snd Examples.untagged_pair) = 0.5).
  { unfold App.calculate_content_similarity. cbn. lra. }
  repeat split; try reflexivity; [exact E|]. rewrite E. lra.
Qed.

(** *** The score in binary64 *)

Lemma set_of_length_le (l : list string) :
  (List.length (set_of l) <= List.length l)%nat.
Proof.
  apply NoDup_incl_length; [apply set_of_NoDup|].
  intros x Hx. apply set_of_In. exact Hx.
Qed.

Lemma keywords_at_most_ten (text : string) :
  (List.length (set_of (App.extract_keywords text 10)) <= 10)%nat.
Proof.
  etransitivity; [apply set_of_length_le|].
  unfold App.extract_keywords, most_common. cbv zeta.
  rewrite length_map. apply firstn_le_length.
Qed.

Lemma inter_length_le (a b : list string) :
  (List.length (inter a b) <= List.length a)%nat.
Proof. unfold inter. apply filter_length_le. Qed.

Lemma union_length_le (a b : list string) :
  (List.length (union a b) <= List.length a + List.length b)%nat.
Proof.
  unfold union. rewrite length_app.
  pose proof (filter_length_le (fun x => negb (mem x a)) b). lia.
Qed.

Lemma scores_checked_true : Binary64.scores_checked = true.
Proof. vm_compute. reflexivity. Qed.

(** The evaluated scores cover every number of tags up to [max_tags] and
    every pair of keyword sets. *)
Lemma score_of_overlaps_bound (t : nat) (kw : option (nat * nat)) :
  (1 <= t <= Binary64.max_tags)%nat ->
  match kw with
  | Some (i, u) => (i <= 10)%nat /\ (1 <= u <= 20)%nat
  | None => True
  end ->
  PrimFloat.leb Binary64.identical_items_score
    (Binary64.score_of_overlaps
       (PrimFloat.div (Binary64.of_len t) (Binary64.of_len t))
       (option_map (fun '(i, u) => PrimFloat.div (Binary64.of_len i) (Binary64.of_len u))
                   kw))
  = true /\
  PrimFloat.eqb
    (Binary64.score_of_overlaps
       (PrimFloat.div (Binary64.of_len t) (Binary64.of_len t)) None)
    Binary64.identical_items_score
  = true.
Proof.
  intros Ht Hkw. pose proof scores_checked_true as Hall.
  unfold Binary64.scores_checked, Binary64.tag_counts_checked in Hall.
  rewrite forallb_forall in Hall.
  assert (Hin : In t (seq 1 Binary64.max_tags)) by (apply in_seq; lia).
  specialize (Hall t Hin). unfold Binary64.quotient_checked in Hall.
  rewrite !andb_true_iff in Hall. destruct Hall as [[Hexact Hnone] Hsome].
  split; [|exact Hexact].
  destruct kw as [[i u]|]; cbn [option_map]; [|exact Hnone].
  rewrite forallb_forall in Hsome. apply Hsome.
  unfold Binary64.keyword_overlaps. apply in_flat_map.
  exists i. split; [apply in_seq; lia|].
  apply in_map_iff. exists u. split; [reflexivity | apply in_seq; lia].
Qed.

(** The binary64 score of two items with the same category, author and
    non-empty tag set, in terms of the sizes of the sets. *)
Lemma binary64_score_of_counts (c1 c2 : Content) :
  category c1 = category c2 ->
  author c1 = author c2 ->
  (forall t, In t (get_tags_list c1) <-> In t (get_tags_list c2)) ->
  get_tags_list c1 <> [] ->
  exists kw : option (nat * nat),
    match kw with
    | Some (i, u) => (i <= 10)%nat /\ (1 <= u <= 20)%nat
    | None => True
    end /\
    (App.extract_keywords (content_body c1) 10 = []
     \/ App.extract_keywords (content_body c2) 10 = [] -> kw = None) /\
    Binary64.calculate_content_similarity c1 c2
    = Binary64.score_of_overlaps
        (PrimFloat.div (Binary64.of_len (List.length (set_of (get_tags_list c1))))
                       (Binary64.of_len (List.length (set_of (get_tags_list c1)))))
        (option_map (fun '(i, u) => PrimFloat.div (Binary64.of_len i) (Binary64.of_len u))
                    kw).
Proof.
  intros Hcat Hauth Htags Hne.
  unfold Binary64.calculate_content_similarity. cbv zeta.
  rewrite Hcat, Hauth, !String.eqb_refl.
  assert (Hne1 : set_of (get_tags_list c1) <> []) by (rewrite set_of_nil_iff; exact Hne).
  assert (Hsame : forall t, In t (set_of (get_tags_list c1))
                            <-> In t (set_of (get_tags_list c2)))
    by (intros t; rewrite !set_of_In; apply Htags).
  assert (Hn : (App.nonempty (set_of (get_tags_list c1))
                && App.nonempty (set_of (get_tags_list c2)))%bool = true).
  { destruct (set_of (get_tags_list c1)) as [|t ts] eqn:E1; [congruence|].
    destruct (set_of (get_tags_list c2)) as [|t' ts'] eqn:E2; [|reflexivity].
    assert (Hin : In t (t :: ts)) by (left; reflexivity).
    apply Hsame in Hin. contradiction. }
  rewrite Hn. clear Hn.
  assert (Etags : Binary64.overlap (set_of (get_tags_list c1)) (set_of (get_tags_list c2))
                  = PrimFloat.div
                      (Binary64.of_len (List.length (set_of (get_tags_list c1))))
                      (Binary64.of_len (List.length (set_of (get_tags_list c1))))).
  { unfold Binary64.overlap, inter, union.
    rewrite (filter_all (fun x => mem x (set_of (get_tags_list c2))))
      by (intros x Hx; apply mem_In, Hsame; exact Hx).
    rewrite (filter_none (fun x => negb (mem x (set_of (get_tags_list c1)))))
      by (intros x Hx; apply negb_false_iff, mem_In, Hsame; exact Hx).
    rewrite app_nil_r. reflexivity. }
  rewrite Etags.
  set (k1 := set_of (App.extract_keywords (content_body c1) 10)).
  set (k2 := set_of (App.extract_keywords (content_body c2) 10)).
  destruct (App.nonempty k1 && App.nonempty k2)%bool eqn:Ek.
  - exists (Some (List.length (inter k1 k2), List.length (union k1 k2))).
    split; [|split; [|reflexivity]].
    2:{ intros Hempty. exfalso. unfold k1, k2 in Ek.
        destruct Hempty as [E|E]; rewrite E in Ek;
          [discriminate Ek | rewrite andb_false_r in Ek; discriminate Ek]. }
    pose proof (keywords_at_most_ten (content_body c1)) as H1.
    pose proof (keywords_at_most_ten (content_body c2)) as H2.
    fold k1 in H1. fold k2 in H2.
    pose proof (inter_length_le k1 k2). pose proof (union_length_le k1 k2).
    assert (1 <= List.length (union k1 k2))%nat; [|lia].
    unfold union. rewrite length_app.
    destruct k1; [discriminate Ek | simpl; lia].
  - exists None. split; [exact I|]. split; reflexivity.
Qed.

Section Binary64Bound.
Import PrimFloat.
#[local] Set Warnings "-inexact-float".

(** C8 (amended).  Two content items with the same category, the same
    author and the same non-empty tag set score at least the sum of the
    category bonus 0.4, the full tag term 0.3 and the author bonus 0.1,
    whatever their body text.  In exact arithmetic that sum is 0.8.  As
    app.py computes it, in binary64, the sum is 0.7999999999999999, the
    float just below 0.8: with up to [Binary64.max_tags] distinct tags the
    score is at least that float, and it is exactly that float, hence
    below 0.8, when one of the bodies yields no keyword. *)
Theorem same_category_tags_author_score :
  forall c1 c2 : Content,
    category c1 = category c2 ->
    author c1 = author c2 ->
    (forall t, In t (get_tags_list c1) <-> In t (get_tags_list c2)) ->
    get_tags_list c1 <> [] ->
    0.8 <= App.calculate_content_similarity c1 c2 /\
    Binary64.identical_items_score = 0.7999999999999999%float /\
    PrimFloat.ltb 0.7999999999999999%float 0.8%float = true /\
    ((List.length (set_of (get_tags_list c1)) <= Binary64.max_tags)%nat ->
     PrimFloat.leb 0.7999999999999999%float
                   (Binary64.calculate_content_similarity c1 c2) = true /\
     (App.extract_keywords (content_body c1) 10 = []
      \/ App.extract_keywords (content_body c2) 10 = [] ->
      PrimFloat.eqb (Binary64.calculate_content_similarity c1 c2)
                    0.7999999999999999%float = true)).
Proof.
  intros c1 c2 Hcat Hauth Htags Hne.
  assert (Hne1 : set_of (get_tags_list c1) <> []) by (rewrite set_of_nil_iff; exact Hne).
  split; [|split; [reflexivity|split; [reflexivity|]]].
  - unfold App.calculate_content_similarity. cbv zeta.
    rewrite Hcat, Hauth, !String.eqb_refl.
    assert (Hsame : forall t, In t (set_of (get_tags_list c1))
                              <-> In t (set_of (get_tags_list c2)))
      by (intros t; rewrite !set_of_In; apply Htags).
    assert (Hne2 : set_of (get_tags_list c2) <> []).
    { destruct (set_of (get_tags_list c1)) as [|t ts] eqn:E1; [congruence|].
      intros E2. assert (Hin : In t (t :: ts)) by (left; reflexivity).
      apply Hsame in Hin. rewrite E2 in Hin. contradiction. }
    rewrite (overlap_same _ _ Hne1 Hsame).
    assert (Hn : (App.nonempty (set_of (get_tags_list c1))
                  && App.nonempty (set_of (get_tags_list c2)))%bool = true).
    { destruct (set_of (get_tags_list c1)); [congruence|].
      destruct (set_of (get_tags_list c2)); [congruence|]. reflexivity. }
    rewrite Hn. clear Hn.
    pose proof (overlap_nonneg (set_of (App.extract_keywords (content_body c1) 10))
                               (set_of (App.extract_keywords (content_body c2) 10))) as Hk.
    destruct (App.nonempty (set_of (App.extract_keywords _ _)) && _)%bool; lra.
  - intros Hmax.
    destruct (binary64_score_of_counts c1 c2 Hcat Hauth Htags Hne)
      as (kw & Hkw & Hnone & ->).
    change 0.7999999999999999%float with Binary64.identical_items_score.
    assert (Ht : (1 <= List.length (set_of (get_tags_list c1)) <= Binary64.max_tags)%nat).
    { split; [|exact Hmax].
      destruct (set_of (get_tags_list c1)); [congruence | simpl; lia]. }
    destruct (score_of_overlaps_bound _ kw Ht Hkw) as [Hbound Hexact].
    split; [exact Hbound|].
    intros Hempty. rewrite (Hnone Hempty). exact Hexact.
Qed.

(** Rounding remark.  With binary64 additions the three terms
    0.4 + 0.3 + 0.1 sum to 0.7999999999999999, one unit in the last place
    below the binary64 value of 0.8; the two posts tagged 'News, Tech' and
    'Tech,News' score exactly that. *)
Lemma binary64_score_just_below_threshold :
  PrimFloat.ltb Binary64.identical_items_score Binary64.threshold = true /\
  PrimFloat.eqb Binary64.identical_items_score
                (PrimFloat.next_down Binary64.threshold) = true /\
  PrimFloat.eqb (Binary64.calculate_content_similarity (fst Examples.tagged_pair)
                                                       (snd Examples.tagged_pair))
                Binary64.identical_items_score = true.
Proof. split; [|split]; vm_compute; reflexivity. Qed.

(** Two posts tagged 'News, Tech' and 'Tech,News'. *)
Lemma same_category_tags_author_score_witness :
  category (fst Examples.tagged_pair) = category (snd Examples.tagged_pair) /\
  author (fst Examples.tagged_pair) = author (snd Examples.tagged_pair) /\
  (forall t, In t (get_tags_list (fst Examples.tagged_pair))
             <-> In t (get_tags_list (snd Examples.tagged_pair))) /\
  get_tags_list (fst Examples.tagged_pair) <> [] /\
  (List.length (set_of (get_tags_list (fst Examples.tagged_pair)))
   <= Binary64.max_tags)%nat /\
  0.8 <= App.calculate_content_similarity (fst Examples.tagged_pair)
                                          (snd Examples.tagged_pair) /\
  PrimFloat.leb 0.7999999999999999%float
                (Binary64.calculate_content_similarity (fst Examples.tagged_pair)
                                                       (snd Examples.tagged_pair))
  = true /\
  PrimFloat.eqb (Binary64.calculate_content_similarity (fst Examples.tagged_pair)
                                                       (snd Examples.tagged_pair))
                0.7999999999999999%float
  = true.
Proof.
  assert (Htags : forall t, In t (get_tags_list (fst Examples.tagged_pair))
                            <-> In t (get_tags_list (snd Examples.tagged_pair)))
    by (intros t; cbn; tauto).
  assert (Hne : get_tags_list (fst Examples.tagged_pair) <> []) by (cbn; discriminate).
  assert (Hmax : (List.length (set_of (get_tags_list (fst Examples.tagged_pair)))
                  <= Binary64.max_tags)%nat).
  { change (2 <= Binary64.max_tags)%nat. unfold Binary64.max_tags. lia. }
  split; [reflexivity|]. split; [reflexivity|]. split; [exact Htags|]. split; [exact Hne|].
  split; [exact Hmax|].
  destruct (same_category_tags_author_score (fst Examples.tagged_pair)
              (snd Examples.tagged_pair) eq_refl eq_refl Htags Hne)
    as (Hreal & _ & _ & Hfloat).
  destruct (Hfloat Hmax) as [Hbound Hexact].
  split; [exact Hreal|]. split; [exact Hbound|].
  apply Hexact. left. reflexivity.
Defined.

End Binary64Bound.

(** ** The behaviour analyser *)

Section AdditemFacts.
Context {K : Type} `{KeyLaws K}.

Lemma get_nonneg (d : dict K R) (k : K) : Spec.nonneg_values d -> 0 <= get d k 0.
Proof.
  unfold get, Spec.nonneg_values. induction d as [|[k' v'] d IH]; simpl; intros Hd; [lra|].
  inversion Hd; subst. destruct (keq k k'); [assumption | apply IH; assumption].
Qed.

Lemma setitem_nonneg (d : dict K R) (k : K) (v : R) :
  Spec.nonneg_values d -> 0 <= v -> Spec.nonneg_values (setitem d k v).
Proof.
  unfold Spec.nonneg_values. induction d as [|[k' v'] d IH]; simpl; intros Hd Hv.
  - constructor; [exact Hv | constructor].
  - inversion Hd; subst. destruct (keq k k'); constructor; auto.
Qed.

Lemma additem_nonneg (d : dict K R) (k : K) (v : R) :
  Spec.nonneg_values d -> 0 <= v -> Spec.nonneg_values (additem d k v).
Proof.
  intros Hd Hv. unfold additem. apply setitem_nonneg; [exact Hd|].
  pose proof (get_nonneg d k Hd). lra.
Qed.
End AdditemFacts.

Lemma interaction_weight_pos (t : string) : 0 < get Engine.interaction_weights t 1.0.
Proof.
  unfold get, Engine.interaction_weights. cbn [lookup keq Key_string].
  repeat (destruct (_ =? _)%string; [lra|]). lra.
Qed.

Lemma accumulate_nonneg (db : Database) (n : nat)
    (acc : dict string R * dict string R * dict string R)
    (entry : nat * UserInteraction) :
  0 <= interaction_score (snd entry) ->
  Spec.nonneg_values (fst (fst acc)) /\ Spec.nonneg_values (snd (fst acc)) /\ Spec.nonneg_values (snd acc) ->
  Spec.nonneg_values (fst (fst (Engine.accumulate db n acc entry))) /\
  Spec.nonneg_values (snd (fst (Engine.accumulate db n acc entry))) /\
  Spec.nonneg_values (snd (Engine.accumulate db n acc entry)).
Proof.
  destruct acc as [[cs aus] ts], entry as [i x]. cbn [fst snd].
  intros Hs (Hc & Ha & Ht). unfold Engine.accumulate.
  destruct (get_content db _) as [c|]; [|cbn; auto].
  destruct (negb (is_published c)); [cbn; auto|].
  set (w := _ * _ * interaction_score x).
  assert (Hw : 0 <= w).
  { unfold w. apply Rmult_le_pos; [|exact Hs].
    apply Rmult_le_pos; [left; apply interaction_weight_pos|].
    apply pow_le. unfold Engine.time_decay_factor. lra. }
  cbn [fst snd]. repeat split; try (apply additem_nonneg; assumption).
  clearbody w. revert ts Ht. induction (Engine.tag_list c) as [|t l IH]; intros ts Ht; simpl.
  - exact Ht.
  - apply IH. apply additem_nonneg; [exact Ht | lra].
Qed.

Lemma fold_accumulate_nonneg (db : Database) (n : nat) (entries : list (nat * UserInteraction))
    (acc : dict string R * dict string R * dict string R) :
  (forall e, In e entries -> 0 <= interaction_score (snd e)) ->
  Spec.nonneg_values (fst (fst acc)) /\ Spec.nonneg_values (snd (fst acc)) /\ Spec.nonneg_values (snd acc) ->
  Spec.nonneg_values (fst (fst (fold_left (Engine.accumulate db n) entries acc))) /\
  Spec.nonneg_values (snd (fst (fold_left (Engine.accumulate db n) entries acc))) /\
  Spec.nonneg_values (snd (fold_left (Engine.accumulate db n) entries acc)).
Proof.
  revert acc; induction entries as [|e entries IH]; intros acc He Hacc; simpl; [exact Hacc|].
  apply IH; [intros e' He'; apply He; right; exact He'|].
  apply accumulate_nonneg; [apply He; left; reflexivity | exact Hacc].
Qed.

Lemma enumerate_from_In {A} (l : list A) (i j : nat) (x : A) :
  In (j, x) (enumerate_from i l) -> In x l.
Proof.
  revert i; induction l as [|y l IH]; intros i; simpl; [tauto|].
  intros [E|Hin]; [inversion E; auto | right; eapply IH; exact Hin].
Qed.

Lemma fold_Rmax_spec (l : list R) (a : R) :
  In (fold_left Rmax l a) (a :: l) /\
  forall y, In y (a :: l) -> y <= fold_left Rmax l a.
Proof.
  revert a; induction l as [|x l IH]; intros a; simpl.
  - split; [auto | intros y [<-|[]]; lra].
  - destruct (IH (Rmax a x)) as [Hin Hle]. split.
    + destruct Hin as [E|Hin]; [|auto].
      rewrite <- E. unfold Rmax. destruct (Rle_dec a x); auto.
    + intros y [<-|[<-|Hy]].
      * specialize (Hle (Rmax a x) (or_introl eq_refl)).
        pose proof (Rmax_l a x). lra.
      * specialize (Hle (Rmax a x) (or_introl eq_refl)).
        pose proof (Rmax_r a x). lra.
      * apply Hle. right; exact Hy.
Qed.

Lemma max_value_spec (l : list R) :
  l <> [] ->
  In (Engine.max_value l) l /\ forall y, In y l -> y <= Engine.max_value l.
Proof.
  destruct l as [|x l]; [congruence|]. intros _. apply fold_Rmax_spec.
Qed.

Lemma normalize_ok (scores normalized : dict string R) (m : R) :
  Engine.normalize scores m = Ok normalized ->
  normalized = map (fun '(k, v) => (k, v / m)) scores /\ (scores <> [] -> m <> 0).
Proof.
  unfold Engine.normalize.
  revert normalized; induction scores as [|[k v] scores IH]; intros normalized; simpl.
  - intros [= <-]. split; [reflexivity | congruence].
  - unfold truediv at 1. destruct (Req0 m) eqn:Em; [discriminate|].
    cbn [bind]. destruct (mapM _ scores) as [rest|e] eqn:Er; [|discriminate].
    cbn [bind]. intros [= <-]. destruct (IH rest eq_refl) as [-> _].
    split; [reflexivity|]. intros _ ->. rewrite Req0_true in Em by reflexivity. discriminate.
Qed.

(** A bucket divided by its own maximum is max-normalised. *)
Lemma normalize_bucket (scores normalized : dict string R) :
  Spec.nonneg_values scores ->
  Engine.normalize scores
    (if nonempty_dict scores then Engine.max_value (values scores) else 1)
  = Ok normalized ->
  Spec.bucket_normalized normalized.
Proof.
  intros Hpos Hn. apply normalize_ok in Hn. destruct Hn as [-> Hm].
  destruct scores as [|[k0 v0] scores]; [simpl; split; [intros k w [] | congruence]|].
  set (d := (k0, v0) :: scores) in *.
  assert (Hd : d <> []) by discriminate.
  cbn [nonempty_dict] in *. replace (nonempty_dict d) with true in * by reflexivity.
  set (m := Engine.max_value (values d)) in *.
  destruct (max_value_spec (values d)) as [Hin Hmax];
    [unfold values, d; simpl; discriminate|].
  fold m in Hin, Hmax. specialize (Hm Hd).
  assert (Hall : forall k v, In (k, v) d -> 0 <= v <= m).
  { intros k v Hkv. split.
    - unfold Spec.nonneg_values in Hpos. rewrite Forall_forall in Hpos.
      apply (Hpos (k, v) Hkv).
    - apply Hmax. unfold values. apply in_map_iff. exists (k, v); auto. }
  assert (Hmpos : 0 < m).
  { unfold values in Hin. apply in_map_iff in Hin. destruct Hin as ([k v] & Ev & Hkv).
    simpl in Ev. subst v. destruct (Hall k m Hkv) as [H0 _]. lra. }
  split.
  - intros k w Hkw. apply in_map_iff in Hkw. destruct Hkw as ([k' v] & E & Hkv).
    inversion E; subst. destruct (Hall k v Hkv) as [H0 H1]. split.
    + apply Rmult_le_pos; [exact H0 | left; apply Rinv_0_lt_compat; exact Hmpos].
    + apply Rmult_le_reg_r with (r := m); [exact Hmpos|].
      unfold Rdiv. rewrite Rmult_assoc, Rinv_l by exact Hm. lra.
  - intros _. unfold values in Hin. apply in_map_iff in Hin.
    destruct Hin as ([k v] & Ev & Hkv). simpl in Ev. subst v.
    exists k. apply in_map_iff. exists (k, m). split; [|exact Hkv].
    f_equal. apply Rinv_r. exact Hm.
Qed.

Lemma empty_bucket_normalized : Spec.bucket_normalized [].
Proof. split; [intros k w [] | congruence]. Qed.

(** C7. For every user, in a store whose scores are >= 0, the profile of
    [analyze_user_behavior] has every category, author and tag weight in
    [0, 1], and each non-empty bucket holds a weight equal to 1: each
    bucket is divided by its own maximum. *)
Theorem behavior_profile_max_normalized :
  forall (db : Database) (now : Z) (uid : string),
    Spec.scores_nonneg db ->
    Spec.bucket_normalized (Engine.categories (Engine.analyze_user_behavior db now uid)) /\
    Spec.bucket_normalized (Engine.authors (Engine.analyze_user_behavior db now uid)) /\
    Spec.bucket_normalized (Engine.pref_tags (Engine.analyze_user_behavior db now uid)).
Proof.
  intros db now uid Hinv.
  pose proof empty_bucket_normalized as Hempty.
  unfold Engine.analyze_user_behavior.
  set (rows := filter _ (interactions db)).
  assert (Hrows : forall i, In i rows -> 0 <= interaction_score i).
  { intros i Hi. apply filter_In in Hi. apply Hinv. tauto. }
  destruct rows as [|r rows'] eqn:Er; [cbn; auto|].
  rewrite <- Er in *. clear Er r rows'.
  pose proof (fold_accumulate_nonneg db (List.length rows)
                (enumerate (sorted_asc timestamp rows)) ([], [], [])) as Hacc.
  destruct (fold_left _ _ _) as [[cs aus] ts]. cbn [fst snd] in Hacc.
  destruct Hacc as (Hc & Ha & Ht).
  { intros [j x] Hin. cbn. apply Hrows.
    apply enumerate_from_In in Hin. apply sort_In in Hin. exact Hin. }
  { repeat split; constructor. }
  destruct (Engine.normalize cs _) as [nc|e] eqn:Ec; [|cbn; auto].
  destruct (Engine.normalize aus _) as [na|e] eqn:Ea; [|cbn; auto].
  destruct (Engine.normalize ts _) as [nt|e] eqn:Et; [|cbn; auto].
  cbn [try_except bind Engine.categories Engine.authors Engine.pref_tags].
  split; [|split].
  - exact (normalize_bucket cs nc Hc Ec).
  - exact (normalize_bucket aus na Ha Ea).
  - exact (normalize_bucket ts nt Ht Et).
Qed.

Lemma normalize_eval (scores : dict string R) (m : R) :
  m <> 0 -> Engine.normalize scores m = Ok (map (fun '(k, v) => (k, v / m)) scores).
Proof.
  intros Hm. unfold Engine.normalize.
  induction scores as [|[k v] scores IH]; simpl; [reflexivity|].
  unfold truediv at 1. rewrite Req0_false by exact Hm. cbn [bind].
  rewrite IH. reflexivity.
Qed.

(** The profile of [u1] in the store of two events: the view of post 1
    (tags news, tech) weighs 1.0 * 0.95 * 1.0, the later like of post 2
    (tag tech) weighs 2.0 * 1 * 2.0, and tags count for half. *)
Lemma two_events_profile :
  exists c a t1 t2,
    Engine.analyze_user_behavior Examples.db_two_events 300 "u1"
    = {| Engine.categories := [("Blog Post"%string, c)];
         Engine.authors := [("ann"%string, a)];
         Engine.pref_tags := [("news"%string, t1); ("tech"%string, t2)];
         Engine.total_interactions := 2;
         Engine.recent_activity := 2 |}
    /\ c = 1 /\ a = 1 /\ t1 = 19 / 99 /\ t2 = 1.
Proof.
  unfold Engine.analyze_user_behavior.
  change (filter _ (interactions Examples.db_two_events))
    with (interactions Examples.db_two_events).
  cbn -[Engine.normalize Engine.max_value pow Engine.time_decay_factor].
  set (w1 := 1.0 * Engine.time_decay_factor ^ 1 * 1.0).
  set (w2 := 2.0 * Engine.time_decay_factor ^ 0 * 2.0).
  assert (Hw1 : w1 = 0.95) by (unfold w1, Engine.time_decay_factor; simpl; lra).
  assert (Hw2 : w2 = 4) by (unfold w2; simpl; lra).
  assert (Hm1 : Engine.max_value [0 + w1 + w2] = 4.95)
    by (unfold Engine.max_value; simpl; lra).
  assert (Hm2 : Engine.max_value [0 + w1 * 0.5; 0 + w1 * 0.5 + w2 * 0.5] = 2.475).
  { unfold Engine.max_value. simpl. unfold Rmax.
    destruct (Rle_dec _ _); lra. }
  rewrite Hm1, Hm2. rewrite !normalize_eval by lra. cbn [bind try_except map].
  do 4 eexists. split; [reflexivity|]. rewrite Hw1, Hw2. repeat split; lra.
Qed.

(** The store of two events of [u1]. *)
Lemma behavior_profile_max_normalized_witness :
  Spec.scores_nonneg Examples.db_two_events /\
  Spec.bucket_normalized
    (Engine.pref_tags (Engine.analyze_user_behavior Examples.db_two_events 300 "u1")).
Proof.
  assert (Hinv : Spec.scores_nonneg Examples.db_two_events).
  { intros i [<-|[<-|[]]]; cbn; lra. }
  split; [exact Hinv|].
  exact (proj2 (proj2 (behavior_profile_max_normalized Examples.db_two_events 300 "u1" Hinv))).
Defined.

(** ** The user similarity of the route module, and of the product engine *)

Lemma set_of_aux_NoDup_id {K} `{KeyLaws K} (l seen : list K) :
  NoDup l -> (forall x, In x l -> ~ In x seen) -> set_of_aux seen l = l.
Proof.
  revert seen; induction l as [|y l IH]; intros seen Hnd Hdis; simpl; [reflexivity|].
  inversion Hnd as [|? ? Hnotin Hnd']; subst.
  destruct (mem y seen) eqn:E.
  - apply mem_In in E. exfalso. apply (Hdis y); [left; reflexivity | exact E].
  - f_equal. apply IH; [exact Hnd'|].
    intros x Hx [->|Hs]; [contradiction|]. apply (Hdis x); [right; exact Hx | exact Hs].
Qed.

Lemma set_of_NoDup_id {K} `{KeyLaws K} (l : list K) : NoDup l -> set_of l = l.
Proof. intros Hnd. apply set_of_aux_NoDup_id; [exact Hnd | intros x _ []]. Qed.

Lemma sum_cons (x : R) (l : list R) : Py.sum (x :: l) = x + Py.sum l.
Proof. reflexivity. Qed.

Lemma sum_squares_nonneg {A} (f : A -> R) (l : list A) :
  0 <= Py.sum (map (fun x => f x ^ 2) l).
Proof.
  induction l as [|x l IH]; [simpl; lra|].
  rewrite map_cons, sum_cons. pose proof (pow2_ge_0 (f x)). lra.
Qed.

Lemma sum_squares_pos {A} (f : A -> R) (l : list A) (x : A) :
  In x l -> f x <> 0 -> 0 < Py.sum (map (fun x => f x ^ 2) l).
Proof.
  induction l as [|y l IH]; [simpl; tauto|].
  rewrite map_cons, sum_cons. intros [->|Hin] Hx.
  - pose proof (sum_squares_nonneg f l).
    assert (0 < f x ^ 2) by (simpl; nra). lra.
  - specialize (IH Hin Hx). pose proof (pow2_ge_0 (f y)). lra.
Qed.

(** The route module's similarity is the cosine restricted to the common
    keys: 0 without a common key or with a zero magnitude, otherwise the
    dot product over the common keys divided by the product of the two
    full magnitudes. *)
Lemma app_similarity_is_restricted_cosine (a b : dict Z R) :
  let common := inter (set_of (keys a)) (set_of (keys b)) in
  let magnitude d := sqrt (Py.sum (map (fun k => get d k 0 ^ 2) (keys d))) in
  (common = [] -> App.calculate_user_similarity a b = 0) /\
  (magnitude a = 0 \/ magnitude b = 0 -> App.calculate_user_similarity a b = 0) /\
  (common <> [] -> magnitude a <> 0 -> magnitude b <> 0 ->
   App.calculate_user_similarity a b
   = Py.sum (map (fun k => get a k 0 * get b k 0) common) / (magnitude a * magnitude b)).
Proof.
  intros common magnitude. unfold App.calculate_user_similarity. fold common.
  pose proof (sum_squares_nonneg (fun k => get a k 0) (keys a)) as Ha.
  pose proof (sum_squares_nonneg (fun k => get b k 0) (keys b)) as Hb.
  cbv beta in Ha, Hb.
  assert (Hmul : sqrt (Py.sum (map (fun k => get a k 0 ^ 2) (keys a))
                       * Py.sum (map (fun k => get b k 0 ^ 2) (keys b)))
                 = magnitude a * magnitude b)
    by (unfold magnitude; apply sqrt_mult; assumption).
  cbv zeta. rewrite Hmul. split; [|split].
  - intros ->. reflexivity.
  - intros Hz. destruct (List.length common =? 0)%nat; [reflexivity|].
    rewrite Req0_true; [reflexivity|]. destruct Hz as [-> | ->]; lra.
  - intros Hc Hma Hmb.
    destruct common as [|k ks]; [congruence|]. cbn [List.length Nat.eqb].
    rewrite Req0_false; [reflexivity|].
    intros Hz. apply Rmult_integral in Hz. tauto.
Qed.

(** A vector with a non-zero weight has similarity 1 with itself. *)
Lemma app_self_similarity (a : dict Z R) :
  NoDup (keys a) -> (exists k, In k (keys a) /\ get a k 0 <> 0) ->
  App.calculate_user_similarity a a = 1.
Proof.
  intros Hnd (k & Hk & Hv). unfold App.calculate_user_similarity.
  rewrite (set_of_NoDup_id _ Hnd).
  assert (Hi : inter (keys a) (keys a) = keys a).
  { unfold inter. apply filter_all. intros x Hx. apply mem_In; exact Hx. }
  rewrite Hi.
  assert (Hlen : (List.length (keys a) =? 0)%nat = false).
  { destruct (keys a); [contradiction | reflexivity]. }
  rewrite Hlen.
  pose proof (sum_squares_pos (fun k => get a k 0) (keys a) k Hk Hv) as Hpos.
  cbv beta in Hpos.
  set (ss := Py.sum (map (fun item => get a item 0 ^ 2) (keys a))) in *.
  assert (Hdot : Py.sum (map (fun item => get a item 0 * get a item 0) (keys a)) = ss).
  { unfold ss. f_equal. apply map_ext. intros x. simpl. ring. }
  rewrite Hdot, sqrt_square by lra.
  rewrite Req0_false by lra. field. lra.
Qed.

(** C1 (the failing input).  Two users each hold product 1 in their cart
    with quantity 1, so both vectors are {1: 0.3}.  The product engine's
    [calculate_user_similarity] returns 0, where the cosine of a non-zero
    vector with itself is 1 -- the value the route module's function of
    the same name returns. *)
Theorem product_self_similarity_is_zero :
  ProductEngine.calculate_user_similarity [(1%Z, 0.3)] [(1%Z, 0.3)] = 0 /\
  App.calculate_user_similarity [(1%Z, 0.3)] [(1%Z, 0.3)] = 1.
Proof.
  split; [apply product_similarity_is_zero|].
  apply app_self_similarity.
  - repeat constructor. intros [].
  - exists 1%Z. split; [left; reflexivity|]. cbn. lra.
Qed.

(** ** Scores of the collaborative-filtering strategies *)

Lemma sum_map_scale {A} (f : A -> R) (c : R) (l : list A) :
  Py.sum (map (fun x => c * f x) l) = c * Py.sum (map f l).
Proof.
  induction l as [|x l IH]; simpl; [lra|]. rewrite IH. lra.
Qed.

Lemma sum_map_ext {A} (f g : A -> R) (l : list A) :
  (forall x, In x l -> f x = g x) -> Py.sum (map f l) = Py.sum (map g l).
Proof.
  induction l as [|x l IH]; simpl; intros Hfg; [reflexivity|].
  rewrite Hfg, IH; auto.
Qed.

(** One neighbour's round of a scoring loop, for an item the target user
    does not have: [step] adds [c x] to the entry [key x] unless the target
    has that item, and [c x] is [w] times the rating [val x]. *)
Lemma neighbour_round {A} (key : A -> Z) (val c : A -> R) (seen : Z -> bool) (w : R)
    (step : dict Z R -> A -> dict Z R) (l : list A) (d : dict Z R) (item : Z) :
  (forall acc x, step acc x
                 = if negb (seen (key x)) then additem acc (key x) (c x) else acc) ->
  (forall x, c x = w * val x) ->
  seen item = false ->
  get (fold_left step l d) item 0
  = get d item 0 + w * Spec.rating (map (fun x => (key x, val x)) l) item.
Proof.
  intros Hstep Hc Hitem. revert d.
  induction l as [|x l IH]; intros d; unfold Spec.rating in *; simpl.
  - lra.
  - rewrite IH, Hstep, Hc. destruct (key x =? item)%Z eqn:E.
    + apply Z.eqb_eq in E. rewrite E, Hitem. cbn [negb].
      rewrite get_additem_eq. lra.
    + apply Z.eqb_neq in E. destruct (negb (seen (key x))).
      * rewrite get_additem_neq by congruence. lra.
      * lra.
Qed.

Lemma map_pair_id {A B} (l : list (A * B)) : map (fun x => (fst x, snd x)) l = l.
Proof. induction l as [|[a b] l IH]; simpl; [|rewrite IH]; reflexivity. Qed.

(** The route module's loop, started from any dict, with any total. *)
Lemma app_cf_loop (m : App.UserItemMatrix) (target : dict Z R) (total : R)
    (sims : dict string R) (d : dict Z R) (item : Z) :
  has_key target item = false ->
  get (fold_left (fun recs '(uid, sim) =>
                    let weight := sim / total in
                    fold_left (fun recs '(item_id, r) =>
                                 if negb (has_key target item_id)
                                 then additem recs item_id (weight * r) else recs)
                              (get m uid []) recs)
                 sims d) item 0
  = get d item 0
    + Py.sum (map (fun '(uid, sim) => sim / total * Spec.rating (get m uid []) item) sims).
Proof.
  intros Hitem. revert d.
  induction sims as [|[uid sim] sims IH]; intros d; simpl; [lra|].
  rewrite IH.
  rewrite (neighbour_round fst snd (fun x => sim / total * snd x) (has_key target)
             (sim / total));
    [| intros acc [it r]; reflexivity | reflexivity | exact Hitem].
  rewrite map_pair_id. lra.
Qed.

(** The product engine's loop: it completes when every selected user is in
    the matrix and the total is not 0. *)
Lemma product_loop (m : ProductEngine.Matrix) (target : dict Z R) (total : R)
    (top : list (string * R)) (d : dict Z R) :
  (forall u s, In (u, s) top -> has_key m u = true) -> total <> 0 ->
  exists scores,
    foldM (fun product_scores '(similar_user_id, sim) =>
             similar_user_products <- getitem m similar_user_id ;;
             weight <- truediv sim total ;;
             Ok (fold_left (fun scores '(pid, s) =>
                              if negb (has_key target pid)
                              then additem scores pid (s * weight) else scores)
                           similar_user_products product_scores))
          top d = Ok scores /\
    forall item, has_key target item = false ->
      get scores item 0
      = get d item 0
        + Py.sum (map (fun '(uid, sim) => sim / total * Spec.rating (get m uid []) item) top).
Proof.
  intros Hin Htot. revert d.
  match goal with |- context [foldM ?f _ _] => set (step := f) end.
  induction top as [|[uid sim] top IH]; intros d; cbn [foldM].
  - exists d. split; [reflexivity|]. intros item _. simpl. lra.
  - assert (Hu : has_key m uid = true) by (apply (Hin uid sim); left; reflexivity).
    assert (Hstep : step d (uid, sim)
                    = Ok (fold_left (fun scores '(pid, s) =>
                                       if negb (has_key target pid)
                                       then additem scores pid (s * (sim / total))
                                       else scores)
                                    (get m uid []) d)).
    { unfold step, getitem, truediv, get. unfold has_key in Hu.
      destruct (lookup m uid) as [entries|]; [|discriminate].
      rewrite Req0_false by exact Htot. reflexivity. }
    rewrite Hstep. cbn [bind].
    destruct (IH (fun u s H => Hin u s (or_intror H))
                 (fold_left (fun scores '(pid, s) =>
                               if negb (has_key target pid)
                               then additem scores pid (s * (sim / total)) else scores)
                            (get m uid []) d))
      as (scores & Hok & Hscores).
    exists scores. split; [exact Hok|]. intros item Hitem.
    rewrite (Hscores item Hitem).
    rewrite (neighbour_round fst snd (fun x => snd x * (sim / total)) (has_key target)
               (sim / total));
      [| intros acc [it r]; reflexivity | intros x; ring | exact Hitem].
    rewrite map_pair_id, map_cons, sum_cons. lra.
Qed.

(** The content engine's loop, started from any dict. *)
Lemma engine_cf_loop (db : Database) (seen : list Z) (top : list (string * R))
    (d : dict Z R) (item : Z) :
  mem item seen = false ->
  get (fold_left (fun content_scores '(similar_user_id, sim) =>
                    fold_left (fun content_scores interaction =>
                                 if negb (mem (interaction_content_id interaction) seen)
                                 then additem content_scores
                                        (interaction_content_id interaction)
                                        (sim * interaction_score interaction)
                                 else content_scores)
                              (Engine.interactions_of db similar_user_id) content_scores)
                 top d) item 0
  = get d item 0
    + Py.sum (map (fun '(uid, sim) => sim * Spec.rating (Spec.entries_of db uid) item) top).
Proof.
  intros Hitem. revert d.
  induction top as [|[uid sim] top IH]; intros d; simpl; [lra|].
  rewrite IH.
  rewrite (neighbour_round interaction_content_id interaction_score
             (fun x => sim * interaction_score x) (fun k => mem k seen) sim);
    [| intros acc x; reflexivity | reflexivity | exact Hitem].
  unfold Spec.entries_of. lra.
Qed.

Lemma map_snd_pair {A B C} (g : A -> C) (l : list (A * B)) :
  map snd (map (fun '(u, s) => (g u, s)) l) = map snd l.
Proof. induction l as [|[u s] l IH]; simpl; [|rewrite IH]; reflexivity. Qed.

Lemma sum_map_pair {A B C} (g : A -> C) (h : C * B -> R) (l : list (A * B)) :
  Py.sum (map h (map (fun '(u, s) => (g u, s)) l))
  = Py.sum (map (fun '(u, s) => h (g u, s)) l).
Proof. induction l as [|[u s] l IH]; simpl; [|rewrite IH]; reflexivity. Qed.

(** C3 (amended).  In the route module's collaborative filtering and in
    the product engine's user-based scoring loop, the score of an item the
    target user does not have is the similarity-weighted average of its
    ratings by the selected neighbours, with weight = similarity / sum of
    the selected similarities (the product loop completes when the selected
    users are in the matrix and that sum is not 0).  The content engine
    (PersonalizedRecommendationEngine) accumulates the raw sum of
    similarity * interaction score, without dividing by the sum of the
    similarities. *)
Theorem cf_scores_weighted_average_or_raw_sum :
  (forall (m : App.UserItemMatrix) (target : dict Z R) (sims : dict string R)
          (item : Z),
      has_key target item = false ->
      get (App.cf_scores m target sims) item 0
      = Spec.weighted_average (map (fun '(u, s) => (get m u [], s)) sims) item) /\
  (forall (m : ProductEngine.Matrix) (target : dict Z R) (top : list (string * R)),
      (forall u s, In (u, s) top -> has_key m u = true) ->
      Py.sum (map snd top) <> 0 ->
      exists scores,
        ProductEngine.aggregate_scores m target top = Ok scores /\
        forall item, has_key target item = false ->
          get scores item 0
          = Spec.weighted_average (map (fun '(u, s) => (get m u [], s)) top) item) /\
  (forall (db : Database) (uid : string) (top : list (string * R)) (item : Z),
      ~ In item (map interaction_content_id (Engine.interactions_of db uid)) ->
      get (Engine.cf_content_scores db uid top) item 0
      = Spec.raw_sum (map (fun '(u, s) => (Spec.entries_of db u, s)) top) item).
Proof.
  split; [|split].
  - intros m target sims item Hitem.
    unfold App.cf_scores. cbv zeta. rewrite (app_cf_loop m target _ sims [] item Hitem).
    unfold Spec.weighted_average. cbv zeta.
    rewrite map_snd_pair, sum_map_pair. unfold values. simpl. rewrite Rplus_0_l.
    apply sum_map_ext. intros [u s] _. reflexivity.
  - intros m target top Hin Htot.
    destruct (product_loop m target _ top [] Hin Htot) as (scores & Hok & Hscores).
    exists scores. split; [exact Hok|]. intros item Hitem.
    rewrite (Hscores item Hitem).
    unfold Spec.weighted_average. cbv zeta.
    rewrite map_snd_pair, sum_map_pair. simpl. rewrite Rplus_0_l.
    apply sum_map_ext. intros [u s] _. reflexivity.
  - intros db uid top item Hitem.
    unfold Engine.cf_content_scores. cbv zeta.
    rewrite (engine_cf_loop db _ top [] item).
    + unfold Spec.raw_sum. rewrite sum_map_pair. simpl. rewrite Rplus_0_l.
      apply sum_map_ext. intros [u s] _. reflexivity.
    + apply mem_false. rewrite set_of_In. exact Hitem.
Qed.

Lemma l2_normalize_eq (v : list R) (n : R) :
  0 < n -> Engine.dot v v = n * n -> Engine.l2_normalize v = map (fun x => x / n) v.
Proof.
  intros Hn Hd. unfold Engine.l2_normalize. cbv zeta.
  rewrite Hd, sqrt_square by lra. rewrite Req0_false by lra. reflexivity.
Qed.

Lemma two_users_cosine :
  Engine.dot (Engine.l2_normalize [1 + 0; 0]) (Engine.l2_normalize [3 + 0; 4 + 0]) = 3 / 5.
Proof.
  rewrite (l2_normalize_eq [1 + 0; 0] 1) by (unfold Engine.dot; simpl; lra).
  rewrite (l2_normalize_eq [3 + 0; 4 + 0] 5) by (unfold Engine.dot; simpl; lra).
  unfold Engine.dot. simpl. lra.
Qed.

(** In the store of two users, the only neighbour of [u1] is [u2], with
    cosine similarity 3/5 (rows (1, 0) and (3, 4)). *)
Lemma two_users_neighbours :
  Engine.top_similar_users Examples.db_two_users "u1" = [("u2"%string, 3 / 5)].
Proof.
  unfold Engine.top_similar_users.
  change (set_of (map user_id (interactions Examples.db_two_users)))
    with ["u1"; "u2"]%string.
  change (set_of (map interaction_content_id (interactions Examples.db_two_users)))
    with [1; 2]%Z.
  cbv zeta.
  change (Engine.matrix_row Examples.db_two_users [1; 2]%Z "u1") with [1 + 0; 0].
  change (map (Engine.matrix_row Examples.db_two_users [1; 2]%Z) ["u1"; "u2"]%string)
    with [[1 + 0; 0]; [3 + 0; 4 + 0]].
  unfold Engine.cosine_similarity.
  cbn [map combine flat_map].
  change (negb ("u1" =? "u1")%string) with false.
  change (negb ("u2" =? "u1")%string) with true.
  cbn [andb app].
  rewrite two_users_cosine, Rltb_true by lra. reflexivity.
Qed.

(** C3 (as stated, refuted).  [u1] viewed post 1; [u2] has scores 3 and 4
    on posts 1 and 2.  The content engine selects [u2] alone, with
    similarity 3/5, and scores post 2 at 3/5 * 4 = 12/5; the
    similarity-weighted average over the selected neighbours is
    (3/5) / (3/5) * 4 = 4. *)
Lemma engine_cf_score_is_not_weighted_average :
  get (Engine.cf_content_scores Examples.db_two_users "u1"
         (Engine.top_similar_users Examples.db_two_users "u1")) 2%Z 0 = 12 / 5 /\
  Spec.weighted_average
    (map (fun '(u, s) => (Spec.entries_of Examples.db_two_users u, s))
         (Engine.top_similar_users Examples.db_two_users "u1")) 2%Z = 4 /\
  get (Engine.cf_content_scores Examples.db_two_users "u1"
         (Engine.top_similar_users Examples.db_two_users "u1")) 2%Z 0
  <> Spec.weighted_average
       (map (fun '(u, s) => (Spec.entries_of Examples.db_two_users u, s))
            (Engine.top_similar_users Examples.db_two_users "u1")) 2%Z.
Proof.
  rewrite two_users_neighbours.
  assert (E1 : get (Engine.cf_content_scores Examples.db_two_users "u1"
                      [("u2"%string, 3 / 5)]) 2%Z 0 = 12 / 5).
  { unfold Engine.cf_content_scores. cbn. lra. }
  assert (E2 : Spec.weighted_average
                 (map (fun '(u, s) => (Spec.entries_of Examples.db_two_users u, s))
                      [("u2"%string, 3 / 5)]) 2%Z = 4).
  { unfold Spec.weighted_average, Spec.rating. cbn. lra. }
  split; [exact E1|]. split; [exact E2|]. rewrite E1, E2. lra.
Qed.

(** The three loops on small inputs: a matrix with one neighbour who rated
    item 2, and the store of two users. *)
Lemma cf_scores_weighted_average_or_raw_sum_witness :
  get (App.cf_scores [("u2"%string, [(2%Z, 4)])] [(1%Z, 1)] [("u2"%string, 3 / 5)]) 2%Z 0
  = Spec.weighted_average [([(2%Z, 4)], 3 / 5)] 2%Z /\
  (exists scores,
     ProductEngine.aggregate_scores [("u2"%string, [(2%Z, 4)])] [(1%Z, 1)]
                                    [("u2"%string, 3 / 5)] = Ok scores /\
     get scores 2%Z 0 = Spec.weighted_average [([(2%Z, 4)], 3 / 5)] 2%Z) /\
  get (Engine.cf_content_scores Examples.db_two_users "u1" [("u2"%string, 3 / 5)]) 2%Z 0
  = Spec.raw_sum [(Spec.entries_of Examples.db_two_users "u2", 3 / 5)] 2%Z.
Proof.
  destruct cf_scores_weighted_average_or_raw_sum as (Happ & Hprod & Heng).
  split; [|split].
  - exact (Happ [("u2"%string, [(2%Z, 4)])] [(1%Z, 1)] [("u2"%string, 3 / 5)] 2%Z eq_refl).
  - destruct (Hprod [("u2"%string, [(2%Z, 4)])] [(1%Z, 1)] [("u2"%string, 3 / 5)])
      as (scores & Hok & Hscores).
    + intros u s [E|[]]. inversion E; subst. reflexivity.
    + simpl. lra.
    + exists scores. split; [exact Hok|]. exact (Hscores 2%Z eq_refl).
  - apply (Heng Examples.db_two_users "u1"%string [("u2"%string, 3 / 5)] 2%Z).
    cbn. intros [H|[]]. discriminate H.
Defined.

(** ** Exclusion of the items a user already interacted with *)










(** ** Order and length of the hybrid lists *)

Lemma sorted_desc_swap {A} (key : A -> R) (a b : A) :
  key a < key b -> sorted_desc key [a; b] = [b; a].
Proof.
  intros Hlt. unfold sorted_desc, sort. simpl. rewrite Rltb_true by exact Hlt. reflexivity.
Qed.

Lemma sorted_desc_keep {A} (key : A -> R) (a b : A) :
  key b <= key a -> sorted_desc key [a; b] = [a; b].
Proof.
  intros Hle. unfold sorted_desc, sort. simpl. rewrite Rltb_false by exact Hle. reflexivity.
Qed.

(** With at most two documents the fit of the vectorizer fails:
    0.8 * n_doc < 2. *)
Lemma fit_transform_small vectorize (texts : list string) :
  (List.length texts <= 2)%nat -> Engine.fit_transform vectorize texts = Raise ValueError.
Proof.
  intros Hlen. unfold Engine.fit_transform. rewrite Rltb_true; [reflexivity|].
  apply le_INR in Hlen. simpl in Hlen. lra.
Qed.

(** Without preferences only the recency boost is left. *)
Lemma preference_score_default (now : Z) (c : Content) :
  Engine.preference_score Engine._get_default_preferences now c
  = 0 + Rmax 0 (1.0 - IZR (Engine.days_old now c) / 30.0) * 0.2.
Proof.
  unfold Engine.preference_score. cbv zeta.
  cbn [Engine._get_default_preferences Engine.categories Engine.authors Engine.pref_tags lookup].
  f_equal. induction (Engine.tag_list c) as [|t l IH]; [reflexivity | exact IH].
Qed.

Section TwoPosts.
Variable vectorize : list string -> result (list (list R)).

Let db := Examples.db_two_posts.
Let old_post := Examples.post 1 None 0.
Let new_post := Examples.post 2 None 864000.

Lemma two_posts_content_based :
  Engine.get_content_based_recommendations vectorize Engine.initial_state db 864000 "u1" 4
  = ([], Engine.initial_state).
Proof.
  unfold Engine.get_content_based_recommendations.
  cbn [Engine.content_matrix Engine.initial_state].
  unfold Engine.build_content_features.
  change (filter is_published (contents db)) with [old_post; new_post].
  cbv beta iota zeta.
  rewrite fit_transform_small by (simpl; lia).
  reflexivity.
Qed.

Lemma two_posts_collaborative :
  Engine.get_collaborative_filtering_recommendations db 864000 "u1" 4
  = [new_post; old_post].
Proof. reflexivity. Qed.

Lemma two_posts_preference_based :
  Engine.get_preference_based_recommendations db 864000 "u1"
    Engine._get_default_preferences 4 = [new_post; old_post].
Proof.
  unfold Engine.get_preference_based_recommendations.
  change (Engine.interactions_of db "u1") with (@nil UserInteraction).
  cbv zeta. cbn [map].
  change (filter _ (contents db)) with [old_post; new_post].
  cbn [map].
  rewrite sorted_desc_swap; [reflexivity|].
  cbn [snd]. rewrite !preference_score_default.
  change (Engine.days_old 864000 old_post) with 10%Z.
  change (Engine.days_old 864000 new_post) with 0%Z.
  unfold Rmax. repeat destruct (Rle_dec _ _); lra.
Qed.

(** The combined scores of the two posts: 0.57 for the old one, 0.6 for
    the new one. *)
Lemma two_posts_hybrid_scores :
  fst (Engine.hybrid_scores vectorize Engine.initial_state db 864000 "u1" 2)
  = [(2%Z, 0 + Engine.rank_weight 0.3 0 + Engine.rank_weight 0.3 0);
     (1%Z, 0 + Engine.rank_weight 0.3 1 + Engine.rank_weight 0.3 1)].
Proof.
  unfold Engine.hybrid_scores.
  change (Engine.analyze_user_behavior db 864000 "u1")
    with Engine._get_default_preferences.
  cbv zeta. change (2 * 2)%nat with 4%nat.
  rewrite two_posts_content_based, two_posts_collaborative, two_posts_preference_based.
  reflexivity.
Qed.

Lemma two_posts_hybrid :
  fst (Engine.get_hybrid_recommendations vectorize Engine.initial_state db 864000 "u1" 2)
  = [old_post; new_post].
Proof.
  unfold Engine.get_hybrid_recommendations.
  pose proof two_posts_hybrid_scores as E.
  destruct (Engine.hybrid_scores vectorize Engine.initial_state db 864000 "u1" 2)
    as [scores st]. cbn [fst] in *. subst scores.
  rewrite sorted_desc_keep; [reflexivity|].
  cbn [snd]. unfold Engine.rank_weight. simpl. lra.
Qed.
End TwoPosts.

(** *** The product hybrid in a store without 'completed' orders *)

Lemma user_based_is_popular (db : Database) (cache : ProductEngine.Matrix)
    (uid : string) (limit : nat) :
  fst (ProductEngine.get_user_based_recommendations db cache uid limit)
  = ProductEngine.get_popular_products db limit.
Proof.
  unfold ProductEngine.get_user_based_recommendations, ProductEngine.user_based_body.
  cbn [fst]. destruct (negb (has_key _ uid)); [reflexivity|].
  destruct (getitem _ uid) as [tp|e]; [|reflexivity].
  cbn [bind]. rewrite product_similar_users_nil. reflexivity.
Qed.

Lemma popular_scores (db : Database) (limit : nat) (r : ProductEngine.Recommendation) :
  In r (ProductEngine.get_popular_products db limit) -> ProductEngine.score r = 0.5.
Proof.
  unfold ProductEngine.get_popular_products. intros Hr. apply in_flat_map in Hr.
  destruct Hr as (row & _ & Hr). destruct (get_product db _); [|contradiction].
  destruct Hr as [<-|[]]. reflexivity.
Qed.

Lemma flat_map_all_nil {A B} (f : A -> list B) (l : list A) :
  (forall x, In x l -> f x = []) -> flat_map f l = [].
Proof.
  induction l as [|x l IH]; cbn [flat_map]; intros Hall; [reflexivity|].
  rewrite (Hall x) by (left; reflexivity).
  apply IH. intros y Hy. apply Hall. right; exact Hy.
Qed.

(** The status 'completed' is not one the [orders] table admits. *)
Lemma allowed_order_not_completed (db : Database) (o : Order) :
  Spec.order_statuses_allowed db -> In o (orders db) ->
  (order_status o =? "completed")%string = false.
Proof.
  intros Hdb Ho. specialize (Hdb o Ho). apply String.eqb_neq. intros E.
  rewrite E in Hdb. unfold order_statuses in Hdb. cbn [In] in Hdb.
  repeat (destruct Hdb as [Hdb|Hdb]; [discriminate Hdb|]). exact Hdb.
Qed.

(** Without a 'completed' order the category query has no row, and the
    category-based strategy falls back to the popular products. *)
Lemma category_based_is_popular (db : Database) (uid : string) (limit : nat) :
  Spec.order_statuses_allowed db ->
  ProductEngine.get_category_based_recommendations db uid limit
  = ProductEngine.get_popular_products db limit.
Proof.
  intros Hdb. unfold ProductEngine.get_category_based_recommendations.
  assert (E : ProductEngine.category_query db uid = []).
  { unfold ProductEngine.category_query. cbv zeta.
    rewrite flat_map_all_nil; [reflexivity|].
    intros u _. destruct (u =? uid)%string; [|reflexivity].
    apply flat_map_all_nil. intros o Ho.
    rewrite (allowed_order_not_completed db o Hdb Ho), andb_false_r. reflexivity. }
  rewrite E. reflexivity.
Qed.

(** The first merge loop multiplies every score by 1.2 and records every
    product id of its input as seen. *)
Lemma add_user_based_entries (user_based : list ProductEngine.Recommendation)
    (acc : list ProductEngine.Recommendation * list Z) :
  let step := fun '(recs, seen) rec =>
    if negb (mem (product_id (ProductEngine.product rec)) seen)
    then (recs ++ [{| ProductEngine.product := ProductEngine.product rec;
                      ProductEngine.score := ProductEngine.score rec * 1.2;
                      ProductEngine.reason := ProductEngine.reason rec |}],
          product_id (ProductEngine.product rec) :: seen)
    else (recs, seen) in
  (forall r, In r (fst (fold_left step user_based acc)) ->
     In r (fst acc) \/
     exists r0, In r0 user_based /\ ProductEngine.score r = ProductEngine.score r0 * 1.2) /\
  (forall x, In x (snd acc) -> In x (snd (fold_left step user_based acc))) /\
  (forall r0, In r0 user_based ->
     In (product_id (ProductEngine.product r0)) (snd (fold_left step user_based acc))).
Proof.
  cbv zeta. revert acc.
  induction user_based as [|rec l IH]; intros [recs seen]; cbn [fold_left].
  - split; [intros r Hr; left; exact Hr|]. split; [intros x Hx; exact Hx|]. intros r0 [].
  - destruct (mem (product_id (ProductEngine.product rec)) seen) eqn:E; cbn [negb].
    + destruct (IH (recs, seen)) as (H1 & H2 & H3).
      split; [|split].
      * intros r Hr. destruct (H1 r Hr) as [Hin|(r0 & Hr0 & Es)]; [left; exact Hin|].
        right. exists r0. split; [right; exact Hr0 | exact Es].
      * exact H2.
      * intros r0 [<-|Hr0]; [|exact (H3 r0 Hr0)].
        apply H2. apply mem_In. exact E.
    + match goal with
      | |- context [fold_left _ l ?a] => destruct (IH a) as (H1 & H2 & H3)
      end.
      cbn [fst snd] in H1, H2.
      split; [|split].
      * intros r Hr. destruct (H1 r Hr) as [Hin|(r0 & Hr0 & Es)].
        -- apply in_app_or in Hin. destruct Hin as [Hin|[<-|[]]]; [left; exact Hin|].
           right. exists rec. split; [left; reflexivity | reflexivity].
        -- right. exists r0. split; [right; exact Hr0 | exact Es].
      * intros x Hx. apply H2. right; exact Hx.
      * intros r0 [<-|Hr0]; [|exact (H3 r0 Hr0)].
        apply H2. left; reflexivity.
Qed.

(** The second merge loop adds nothing when every product of its input
    was seen. *)
Lemma add_category_based_seen (limit : nat)
    (category_based : list ProductEngine.Recommendation)
    (acc : list ProductEngine.Recommendation * list Z) :
  (forall r, In r category_based ->
     In (product_id (ProductEngine.product r)) (snd acc)) ->
  ProductEngine.add_category_based limit category_based acc = acc.
Proof.
  unfold ProductEngine.add_category_based.
  induction category_based as [|rec l IH]; intros Hseen; [reflexivity|].
  destruct acc as [recs seen]. cbn [fold_left].
  assert (E : mem (product_id (ProductEngine.product rec)) seen = true).
  { apply mem_In. apply (Hseen rec). left; reflexivity. }
  rewrite E. cbn [negb andb]. apply IH.
  intros r Hr. apply Hseen. right; exact Hr.
Qed.

(** The third merge loop appends entries of its input. *)
Lemma add_popular_appends (popular : list ProductEngine.Recommendation)
    (acc : list ProductEngine.Recommendation * list Z) :
  exists extra,
    fst (ProductEngine.add_popular popular acc) = fst acc ++ extra /\
    forall r, In r extra -> In r popular.
Proof.
  unfold ProductEngine.add_popular. revert acc.
  induction popular as [|rec l IH]; intros [recs seen]; cbn [fold_left].
  - exists []. split; [symmetry; apply app_nil_r | intros r []].
  - destruct (negb (mem (product_id (ProductEngine.product rec)) seen)).
    + destruct (IH (recs ++ [rec], product_id (ProductEngine.product rec) :: seen))
        as (extra & E & Hin).
      exists (rec :: extra). split.
      * rewrite E. cbn [fst]. rewrite <- app_assoc. reflexivity.
      * intros r [<-|Hr]; [left; reflexivity | right; exact (Hin r Hr)].
    + destruct (IH (recs, seen)) as (extra & E & Hin).
      exists extra. split; [exact E|]. intros r Hr. right; exact (Hin r Hr).
Qed.

(** Entries with one score followed by entries with a lower score are in
    descending order. *)
Lemma two_levels_sorted {A} (key : A -> R) (hi lo : R) (l1 l2 : list A) :
  lo <= hi ->
  (forall x, In x l1 -> key x = hi) -> (forall x, In x l2 -> key x = lo) ->
  StronglySorted (fun x y => key y <= key x) (l1 ++ l2).
Proof.
  intros Hle H1 H2. induction l1 as [|x l1 IH]; cbn [app].
  - induction l2 as [|y l2 IH2]; constructor.
    + apply IH2. intros z Hz. apply H2. right; exact Hz.
    + apply Forall_forall. intros z Hz.
      rewrite (H2 y) by (left; reflexivity). rewrite (H2 z) by (right; exact Hz). lra.
  - constructor.
    + apply IH. intros z Hz. apply H1. right; exact Hz.
    + apply Forall_forall. intros z Hz. rewrite (H1 x) by (left; reflexivity).
      apply in_app_or in Hz. destruct Hz as [Hz|Hz].
      * rewrite (H1 z) by (right; exact Hz). lra.
      * rewrite (H2 z Hz). exact Hle.
Qed.

(** In a store whose orders carry a status the table admits, the product
    hybrid lists entries of score 0.5 * 1.2 and then entries of score 0.5. *)
Lemma product_hybrid_two_levels (db : Database) (cache : ProductEngine.Matrix)
    (uid : string) (limit : nat) :
  Spec.order_statuses_allowed db ->
  StronglySorted (fun r1 r2 => ProductEngine.score r2 <= ProductEngine.score r1)
                 (fst (ProductEngine.get_hybrid_recommendations db cache uid limit)).
Proof.
  intros Hdb. unfold ProductEngine.get_hybrid_recommendations.
  pose proof (user_based_is_popular db cache uid (limit / 2 + 1)) as Eub.
  destruct (ProductEngine.get_user_based_recommendations db cache uid (limit / 2 + 1))
    as [user_based cache'].
  cbn [fst] in Eub. cbv zeta. cbn [fst].
  rewrite (category_based_is_popular db uid (limit / 2 + 1) Hdb), <- Eub.
  destruct (add_user_based_entries user_based ([], [])) as (H1 & _ & H3).
  fold (ProductEngine.add_user_based user_based) in H1, H3.
  rewrite add_category_based_seen by exact H3.
  assert (Hhi : forall r, In r (fst (ProductEngine.add_user_based user_based)) ->
                          ProductEngine.score r = 0.5 * 1.2).
  { intros r Hr. destruct (H1 r Hr) as [[]|(r0 & Hr0 & ->)].
    rewrite Eub in Hr0. rewrite (popular_scores _ _ _ Hr0). reflexivity. }
  apply firstn_StronglySorted.
  destruct (List.length (fst (ProductEngine.add_user_based user_based)) <? limit)%nat.
  - destruct (add_popular_appends
                (ProductEngine.get_popular_products db
                   (limit - List.length (fst (ProductEngine.add_user_based user_based))))
                (ProductEngine.add_user_based user_based)) as (extra & -> & Hextra).
    apply (two_levels_sorted ProductEngine.score (0.5 * 1.2) 0.5); [lra | exact Hhi|].
    intros r Hr. exact (popular_scores _ _ _ (Hextra r Hr)).
  - rewrite <- (app_nil_r (fst (ProductEngine.add_user_based user_based))).
    apply (two_levels_sorted ProductEngine.score (0.5 * 1.2) 0.5); [lra | exact Hhi|].
    intros r [].
Qed.

(** C4 (the slip).  The catalogue holds an old post (id 1) and a new post
    (id 2); nobody interacted yet.  For n = 2 the content engine's hybrid
    gives post 2 the combined score 0.6 and post 1 the score 0.57, and
    returns the catalogue rows of the two ids in catalogue order: post 1
    comes first with the lower score. *)
Lemma engine_hybrid_not_in_score_order :
  fst (Engine.get_hybrid_recommendations Examples.no_weighting Engine.initial_state
         Examples.db_two_posts 864000 "u1" 2)
  = [Examples.post 1 None 0; Examples.post 2 None 864000] /\
  get (fst (Engine.hybrid_scores Examples.no_weighting Engine.initial_state
              Examples.db_two_posts 864000 "u1" 2)) 1%Z 0
  < get (fst (Engine.hybrid_scores Examples.no_weighting Engine.initial_state
                Examples.db_two_posts 864000 "u1" 2)) 2%Z 0.
Proof.
  split; [apply two_posts_hybrid|].
  rewrite two_posts_hybrid_scores. unfold Engine.rank_weight. cbn. lra.
Qed.

(** Selecting rows of a table keeps the ids unique. *)
Lemma selected_rows_unique_ids (keep : Content -> bool) (rows : list Content) :
  NoDup (map content_id rows) -> NoDup (map content_id (filter keep rows)).
Proof.
  induction rows as [|c rows IH]; cbn [filter map]; intros Hids; [constructor|].
  apply NoDup_cons_iff in Hids. destruct Hids as [Hfresh Hids].
  destruct (keep c); [|exact (IH Hids)].
  cbn [map]. apply NoDup_cons; [|exact (IH Hids)].
  rewrite in_map_iff. intros (c' & Eid & Hc').
  apply Hfresh. rewrite in_map_iff. exists c'. split; [exact Eid|].
  apply filter_In in Hc'. tauto.
Qed.

(** C4.  Order and length of the three hybrid lists.
    The route module's hybrid returns at most n entries, in descending
    order of the hybrid score.
    The product hybrid returns at most n entries; in every store whose
    orders carry a status the [orders] table admits they are in descending
    order of the score.
    The content engine's hybrid returns catalogue rows whose ids are among
    the n ids with the highest combined scores, in the order of the
    catalogue, not of the scores; they are at most n when content ids are
    unique. *)
Theorem hybrid_lists_order_and_length :
  forall (db : Database) (now : Z) (uid : string) (n : nat),
    (forall cid,
       (List.length (App.get_hybrid_recommendations db now uid cid n) <= n)%nat /\
       StronglySorted (fun r1 r2 => App.hybrid_score r2 <= App.hybrid_score r1)
                      (App.get_hybrid_recommendations db now uid cid n)) /\
    (forall cache,
       (List.length (fst (ProductEngine.get_hybrid_recommendations db cache uid n)) <= n)%nat /\
       (Spec.order_statuses_allowed db ->
        StronglySorted
          (fun r1 r2 => ProductEngine.score r2 <= ProductEngine.score r1)
          (fst (ProductEngine.get_hybrid_recommendations db cache uid n)))) /\
    (forall vectorize st,
       fst (Engine.get_hybrid_recommendations vectorize st db now uid n)
       = filter (fun c =>
                   mem (content_id c)
                       (map fst (firstn n (sorted_desc snd
                          (fst (Engine.hybrid_scores vectorize st db now uid n))))))
                (contents db) /\
       (NoDup (map content_id (contents db)) ->
        (List.length (fst (Engine.get_hybrid_recommendations vectorize st db now uid n))
         <= n)%nat)).
Proof.
  intros db now uid n. split; [|split].
  - intros cid. unfold App.get_hybrid_recommendations. cbv zeta. split.
    + apply firstn_le_length.
    + apply firstn_StronglySorted, sorted_desc_sorted.
  - intros cache. split; [|apply product_hybrid_two_levels].
    unfold ProductEngine.get_hybrid_recommendations.
    destruct (ProductEngine.get_user_based_recommendations db cache uid (n / 2 + 1))
      as [user_based cache'].
    cbv zeta. cbn [fst]. apply firstn_le_length.
  - intros vectorize st. unfold Engine.get_hybrid_recommendations.
    destruct (Engine.hybrid_scores vectorize st db now uid n) as [scores st'].
    cbn [fst]. split; [reflexivity|]. intros Hnd.
    set (ids := map fst (firstn n (sorted_desc snd scores))).
    assert (Hids : (List.length ids <= n)%nat).
    { unfold ids. rewrite length_map. apply firstn_le_length. }
    rewrite <- (length_map content_id).
    etransitivity; [|exact Hids].
    apply NoDup_incl_length.
    + apply selected_rows_unique_ids. exact Hnd.
    + intros k Hk. apply in_map_iff in Hk. destruct Hk as (c & <- & Hc).
      apply filter_In in Hc. apply mem_In. tauto.
Qed.

(** The shop with a paid order, whose status the table admits, and the
    catalogue of two posts, whose ids are unique. *)
Lemma hybrid_lists_order_and_length_witness :
  Spec.order_statuses_allowed Examples.db_paid_order /\
  StronglySorted (fun r1 r2 => ProductEngine.score r2 <= ProductEngine.score r1)
    (fst (ProductEngine.get_hybrid_recommendations Examples.db_paid_order [] "u1" 3)) /\
  NoDup (map content_id (contents Examples.db_two_posts)) /\
  (List.length (fst (Engine.get_hybrid_recommendations Examples.no_weighting
                       Engine.initial_state Examples.db_two_posts 864000 "u1" 1))
   <= 1)%nat.
Proof.
  assert (Hdb : Spec.order_statuses_allowed Examples.db_paid_order).
  { intros o [<-|[]]. cbn. tauto. }
  assert (Hnd : NoDup (map content_id (contents Examples.db_two_posts))).
  { cbn. repeat constructor; cbn; intuition discriminate. }
  split; [exact Hdb|]. split; [|split; [exact Hnd|]].
  - exact (proj2 (proj1 (proj2 (hybrid_lists_order_and_length
                                  Examples.db_paid_order 0 "u1" 3)) [])
                 Hdb).
  - exact (proj2 (proj2 (proj2 (hybrid_lists_order_and_length
                                  Examples.db_two_posts 864000 "u1" 1))
                        Examples.no_weighting Engine.initial_state)
                 Hnd).
Defined.

(* ================================================================== *)
(** * Further properties of the modelled code *)
(* ================================================================== *)

(** ** Sorting with an arbitrary comparison *)

Section SortOrder.
Context {A : Type} (before : A -> A -> bool) (ahead : A -> A -> Prop).
Hypothesis ahead_trans : forall a b c, ahead a b -> ahead b c -> ahead a c.
Hypothesis before_ahead : forall y x, before y x = true -> ahead y x.
Hypothesis not_before_ahead : forall y x, before y x = false -> ahead x y.

Lemma insert_ordered (x : A) (s : list A) :
  StronglySorted ahead s -> StronglySorted ahead (insert before x s).
Proof.
  induction s as [|y s IHs]; simpl; intros Hs.
  - constructor; constructor.
  - inversion Hs as [|? ? Hs' Hall]; subst.
    destruct (before y x) eqn:E.
    + constructor; [apply IHs; exact Hs'|].
      rewrite Forall_forall in *. intros z Hz.
      apply (Permutation_in z (Permutation_sym (insert_perm before x s))) in Hz.
      destruct Hz as [<-|Hz]; [apply before_ahead; exact E | apply Hall; exact Hz].
    + pose proof (not_before_ahead _ _ E) as Hxy.
      constructor; [exact Hs|]. constructor; [exact Hxy|].
      rewrite Forall_forall in *. intros z Hz.
      eapply ahead_trans; [exact Hxy | apply Hall; exact Hz].
Qed.

Lemma sort_ordered (l : list A) : StronglySorted ahead (sort before l).
Proof.
  unfold sort. induction l as [|x l IH]; simpl; [constructor|].
  apply insert_ordered; exact IH.
Qed.
End SortOrder.

(** In a sorted list, the rows kept by a [[:n]] slice are ahead of the
    rows it drops. *)
Lemma slice_ahead_of_rest {A} (ahead : A -> A -> Prop) (n : nat) (l : list A) (a b : A) :
  StronglySorted ahead l -> In a (firstn n l) -> In b (skipn n l) -> ahead a b.
Proof.
  revert n; induction l as [|x l IH]; intros [|n] Hs Ha Hb; simpl in *; try contradiction.
  inversion Hs as [|? ? Hs' Hall]; subst.
  destruct Ha as [<-|Ha].
  - rewrite Forall_forall in Hall. apply Hall.
    clear -Hb. revert n Hb; induction l as [|y l IHl]; intros [|n] Hb; simpl in *;
      try contradiction; [exact Hb|]. right; eapply IHl; exact Hb.
  - eapply IH; eassumption.
Qed.

Lemma slice_or_rest {A} (n : nat) (l : list A) (a : A) :
  In a l -> In a (firstn n l) \/ In a (skipn n l).
Proof.
  intros Hin. rewrite <- (firstn_skipn n l) in Hin.
  apply in_app_or in Hin. exact Hin.
Qed.

Lemma slice_unique_keys {A B} (f : A -> B) (n : nat) (rows : list A) :
  NoDup (map f rows) -> NoDup (map f (firstn n rows)).
Proof.
  revert n; induction rows as [|r rows IH]; intros [|n] Hnd; simpl; try constructor.
  - inversion Hnd as [|? ? Hnotin Hnd']; subst.
    intros Hin. apply Hnotin. apply in_map_iff in Hin.
    destruct Hin as (r' & E & Hin). apply in_map_iff. exists r'.
    split; [exact E | eapply firstn_In; exact Hin].
  - inversion Hnd; subst. apply IH; assumption.
Qed.

(** ** Counting: [GROUP BY ... SUM] and [Counter] *)

Section CountingFacts.
Context {K : Type} `{KeyLaws K}.

Lemma group_sum_fold_get (rows : list (K * Z)) (acc : dict K Z) (k : K) :
  get (fold_left (fun acc '(k, q) => setitem acc k (get acc k 0%Z + q)%Z) rows acc) k 0%Z
  = (get acc k 0 + Spec.group_total k rows)%Z.
Proof.
  revert acc; induction rows as [|[k' q] rows IH]; intros acc.
  - unfold Spec.group_total; simpl. lia.
  - simpl fold_left. rewrite IH. unfold Spec.group_total. simpl.
    destruct (keq k k') eqn:E; simpl.
    + apply keq_spec in E; subst k'. unfold get at 1.
      rewrite lookup_setitem_eq. lia.
    + unfold get at 1. rewrite lookup_setitem_neq; [reflexivity|].
      intros ->. rewrite keq_refl in E; discriminate.
Qed.

Lemma group_sum_get (rows : list (K * Z)) (k : K) :
  get (group_sum rows) k 0%Z = Spec.group_total k rows.
Proof. unfold group_sum. rewrite group_sum_fold_get. reflexivity. Qed.

Lemma group_sum_unique_keys (rows : list (K * Z)) : NoDup (keys (group_sum rows)).
Proof.
  unfold group_sum.
  assert (G : forall acc : dict K Z, NoDup (keys acc) ->
            NoDup (keys (fold_left
                           (fun acc '(k, q) => setitem acc k (get acc k 0%Z + q)%Z)
                           rows acc))).
  { induction rows as [|[k' q] rows IH]; intros acc Hacc; simpl; [exact Hacc|].
    apply IH, keys_setitem_NoDup, Hacc. }
  apply G. constructor.
Qed.

Lemma group_sum_entry (rows : list (K * Z)) (k : K) (total : Z) :
  In (k, total) (group_sum rows) -> total = Spec.group_total k rows.
Proof.
  intros Hin. rewrite <- group_sum_get. unfold get.
  rewrite (In_lookup _ _ _ (group_sum_unique_keys rows) Hin). reflexivity.
Qed.

Lemma counter_entry (l : list K) (k : K) (c : Z) :
  In (k, c) (counter l) -> c = Spec.occurrences k l.
Proof.
  intros Hin. apply group_sum_entry in Hin. subst c.
  unfold Spec.group_total, Spec.occurrences.
  induction l as [|x l IH]; [reflexivity|].
  cbn [map filter fst]. destruct (keq k x); [|exact IH].
  cbn [map snd fold_right List.length]. rewrite IH. lia.
Qed.

(** [Counter(l).most_common(n)]: at most [n] distinct keys, each with its
    number of occurrences, the counts descending, and no key that was
    left out occurs more often than a key that was kept. *)
Lemma most_common_spec (n : nat) (l : list K) :
  (List.length (most_common n l) <= n)%nat /\
  NoDup (map fst (most_common n l)) /\
  (forall k c, In (k, c) (most_common n l) -> In k l /\ c = Spec.occurrences k l) /\
  StronglySorted (fun a b => (snd b <= snd a)%Z) (most_common n l) /\
  (forall k k', In k (map fst (most_common n l)) -> In k' l ->
                ~ In k' (map fst (most_common n l)) ->
                (Spec.occurrences k' l <= Spec.occurrences k l)%Z).
Proof.
  unfold most_common.
  set (before := fun y x : K * Z => (snd x <? snd y)%Z).
  assert (Hsorted : StronglySorted (fun a b => (snd b <= snd a)%Z)
                                   (sort before (counter l))).
  { apply sort_ordered; unfold before.
    - intros a b c; lia.
    - intros y x E. apply Z.ltb_lt in E. lia.
    - intros y x E. apply Z.ltb_ge in E. exact E. }
  assert (Hentry : forall k c, In (k, c) (sort before (counter l)) ->
                               In k l /\ c = Spec.occurrences k l).
  { intros k c Hin. apply sort_In in Hin. split.
    - apply counter_keys. unfold keys. apply in_map_iff. exists (k, c); auto.
    - apply counter_entry; exact Hin. }
  split; [apply firstn_le_length|]. split; [|split; [|split]].
  - apply slice_unique_keys.
    eapply Permutation_NoDup;
      [apply Permutation_map, sort_perm | apply group_sum_unique_keys].
  - intros k c Hin. apply Hentry. eapply firstn_In; exact Hin.
  - apply firstn_StronglySorted; exact Hsorted.
  - intros k k' Hk Hk' Hout.
    apply in_map_iff in Hk. destruct Hk as ([k0 c] & E & Hk). simpl in E; subst k0.
    assert (Hc' : In k' (keys (counter l))) by (apply counter_keys; exact Hk').
    unfold keys in Hc'. apply in_map_iff in Hc'.
    destruct Hc' as ([k0 c'] & E & Hc'). simpl in E; subst k0.
    apply (sort_In before) in Hc'.
    destruct (slice_or_rest n _ _ Hc') as [Hin|Hrest].
    + exfalso. apply Hout. apply in_map_iff. exists (k', c'); auto.
    + pose proof (slice_ahead_of_rest _ n _ _ _ Hsorted Hk Hrest) as Hle.
      simpl in Hle.
      destruct (Hentry k c (firstn_In _ _ _ Hk)) as [_ ->].
      destruct (Hentry k' c' Hc') as [_ ->]. exact Hle.
Qed.
End CountingFacts.

(** ** Keyword extraction *)

Lemma occurrences_filter (keep : string -> bool) (l : list string) (w : string) :
  keep w = true ->
  Spec.occurrences w (filter keep l) = Spec.occurrences w l.
Proof.
  intros Hw. unfold Spec.occurrences. f_equal. f_equal.
  induction l as [|x l IH]; [reflexivity|].
  cbn [filter]. destruct (keep x) eqn:Ex; cbn [filter].
  - rewrite IH; reflexivity.
  - destruct (keq w x) eqn:E; [|exact IH].
    apply keq_spec in E; subst x. congruence.
Qed.

Lemma keys_in_count_order (l : list (string * Z)) (words : list string) :
  (forall k c, In (k, c) l -> c = Spec.occurrences k words) ->
  StronglySorted (fun a b => (snd b <= snd a)%Z) l ->
  StronglySorted (fun w w' => (Spec.occurrences w' words <= Spec.occurrences w words)%Z)
                 (map fst l).
Proof.
  intros Hentry Hs. induction Hs as [|[k c] l Hs IH Hall]; simpl; constructor.
  - apply IH. intros k' c' Hin. apply Hentry; right; exact Hin.
  - rewrite Forall_forall in *. intros w Hw. apply in_map_iff in Hw.
    destruct Hw as ([k' c'] & <- & Hin). simpl.
    rewrite <- (Hentry k c (or_introl eq_refl)), <- (Hentry k' c' (or_intror Hin)).
    exact (Hall _ Hin).
Qed.

(** X1.  [extract_keywords] returns at most [num_keywords] distinct words of the
    cleaned, lower-cased text; each is longer than three characters and no
    stop word; they come in descending order of their number of
    occurrences, and no qualifying word that was left out occurs more
    often than a keyword. *)
Theorem extract_keywords_most_frequent_words :
  forall (text : string) (num_keywords : nat),
    let all_words := split (App.strip_special (App.strip_tags (lower text))) in
    let keywords := App.extract_keywords text num_keywords in
    (List.length keywords <= num_keywords)%nat /\
    NoDup keywords /\
    (forall w, In w keywords ->
       In w all_words /\ (3 < String.length w)%nat /\ ~ In w App.stop_words) /\
    StronglySorted
      (fun w w' => (Spec.occurrences w' all_words <= Spec.occurrences w all_words)%Z)
      keywords /\
    (forall w w', In w keywords -> In w' all_words ->
       (3 < String.length w')%nat -> ~ In w' App.stop_words -> ~ In w' keywords ->
       (Spec.occurrences w' all_words <= Spec.occurrences w all_words)%Z).
Proof.
  intros text n all_words keywords.
  set (keep := fun word : string =>
                 ((3 <? String.length word)%nat && negb (mem word App.stop_words))%bool).
  assert (Ekw : keywords = map fst (most_common n (filter keep all_words))) by reflexivity.
  assert (Hkeep : forall w, keep w = true <->
                            (3 < String.length w)%nat /\ ~ In w App.stop_words).
  { intros w. unfold keep. rewrite andb_true_iff, Nat.ltb_lt, negb_true_iff, mem_false.
    tauto. }
  destruct (most_common_spec n (filter keep all_words))
    as (Hlen & Hnd & Hentry & Hsorted & Htop).
  assert (Hin : forall w, In w keywords -> In w all_words /\ keep w = true).
  { intros w Hw. rewrite Ekw in Hw. apply most_common_In in Hw.
    apply filter_In in Hw. exact Hw. }
  rewrite Ekw in *. split; [rewrite length_map; exact Hlen|].
  split; [exact Hnd|]. split; [|split].
  - intros w Hw. destruct (Hin w Hw) as [Hall Hk]. apply Hkeep in Hk. tauto.
  - assert (Hs : StronglySorted
                   (fun w w' => (Spec.occurrences w' (filter keep all_words)
                                 <= Spec.occurrences w (filter keep all_words))%Z)
                   (map fst (most_common n (filter keep all_words)))).
    { apply keys_in_count_order; [|exact Hsorted].
      intros k c Hkc. apply (Hentry k c Hkc). }
    revert Hs Hin.
    generalize (map fst (most_common n (filter keep all_words))). intros l Hs Hin.
    induction Hs as [|w l Hs IH Hall]; constructor.
    + apply IH. intros w' Hw'. apply Hin; right; exact Hw'.
    + rewrite Forall_forall in *. intros w' Hw'. specialize (Hall w' Hw').
      rewrite !occurrences_filter in Hall;
        [exact Hall | apply Hin; left; reflexivity | apply Hin; right; exact Hw'].
  - intros w w' Hw Hw' Hlong Hstop Hout.
    assert (Hk' : keep w' = true) by (apply Hkeep; tauto).
    pose proof (Htop w w' Hw (proj2 (filter_In keep w' all_words) (conj Hw' Hk')) Hout)
      as Hle.
    rewrite !occurrences_filter in Hle; [exact Hle | apply Hin; exact Hw | exact Hk'].
Qed.

(** The characters of a keyword. *)
Lemma all_chars_weaken (p q : ascii -> bool) (s : string) :
  (forall c, p c = true -> q c = true) ->
  Spec.all_chars p s = true -> Spec.all_chars q s = true.
Proof.
  intros Hpq. induction s as [|c s IH]; simpl; [reflexivity|].
  rewrite !andb_true_iff. intros [Hc Hs]. split; [apply Hpq; exact Hc | apply IH; exact Hs].
Qed.

Lemma all_chars_append_char (p : ascii -> bool) (s : string) (c : ascii) :
  Spec.all_chars p (s ++ String c EmptyString)
  = (Spec.all_chars p s && p c)%bool.
Proof.
  induction s as [|c' s IH]; simpl.
  - rewrite andb_true_r; reflexivity.
  - rewrite IH, andb_assoc; reflexivity.
Qed.

Lemma lower_no_capital (s : string) :
  Spec.all_chars (fun c => negb ((65 <=? code c) && (code c <=? 90))%N) (lower s) = true.
Proof.
  induction s as [|c s IH]; simpl; [reflexivity|].
  rewrite IH, andb_true_r.
  destruct c as [[] [] [] [] [] [] [] []]; reflexivity.
Qed.

Lemma strip_tags_aux_chars (p : ascii -> bool) (s : string) :
  Spec.all_chars p s = true ->
  Spec.all_chars p (fst (App.strip_tags_aux s)) = true /\
  (forall b after, snd (App.strip_tags_aux s) = Some (b, after) ->
                   Spec.all_chars p after = true).
Proof.
  induction s as [|c s IH]; simpl.
  - intros _. split; [reflexivity | discriminate].
  - rewrite andb_true_iff. intros [Hc Hs]. destruct (IH Hs) as [Hr Hg].
    destruct (App.strip_tags_aux s) as [r g]. simpl in Hr, Hg. split.
    + simpl. destruct (Ascii.eqb c "<").
      * destruct g as [[[|] after]|]; simpl; try (rewrite Hc, Hr; reflexivity).
        apply (Hg false); reflexivity.
      * simpl. rewrite Hc, Hr; reflexivity.
    + simpl. intros b after. destruct (Ascii.eqb c ">").
      * intros E; inversion E; subst. exact Hr.
      * destruct g as [[b' after']|]; [|discriminate].
        intros E; inversion E; subst. apply (Hg b'); reflexivity.
Qed.

Lemma strip_special_chars (p : ascii -> bool) (s : string) :
  Spec.all_chars p s = true ->
  Spec.all_chars (fun c => (p c && (App.is_alnum c || is_space c))%bool)
                 (App.strip_special s) = true.
Proof.
  induction s as [|c s IH]; simpl; [reflexivity|].
  rewrite andb_true_iff. intros [Hc Hs].
  destruct (App.is_alnum c || is_space c)%bool eqn:E; simpl; [|apply IH; exact Hs].
  rewrite Hc, E, IH by exact Hs. reflexivity.
Qed.

Lemma split_aux_chars (q : ascii -> bool) (s cur : string) (w : string) :
  Spec.all_chars (fun c => (is_space c || q c)%bool) s = true ->
  Spec.all_chars q cur = true ->
  In w (split_aux s cur) -> Spec.all_chars q w = true.
Proof.
  revert cur; induction s as [|c s IH]; simpl; intros cur Hs Hcur Hw.
  - destruct (is_empty cur); [contradiction|].
    destruct Hw as [<-|[]]; exact Hcur.
  - apply andb_true_iff in Hs. destruct Hs as [Hc Hs].
    destruct (is_space c) eqn:Esp.
    + destruct (is_empty cur).
      * apply (IH EmptyString); auto.
      * destruct Hw as [<-|Hw]; [exact Hcur | apply (IH EmptyString); auto].
    + simpl in Hc. apply (IH (cur ++ String c EmptyString)%string); auto.
      rewrite all_chars_append_char, Hcur, Hc. reflexivity.
Qed.

(** X2.  Every keyword [extract_keywords] returns consists of lower-case ASCII
    letters and digits only, whatever the text holds (markup, capitals,
    punctuation, accented letters). *)
Theorem extract_keywords_lower_alnum :
  forall (text : string) (num_keywords : nat) (w : string),
    In w (App.extract_keywords text num_keywords) ->
    Spec.all_chars Spec.is_lower_alnum w = true.
Proof.
  intros text n w Hw. unfold App.extract_keywords in Hw.
  apply most_common_In, filter_In in Hw. destruct Hw as [Hw _].
  unfold split in Hw. revert Hw. apply split_aux_chars; [|reflexivity].
  pose proof (lower_no_capital text) as Hlow.
  apply (strip_tags_aux_chars _ (lower text)) in Hlow. destruct Hlow as [Htags _].
  apply strip_special_chars in Htags. unfold App.strip_tags.
  revert Htags. apply all_chars_weaken.
  intros c. clear.
  destruct c as [[] [] [] [] [] [] [] []]; vm_compute; intros E; congruence.
Qed.

Lemma extract_keywords_lower_alnum_witness :
  In "hello"%string (App.extract_keywords "<b>Hello</b>, HELLO world!" 1) /\
  Spec.all_chars Spec.is_lower_alnum "hello" = true.
Proof.
  assert (Hin : In "hello"%string (App.extract_keywords "<b>Hello</b>, HELLO world!" 1))
    by (vm_compute; left; reflexivity).
  split; [exact Hin|].
  exact (extract_keywords_lower_alnum "<b>Hello</b>, HELLO world!" 1 "hello" Hin).
Defined.

(** ** The content similarity score *)

Lemma overlap_at_most_one (a b : list string) : a <> [] -> App.overlap a b <= 1.
Proof.
  intros Hne. unfold App.overlap.
  assert (Hinter : (List.length (inter a b) <= List.length a)%nat)
    by (unfold inter; apply filter_length_le).
  assert (Hunion : (List.length a <= List.length (union a b))%nat)
    by (unfold union; rewrite length_app; lia).
  assert (Hpos : (0 < List.length a)%nat) by (destruct a; [congruence | simpl; lia]).
  assert (Hu : 0 < INR (List.length (union a b))) by (apply lt_0_INR; lia).
  apply Rmult_le_reg_r with (r := INR (List.length (union a b))); [exact Hu|].
  unfold Rdiv. rewrite Rmult_assoc, Rinv_l, Rmult_1_r, Rmult_1_l by lra.
  apply le_INR. lia.
Qed.

Lemma union_members (a b : list string) (x : string) :
  In x (union a b) <-> In x a \/ In x b.
Proof.
  unfold union. rewrite in_app_iff, filter_In, negb_true_iff, mem_false.
  split; [tauto|]. intros [Ha|Hb]; [tauto|].
  destruct (in_dec string_dec x a); tauto.
Qed.

Lemma overlap_symmetric (a b : list string) :
  NoDup a -> NoDup b -> App.overlap a b = App.overlap b a.
Proof.
  intros Ha Hb. unfold App.overlap.
  assert (Ei : List.length (inter a b) = List.length (inter b a)).
  { apply Permutation_length, NoDup_Permutation.
    - apply NoDup_filter; exact Ha.
    - apply NoDup_filter; exact Hb.
    - intros x. rewrite !inter_In. tauto. }
  assert (Hu : forall p q : list string, NoDup p -> NoDup q -> NoDup (union p q)).
  { intros p q Hp Hq. unfold union. apply NoDup_app.
    - exact Hp.
    - apply NoDup_filter; exact Hq.
    - intros x Hx Hf. apply filter_In in Hf. destruct Hf as [_ Hf].
      apply negb_true_iff, mem_false in Hf. contradiction. }
  assert (Eu : List.length (union a b) = List.length (union b a)).
  { apply Permutation_length, NoDup_Permutation; [apply Hu | apply Hu |]; auto.
    intros x. rewrite !union_members. tauto. }
  rewrite Ei, Eu. reflexivity.
Qed.

(** X3.  [calculate_content_similarity] is a score between 0 and 1 (in exact
    arithmetic), and it does not depend on the order of its arguments. *)
Theorem content_similarity_bounded_and_symmetric :
  forall c1 c2 : Content,
    0 <= App.calculate_content_similarity c1 c2 <= 1 /\
    App.calculate_content_similarity c1 c2 = App.calculate_content_similarity c2 c1.
Proof.
  intros c1 c2. unfold App.calculate_content_similarity. cbv zeta.
  set (t1 := set_of (get_tags_list c1)). set (t2 := set_of (get_tags_list c2)).
  set (k1 := set_of (App.extract_keywords (content_body c1) 10)).
  set (k2 := set_of (App.extract_keywords (content_body c2) 10)).
  assert (Ht : App.overlap t1 t2 = App.overlap t2 t1)
    by (apply overlap_symmetric; apply set_of_NoDup).
  assert (Hk : App.overlap k1 k2 = App.overlap k2 k1)
    by (apply overlap_symmetric; apply set_of_NoDup).
  pose proof (overlap_nonneg t1 t2) as Ht0. pose proof (overlap_nonneg k1 k2) as Hk0.
  assert (Ht1 : App.nonempty t1 = true -> App.overlap t1 t2 <= 1).
  { intros E. apply overlap_at_most_one. destruct t1; [discriminate | congruence]. }
  assert (Hk1 : App.nonempty k1 = true -> App.overlap k1 k2 <= 1).
  { intros E. apply overlap_at_most_one. destruct k1; [discriminate | congruence]. }
  rewrite (String.eqb_sym (category c2)), (String.eqb_sym (author c2)).
  rewrite (andb_comm (App.nonempty t2)), (andb_comm (App.nonempty k2)), <- Ht, <- Hk.
  split; [|reflexivity].
  destruct (category c1 =? category c2)%string, (author c1 =? author c2)%string,
           (App.nonempty t1) eqn:Et, (App.nonempty t2), (App.nonempty k1) eqn:Ek,
           (App.nonempty k2); simpl;
    try specialize (Ht1 eq_refl); try specialize (Hk1 eq_refl); lra.
Qed.

(** ** Content recommendations of the route module *)

Lemma content_recommendations_unfold (db : Database) (cid : Z) (limit : nat)
    (current_content : Content) :
  get_content db cid = Some current_content ->
  App.get_content_recommendations db cid limit
  = firstn limit
      (sorted_desc App.similarity
         (flat_map (fun c =>
                      let sim := App.calculate_content_similarity current_content c in
                      if Rltb 0 sim
                      then [{| App.rec_content := c; App.similarity := sim;
                               App.rec_score := sim |}]
                      else [])
                   (filter (fun c => (negb (content_id c =? cid)%Z && is_published c)%bool)
                           (contents db)))).
Proof. intros E. unfold App.get_content_recommendations. rewrite E. reflexivity. Qed.

Lemma content_candidate (db : Database) (cid : Z) (current_content : Content)
    (r : App.ContentRec) :
  In r (flat_map (fun c =>
                    let sim := App.calculate_content_similarity current_content c in
                    if Rltb 0 sim
                    then [{| App.rec_content := c; App.similarity := sim;
                             App.rec_score := sim |}]
                    else [])
                 (filter (fun c => (negb (content_id c =? cid)%Z && is_published c)%bool)
                         (contents db)))
  <-> In (App.rec_content r) (contents db) /\
      content_id (App.rec_content r) <> cid /\
      is_published (App.rec_content r) = true /\
      0 < App.similarity r /\
      App.similarity r
      = App.calculate_content_similarity current_content (App.rec_content r) /\
      App.rec_score r = App.similarity r.
Proof.
  rewrite in_flat_map. split.
  - intros (c & Hc & Hr). apply filter_In in Hc. destruct Hc as [Hc Hkeep].
    apply andb_true_iff in Hkeep. destruct Hkeep as [Hid Hpub].
    apply negb_true_iff, Z.eqb_neq in Hid. cbv zeta in Hr.
    destruct (Rltb 0 _) eqn:E; [|contradiction].
    apply Rltb_spec in E. destruct Hr as [<-|[]]. simpl. tauto.
  - intros (Hc & Hid & Hpub & Hpos & Hsim & Hscore).
    exists (App.rec_content r). split.
    + apply filter_In. split; [exact Hc|].
      apply andb_true_iff. split; [|exact Hpub].
      apply negb_true_iff, Z.eqb_neq; exact Hid.
    + cbv zeta. rewrite <- Hsim, Rltb_true by exact Hpos. left.
      destruct r as [c s sc]; simpl in *. subst sc. reflexivity.
Qed.

(** X4.  What [get_content_recommendations] returns: nothing for an unknown
    content id; otherwise at most [limit] entries in descending order of
    similarity, each a published item of the catalogue other than the
    current one, with its positive similarity to the current item as
    similarity and as score. *)
Theorem content_recommendations_sound :
  forall (db : Database) (cid : Z) (limit : nat),
    (get_content db cid = None -> App.get_content_recommendations db cid limit = []) /\
    (List.length (App.get_content_recommendations db cid limit) <= limit)%nat /\
    StronglySorted (fun r1 r2 => App.similarity r2 <= App.similarity r1)
                   (App.get_content_recommendations db cid limit) /\
    (forall r, In r (App.get_content_recommendations db cid limit) ->
       In (App.rec_content r) (contents db) /\
       content_id (App.rec_content r) <> cid /\
       is_published (App.rec_content r) = true /\
       0 < App.similarity r /\
       App.rec_score r = App.similarity r /\
       exists current_content,
         get_content db cid = Some current_content /\
         App.similarity r
         = App.calculate_content_similarity current_content (App.rec_content r)).
Proof.
  intros db cid limit.
  destruct (get_content db cid) as [cur|] eqn:E.
  - rewrite (content_recommendations_unfold db cid limit cur E).
    split; [discriminate|]. split; [apply firstn_le_length|].
    split; [apply firstn_StronglySorted, sorted_desc_sorted|].
    intros r Hr. apply firstn_In in Hr. unfold sorted_desc in Hr. apply sort_In in Hr.
    apply content_candidate in Hr.
    destruct Hr as (Hc & Hid & Hpub & Hpos & Hsim & Hscore).
    repeat (split; [assumption|]). exists cur. split; [reflexivity | exact Hsim].
  - unfold App.get_content_recommendations. rewrite E.
    split; [reflexivity|]. split; [simpl; lia|]. split; [constructor|].
    intros r [].
Qed.

(** X5.  The ranking is complete: a published item other than the current one
    with a positive similarity is in the list, unless the list is full
    ([limit] entries) and every entry is at least as similar. *)
Theorem content_recommendations_complete :
  forall (db : Database) (cid : Z) (limit : nat) (current_content c : Content),
    get_content db cid = Some current_content ->
    In c (contents db) -> content_id c <> cid -> is_published c = true ->
    0 < App.calculate_content_similarity current_content c ->
    (exists r, In r (App.get_content_recommendations db cid limit) /\ App.rec_content r = c)
    \/ (List.length (App.get_content_recommendations db cid limit) = limit /\
        forall r, In r (App.get_content_recommendations db cid limit) ->
                  App.calculate_content_similarity current_content c <= App.similarity r).
Proof.
  intros db cid limit cur c E Hc Hid Hpub Hpos.
  rewrite (content_recommendations_unfold db cid limit cur E).
  set (cands := flat_map _ _).
  set (r0 := {| App.rec_content := c;
                App.similarity := App.calculate_content_similarity cur c;
                App.rec_score := App.calculate_content_similarity cur c |}).
  assert (Hr0 : In r0 (sorted_desc App.similarity cands)).
  { unfold sorted_desc. apply sort_In. apply content_candidate. simpl. tauto. }
  destruct (slice_or_rest limit _ _ Hr0) as [Hin|Hrest].
  - left. exists r0. split; [exact Hin | reflexivity].
  - right. split.
    + apply firstn_length_le.
      destruct (Nat.le_gt_cases limit (List.length (sorted_desc App.similarity cands)))
        as [Hle|Hgt]; [exact Hle|].
      rewrite skipn_all2 in Hrest by lia. contradiction.
    + intros r Hr.
      exact (slice_ahead_of_rest _ limit _ r r0 (sorted_desc_sorted _ _) Hr Hrest).
Qed.

Lemma content_recommendations_complete_witness :
  let db := Examples.store [Examples.post 1 None 0; Examples.post 2 None 0] [] in
  let c := Examples.post 2 None 0 in
  0 < App.calculate_content_similarity (Examples.post 1 None 0) c /\
  ((exists r, In r (App.get_content_recommendations db 1 5) /\ App.rec_content r = c)
   \/ (List.length (App.get_content_recommendations db 1 5) = 5%nat /\
       forall r, In r (App.get_content_recommendations db 1 5) ->
                 App.calculate_content_similarity (Examples.post 1 None 0) c
                 <= App.similarity r)).
Proof.
  intros db c.
  assert (Hsim : 0 < App.calculate_content_similarity (Examples.post 1 None 0) c)
    by (unfold App.calculate_content_similarity; simpl; lra).
  split; [exact Hsim|].
  apply (content_recommendations_complete db 1 5 (Examples.post 1 None 0) c).
  - reflexivity.
  - right; left; reflexivity.
  - simpl; lia.
  - reflexivity.
  - exact Hsim.
Defined.

(** ** Trending content of the route module *)

(** X6.  [get_trending_content] returns at most [limit] entries in descending
    order of score; each is a published item of the catalogue whose score
    is at least 1 and at most the number of its tags. *)
Theorem trending_content_sound :
  forall (db : Database) (limit : nat),
    (List.length (App.get_trending_content db limit) <= limit)%nat /\
    StronglySorted (fun r1 r2 => (App.tag_score r2 <= App.tag_score r1)%nat)
                   (App.get_trending_content db limit) /\
    (forall r, In r (App.get_trending_content db limit) ->
       In (App.trending_content r) (contents db) /\
       is_published (App.trending_content r) = true /\
       (1 <= App.tag_score r
        <= List.length (get_tags_list (App.trending_content r)))%nat).
Proof.
  intros db limit. unfold App.get_trending_content. cbv zeta.
  split; [apply firstn_le_length|]. split.
  - apply firstn_StronglySorted, sort_ordered.
    + intros a b c; lia.
    + intros y x E. apply Nat.ltb_lt in E. lia.
    + intros y x E. apply Nat.ltb_ge in E. exact E.
  - intros r Hr. apply firstn_In, sort_In, in_flat_map in Hr.
    destruct Hr as (c & Hc & Hr).
    apply firstn_In, sort_In, filter_In in Hc. destruct Hc as [Hc Hpub].
    destruct (0 <? _)%nat eqn:E; [|contradiction].
    apply Nat.ltb_lt in E. destruct Hr as [<-|[]].
    cbn [App.trending_content App.tag_score].
    split; [exact Hc|]. split; [exact Hpub|]. split; [lia|].
    apply filter_length_le.
Qed.

(** ** The user-item matrix of the route module *)

Lemma last_match_snoc (p : UserInteraction -> bool) (rows : list UserInteraction)
    (i : UserInteraction) :
  find p (rev (i :: rows))
  = match find p (rev rows) with
    | Some x => Some x
    | None => if p i then Some i else None
    end.
Proof.
  simpl. induction (rev rows) as [|x l IH]; simpl; [reflexivity|].
  destruct (p x); [reflexivity | exact IH].
Qed.

Lemma user_item_matrix_fold (rows : list UserInteraction) (m : App.UserItemMatrix)
    (u : string) (c : Z) :
  lookup (get (fold_left (fun m i =>
                            setitem m (user_id i)
                              (setitem (get m (user_id i) []) (interaction_content_id i)
                                       (interaction_score i)))
                         rows m) u []) c
  = match find (fun i => ((user_id i =? u)%string
                          && (interaction_content_id i =? c)%Z)%bool) (rev rows) with
    | Some i => Some (interaction_score i)
    | None => lookup (get m u []) c
    end.
Proof.
  revert m; induction rows as [|i rows IH]; intros m; [reflexivity|].
  cbn [fold_left]. rewrite IH, last_match_snoc.
  destruct (find _ (rev rows)); [reflexivity|].
  destruct (user_id i =? u)%string eqn:Eu; cbn [andb].
  - apply String.eqb_eq in Eu. subst u. unfold get at 1. rewrite lookup_setitem_eq.
    destruct (interaction_content_id i =? c)%Z eqn:Ec.
    + apply Z.eqb_eq in Ec. subst c. rewrite lookup_setitem_eq. reflexivity.
    + apply Z.eqb_neq in Ec. rewrite lookup_setitem_neq by congruence. reflexivity.
  - apply String.eqb_neq in Eu. unfold get at 1.
    rewrite lookup_setitem_neq by congruence. reflexivity.
Qed.

(** X7.  [build_user_item_matrix] keeps, for a user and an item, the score of
    the last row, in the order in which the query returns the rows (the
    stored order), among the user's interactions with the item whose
    timestamp lies in the last 30 days, and no entry when there is none: a
    row met later in the loop overwrites the entry of a row met before it,
    scores are not added up, and timestamps are not compared: in the store
    whose first row (score 5.0) carries a later timestamp than its second
    row (score 1.0), the entry is 1.0. *)
Theorem user_item_matrix_last_score :
  (forall (db : Database) (now : Z) (u : string) (c : Z),
     lookup (get (fst (fst (App.build_user_item_matrix db now))) u []) c
     = option_map interaction_score
         (find (fun i => ((user_id i =? u)%string
                          && (interaction_content_id i =? c)%Z)%bool)
               (rev (App.recent_interactions db now)))) /\
  lookup (get (fst (fst (App.build_user_item_matrix Examples.db_rewritten_view 900000)))
              "u1"%string []) 1%Z
  = Some 1.0.
Proof.
  assert (Hlast : forall (db : Database) (now : Z) (u : string) (c : Z),
            lookup (get (fst (fst (App.build_user_item_matrix db now))) u []) c
            = option_map interaction_score
                (find (fun i => ((user_id i =? u)%string
                                 && (interaction_content_id i =? c)%Z)%bool)
                      (rev (App.recent_interactions db now)))).
  { intros db now u c. unfold App.build_user_item_matrix. cbn [fst].
    rewrite user_item_matrix_fold.
    destruct (find _ _); reflexivity. }
  split; [exact Hlast|].
  rewrite Hlast. reflexivity.
Qed.

(** ** The user similarity of the route module *)

Lemma sum_rearranged {A} (f : A -> R) (l l' : list A) :
  Permutation l l' -> Py.sum (map f l) = Py.sum (map f l').
Proof.
  intros Hp. induction Hp as [|x l l' Hp IH|x y l|l l' l'' Hp1 IH1 Hp2 IH2].
  - reflexivity.
  - rewrite !map_cons, !sum_cons, IH. reflexivity.
  - rewrite !map_cons, !sum_cons. lra.
  - rewrite IH1. exact IH2.
Qed.

Lemma common_items_rearranged (a b : dict Z R) :
  Permutation (inter (set_of (keys a)) (set_of (keys b)))
              (inter (set_of (keys b)) (set_of (keys a))).
Proof.
  apply NoDup_Permutation.
  - apply NoDup_filter, set_of_NoDup.
  - apply NoDup_filter, set_of_NoDup.
  - intros x. rewrite !inter_In. tauto.
Qed.

(** For every [t], the sum of the squares [(f x * t + g x) ^ 2] is a
    quadratic polynomial in [t]. *)
Lemma sum_quadratic {A} (f g : A -> R) (l : list A) (t : R) :
  Py.sum (map (fun x => (f x * t + g x) ^ 2) l)
  = Py.sum (map (fun x => f x ^ 2) l) * t ^ 2
    + 2 * Py.sum (map (fun x => f x * g x) l) * t
    + Py.sum (map (fun x => g x ^ 2) l).
Proof.
  induction l as [|x l IH].
  - simpl. ring.
  - rewrite !map_cons, !sum_cons, IH. ring.
Qed.

(** The inequality of Cauchy and Schwarz for two score vectors. *)
Lemma dot_product_squared_bound {A} (f g : A -> R) (l : list A) :
  Py.sum (map (fun x => f x * g x) l) ^ 2
  <= Py.sum (map (fun x => f x ^ 2) l) * Py.sum (map (fun x => g x ^ 2) l).
Proof.
  pose proof (sum_squares_nonneg f l) as Hf. cbv beta in Hf.
  pose proof (sum_squares_nonneg g l) as Hg. cbv beta in Hg.
  assert (Hq : forall t,
             0 <= Py.sum (map (fun x => f x ^ 2) l) * t ^ 2
                  + 2 * Py.sum (map (fun x => f x * g x) l) * t
                  + Py.sum (map (fun x => g x ^ 2) l)).
  { intros t. rewrite <- sum_quadratic.
    apply (sum_squares_nonneg (fun x => f x * t + g x)). }
  set (ff := Py.sum (map (fun x => f x ^ 2) l)) in *.
  set (gg := Py.sum (map (fun x => g x ^ 2) l)) in *.
  set (fg := Py.sum (map (fun x => f x * g x) l)) in *.
  destruct (Req_dec_T ff 0) as [E|Hne].
  - destruct (Req_dec_T fg 0) as [E'|Hne']; [rewrite E, E'; lra|].
    exfalso. specialize (Hq (- (gg + 1) / (2 * fg))). rewrite E in Hq.
    assert (E2 : 2 * fg * (- (gg + 1) / (2 * fg)) = - (gg + 1)) by (field; exact Hne').
    lra.
  - specialize (Hq (- fg / ff)).
    assert (E1 : ff * (- fg / ff) ^ 2 = fg ^ 2 / ff) by (field; exact Hne).
    assert (E2 : 2 * fg * (- fg / ff) = - 2 * (fg ^ 2 / ff)) by (field; exact Hne).
    rewrite E1, E2 in Hq.
    assert (Hle : fg ^ 2 / ff <= gg) by lra.
    apply (Rmult_le_compat_l ff) in Hle; [|lra].
    replace (ff * (fg ^ 2 / ff)) with (fg ^ 2) in Hle by (field; exact Hne).
    exact Hle.
Qed.

(** The squares over a duplicate-free selection of keys sum to at most the
    squares over all keys. *)
Lemma sum_squares_selection (f : Z -> R) (sel all : list Z) :
  NoDup sel -> (forall k, In k sel -> In k all) ->
  Py.sum (map (fun k => f k ^ 2) sel) <= Py.sum (map (fun k => f k ^ 2) all).
Proof.
  revert all; induction sel as [|k sel IH]; intros all Hnd Hsub.
  - simpl. apply (sum_squares_nonneg f all).
  - inversion Hnd as [|? ? Hnotin Hnd']; subst.
    destruct (in_split k all (Hsub k (or_introl eq_refl))) as (l1 & l2 & ->).
    rewrite (sum_rearranged (fun k => f k ^ 2) (l1 ++ k :: l2) (k :: l1 ++ l2))
      by (symmetry; apply Permutation_middle).
    rewrite !map_cons, !sum_cons.
    apply Rplus_le_compat_l, IH; [exact Hnd'|].
    intros k' Hk'. specialize (Hsub k' (or_intror Hk')).
    apply in_app_or in Hsub. apply in_or_app.
    destruct Hsub as [H1|[E|H2]]; [tauto | subst k'; contradiction | tauto].
Qed.

(** X8.  [calculate_user_similarity] of the route module is symmetric, lies
    between -1 and 1, and is not negative when no score is negative (as
    the CHECK constraint on stored interactions guarantees). *)
Theorem app_user_similarity_symmetric_bounded :
  forall a b : dict Z R,
    App.calculate_user_similarity a b = App.calculate_user_similarity b a /\
    -1 <= App.calculate_user_similarity a b <= 1 /\
    (Spec.nonneg_values a -> Spec.nonneg_values b ->
     0 <= App.calculate_user_similarity a b).
Proof.
  intros a b.
  pose proof (common_items_rearranged a b) as Hperm.
  split; [|split].
  - unfold App.calculate_user_similarity. cbv zeta.
    rewrite (Permutation_length Hperm).
    rewrite (sum_rearranged _ _ _ Hperm).
    rewrite (Rmult_comm (Py.sum (map (fun item => get a item 0 ^ 2) (keys a)))).
    rewrite (sum_map_ext (fun item => get a item 0 * get b item 0)
                         (fun item => get b item 0 * get a item 0))
      by (intros; apply Rmult_comm).
    reflexivity.
  - unfold App.calculate_user_similarity. cbv zeta.
    set (common := inter (set_of (keys a)) (set_of (keys b))).
    destruct (List.length common =? 0)%nat; [lra|].
    set (sa := Py.sum (map (fun item => get a item 0 ^ 2) (keys a))).
    set (sb := Py.sum (map (fun item => get b item 0 ^ 2) (keys b))).
    set (sp := Py.sum (map (fun item => get a item 0 * get b item 0) common)).
    destruct (Req0 (sqrt (sa * sb))) eqn:Ez; [lra|].
    assert (Hsa : 0 <= sa) by apply (sum_squares_nonneg (fun k => get a k 0)).
    assert (Hsb : 0 <= sb) by apply (sum_squares_nonneg (fun k => get b k 0)).
    assert (Hd : 0 < sqrt (sa * sb)).
    { destruct (sqrt_pos (sa * sb)) as [Hlt|Heq]; [exact Hlt|].
      rewrite Req0_true in Ez by (symmetry; exact Heq). discriminate. }
    assert (Hnd : NoDup common) by (apply NoDup_filter, set_of_NoDup).
    assert (Hca : Py.sum (map (fun k => get a k 0 ^ 2) common) <= sa).
    { apply sum_squares_selection; [exact Hnd|].
      intros k Hk. apply inter_In in Hk. apply set_of_In; tauto. }
    assert (Hcb : Py.sum (map (fun k => get b k 0 ^ 2) common) <= sb).
    { apply sum_squares_selection; [exact Hnd|].
      intros k Hk. apply inter_In in Hk. apply set_of_In; tauto. }
    pose proof (dot_product_squared_bound (fun k => get a k 0) (fun k => get b k 0) common)
      as Hcs. cbv beta in Hcs. fold sp in Hcs.
    pose proof (sum_squares_nonneg (fun k => get a k 0) common) as Hca0.
    pose proof (sum_squares_nonneg (fun k => get b k 0) common) as Hcb0.
    cbv beta in Hca0, Hcb0.
    assert (Hsq : sp ^ 2 <= sa * sb).
    { eapply Rle_trans; [exact Hcs|]. apply Rmult_le_compat; assumption. }
    assert (Hsqrt : sqrt (sa * sb) * sqrt (sa * sb) = sa * sb)
      by (apply sqrt_sqrt, Rmult_le_pos; assumption).
    assert (Habs : - sqrt (sa * sb) <= sp <= sqrt (sa * sb)) by (split; nra).
    split.
    + apply (Rmult_le_reg_r (sqrt (sa * sb))); [exact Hd|].
      unfold Rdiv. rewrite Rmult_assoc, Rinv_l by lra. lra.
    + apply (Rmult_le_reg_r (sqrt (sa * sb))); [exact Hd|].
      unfold Rdiv. rewrite Rmult_assoc, Rinv_l by lra. lra.
  - intros Ha Hb. unfold App.calculate_user_similarity. cbv zeta.
    destruct (List.length _ =? 0)%nat; [lra|].
    set (d := sqrt _).
    destruct (Req0 d) eqn:Ez; [lra|].
    assert (Hd : 0 < d).
    { destruct (sqrt_pos (Py.sum (map (fun item => get a item 0 ^ 2) (keys a))
                          * Py.sum (map (fun item => get b item 0 ^ 2) (keys b))))
        as [Hlt|Heq]; [exact Hlt|].
      fold d in Heq. rewrite Req0_true in Ez by (symmetry; exact Heq). discriminate. }
    apply Rmult_le_pos; [|left; apply Rinv_0_lt_compat; exact Hd].
    clear Hperm.
    induction (inter (set_of (keys a)) (set_of (keys b))) as [|k l IH].
    + simpl; lra.
    + rewrite map_cons, sum_cons.
      apply Rplus_le_le_0_compat; [|exact IH].
      apply Rmult_le_pos; apply get_nonneg; assumption.
Qed.

Lemma app_user_similarity_symmetric_bounded_witness :
  Spec.nonneg_values [(1%Z, 3)] /\ Spec.nonneg_values [(1%Z, 4); (2%Z, 0)] /\
  0 <= App.calculate_user_similarity [(1%Z, 3)] [(1%Z, 4); (2%Z, 0)].
Proof.
  assert (Ha : Spec.nonneg_values [(1%Z, 3)]) by (repeat constructor; simpl; lra).
  assert (Hb : Spec.nonneg_values [(1%Z, 4); (2%Z, 0)])
    by (repeat constructor; simpl; lra).
  split; [exact Ha|]. split; [exact Hb|].
  exact (proj2 (proj2 (app_user_similarity_symmetric_bounded
                         [(1%Z, 3)] [(1%Z, 4); (2%Z, 0)])) Ha Hb).
Defined.

(** ** The hybrid list of the route module *)

Section DictEntries.
Context {K : Type} `{KeyLaws K}.

Lemma setitem_entry {V} (d : dict K V) (k0 k : K) (v0 v : V) :
  In (k, v) (setitem d k0 v0) -> (k = k0 /\ v = v0) \/ In (k, v) d.
Proof.
  induction d as [|[k' v'] d IH]; simpl.
  - intros [E|[]]. inversion E; auto.
  - destruct (keq k0 k') eqn:E; simpl.
    + apply keq_spec in E; subst k'. intros [E'|Hin]; [inversion E'; auto | auto].
    + intros [E'|Hin]; [auto | destruct (IH Hin); auto].
Qed.

Lemma lookup_entry {V} (d : dict K V) (k : K) (v : V) :
  lookup d k = Some v -> In (k, v) d.
Proof.
  induction d as [|[k' v'] d IH]; simpl; [discriminate|].
  destruct (keq k k') eqn:E.
  - apply keq_spec in E; subst k'. intros E'; inversion E'; auto.
  - auto.
Qed.

Lemma value_entry {V} (d : dict K V) (v : V) :
  In v (values d) -> exists k, In (k, v) d.
Proof.
  unfold values. intros Hin. apply in_map_iff in Hin.
  destruct Hin as ([k v'] & E & Hin). simpl in E; subst v'. eauto.
Qed.
End DictEntries.

(** The entries written for the content-based list. *)
Lemma hybrid_content_entries (content_based : list App.ContentRec) (k : Z)
    (e : App.HybridRec) :
  In (k, e)
     (fold_left (fun all rec =>
                   setitem all (content_id (App.rec_content rec))
                     {| App.hybrid_content := App.rec_content rec;
                        App.content_score := App.similarity rec;
                        App.hybrid_cf_score := 0;
                        App.hybrid_score := App.similarity rec * 0.6 |})
                content_based []) ->
  k = content_id (App.hybrid_content e) /\
  App.hybrid_cf_score e = 0 /\
  App.hybrid_score e = App.content_score e * 0.6 /\
  exists rec, In rec content_based /\ App.rec_content rec = App.hybrid_content e.
Proof.
  assert (G : forall acc : dict Z App.HybridRec,
            (forall k e, In (k, e) acc ->
               k = content_id (App.hybrid_content e) /\
               App.hybrid_cf_score e = 0 /\
               App.hybrid_score e = App.content_score e * 0.6 /\
               exists rec, In rec content_based
                           /\ App.rec_content rec = App.hybrid_content e) ->
            forall l, (forall rec, In rec l -> In rec content_based) ->
            forall k e,
              In (k, e)
                 (fold_left (fun all rec =>
                    setitem all (content_id (App.rec_content rec))
                      {| App.hybrid_content := App.rec_content rec;
                         App.content_score := App.similarity rec;
                         App.hybrid_cf_score := 0;
                         App.hybrid_score := App.similarity rec * 0.6 |}) l acc) ->
              k = content_id (App.hybrid_content e) /\
              App.hybrid_cf_score e = 0 /\
              App.hybrid_score e = App.content_score e * 0.6 /\
              exists rec, In rec content_based
                          /\ App.rec_content rec = App.hybrid_content e).
  { intros acc Hacc l. revert acc Hacc.
    induction l as [|rec l IH]; intros acc Hacc Hsub k' e' Hin; simpl in Hin.
    - apply Hacc; exact Hin.
    - revert Hin. apply IH; [|intros r Hr; apply Hsub; right; exact Hr].
      intros k1 e1 Hin. apply setitem_entry in Hin.
      destruct Hin as [[-> ->]|Hin]; [|apply Hacc; exact Hin].
      simpl. repeat split. exists rec. split; [apply Hsub; left|]; reflexivity. }
  apply (G [] (fun _ _ F => match F with end) content_based (fun _ Hr => Hr)).
Qed.

(** The entries after the collaborative list was merged in.  [good] is any
    property of the content rows of both lists. *)
Lemma hybrid_merged_entries (good : Content -> Prop) (cf_based : list App.CFRec)
    (d : dict Z App.HybridRec) :
  (forall rec, In rec cf_based -> good (App.cf_content rec)) ->
  (forall k e, In (k, e) d ->
     k = content_id (App.hybrid_content e) /\ good (App.hybrid_content e)) ->
  forall k e,
    In (k, e)
       (fold_left (fun all rec =>
                     match lookup all (content_id (App.cf_content rec)) with
                     | Some e =>
                         setitem all (content_id (App.cf_content rec))
                           {| App.hybrid_content := App.hybrid_content e;
                              App.content_score := App.content_score e;
                              App.hybrid_cf_score := App.cf_score rec;
                              App.hybrid_score := App.hybrid_score e + App.cf_score rec * 0.4 |}
                     | None =>
                         setitem all (content_id (App.cf_content rec))
                           {| App.hybrid_content := App.cf_content rec;
                              App.content_score := 0;
                              App.hybrid_cf_score := App.cf_score rec;
                              App.hybrid_score := App.cf_score rec * 0.4 |}
                     end)
                  cf_based d) ->
    k = content_id (App.hybrid_content e) /\ good (App.hybrid_content e).
Proof.
  revert d; induction cf_based as [|rec l IH]; intros d Hgood Hd k e Hin; simpl in Hin.
  - apply Hd; exact Hin.
  - revert Hin. apply IH; [intros r Hr; apply Hgood; right; exact Hr|].
    intros k1 e1 Hin.
    destruct (lookup d (content_id (App.cf_content rec))) as [e0|] eqn:E;
      apply setitem_entry in Hin;
      (destruct Hin as [[-> ->]|Hin]; [|apply Hd; exact Hin]); simpl.
    + apply lookup_entry in E. apply Hd in E. exact E.
    + split; [reflexivity | apply Hgood; left; reflexivity].
Qed.

Lemma hybrid_merged_scores (cf_based : list App.CFRec) (d : dict Z App.HybridRec) :
  NoDup (map (fun rec => content_id (App.cf_content rec)) cf_based) ->
  (forall k e, In (k, e) d ->
     App.hybrid_score e = App.content_score e * 0.6 + App.hybrid_cf_score e * 0.4 /\
     (In k (map (fun rec => content_id (App.cf_content rec)) cf_based) ->
      App.hybrid_cf_score e = 0)) ->
  forall k e,
    In (k, e)
       (fold_left (fun all rec =>
                     match lookup all (content_id (App.cf_content rec)) with
                     | Some e =>
                         setitem all (content_id (App.cf_content rec))
                           {| App.hybrid_content := App.hybrid_content e;
                              App.content_score := App.content_score e;
                              App.hybrid_cf_score := App.cf_score rec;
                              App.hybrid_score := App.hybrid_score e + App.cf_score rec * 0.4 |}
                     | None =>
                         setitem all (content_id (App.cf_content rec))
                           {| App.hybrid_content := App.cf_content rec;
                              App.content_score := 0;
                              App.hybrid_cf_score := App.cf_score rec;
                              App.hybrid_score := App.cf_score rec * 0.4 |}
                     end)
                  cf_based d) ->
    App.hybrid_score e = App.content_score e * 0.6 + App.hybrid_cf_score e * 0.4.
Proof.
  revert d; induction cf_based as [|rec l IH]; intros d Hnd Hd k e Hin; simpl in Hin.
  - apply (Hd k e Hin).
  - inversion Hnd as [|? ? Hnotin Hnd']; subst.
    revert Hin. apply IH; [exact Hnd'|].
    intros k1 e1 Hin.
    destruct (lookup d (content_id (App.cf_content rec))) as [e0|] eqn:E;
      apply setitem_entry in Hin;
      (destruct Hin as [[-> ->]|Hin];
       [|destruct (Hd k1 e1 Hin) as [Hs Hz]; split;
         [exact Hs | intros Hk; apply Hz; right; exact Hk]]); simpl.
    + apply lookup_entry in E. destruct (Hd _ _ E) as [Hs Hz].
      rewrite (Hz (or_introl eq_refl)) in Hs.
      split; [rewrite Hs; lra | intros Hk; contradiction].
    + split; [lra | intros Hk; contradiction].
Qed.

(** The collaborative list of the route module is a selection of published
    catalogue rows, each with a score. *)
Lemma app_cf_shape (db : Database) (now : Z) (uid : string) (limit : nat) :
  exists (keep : Content -> bool) (score_of : Content -> R),
    App.get_collaborative_filtering_recommendations db now uid limit
    = map (fun c => {| App.cf_content := c; App.cf_score := score_of c |})
          (filter (fun c => (keep c && is_published c)%bool) (contents db)).
Proof.
  assert (Hnone : exists (keep : Content -> bool) (score_of : Content -> R),
            @nil App.CFRec
            = map (fun c => {| App.cf_content := c; App.cf_score := score_of c |})
                  (filter (fun c => (keep c && is_published c)%bool) (contents db))).
  { exists (fun _ => false), (fun _ => 0).
    rewrite (filter_none (fun c => (false && is_published c)%bool)); [reflexivity|].
    intros; reflexivity. }
  unfold App.get_collaborative_filtering_recommendations.
  destruct (App.build_user_item_matrix db now) as [[m users] items].
  destruct (negb (has_key m uid)); [exact Hnone|]. cbv zeta.
  destruct (Req0 _); [exact Hnone|].
  eexists _, _. reflexivity.
Qed.

Lemma fold_setitem_unique_keys {A V} (key_of : A -> Z) (step : dict Z V -> A -> dict Z V)
    (l : list A) (d : dict Z V) :
  (forall acc x, exists v, step acc x = setitem acc (key_of x) v) ->
  NoDup (keys d) -> NoDup (keys (fold_left step l d)).
Proof.
  intros Hstep. revert d; induction l as [|x l IH]; intros d Hd; simpl; [exact Hd|].
  apply IH. destruct (Hstep d x) as [v ->]. apply keys_setitem_NoDup; exact Hd.
Qed.

(** X9.  The hybrid list of the route module never holds a content item twice;
    its entries are published catalogue rows; and, with unique content
    ids, the hybrid score of every entry is 0.6 times its content score
    plus 0.4 times its collaborative score. *)
Theorem app_hybrid_entries :
  forall (db : Database) (now : Z) (uid : string) (cid : Z) (limit : nat),
    NoDup (map (fun e => content_id (App.hybrid_content e))
               (App.get_hybrid_recommendations db now uid cid limit)) /\
    (forall e, In e (App.get_hybrid_recommendations db now uid cid limit) ->
       In (App.hybrid_content e) (contents db) /\
       is_published (App.hybrid_content e) = true) /\
    (NoDup (map content_id (contents db)) ->
     forall e, In e (App.get_hybrid_recommendations db now uid cid limit) ->
       App.hybrid_score e
       = App.content_score e * 0.6 + App.hybrid_cf_score e * 0.4).
Proof.
  intros db now uid cid limit. unfold App.get_hybrid_recommendations. cbv zeta.
  set (content_based := App.get_content_recommendations db cid (limit / 2 + 1)).
  set (cf_based :=
         App.get_collaborative_filtering_recommendations db now uid (limit / 2 + 1)).
  match goal with
  | |- context [fold_left ?f content_based []] => set (d1 := fold_left f content_based [])
  end.
  match goal with
  | |- context [fold_left ?f cf_based d1] => set (d2 := fold_left f cf_based d1)
  end.
  set (good := fun c : Content => In c (contents db) /\ is_published c = true).
  assert (Hcf : forall rec, In rec cf_based -> good (App.cf_content rec)).
  { intros rec Hrec. unfold cf_based in Hrec.
    destruct (app_cf_shape db now uid (limit / 2 + 1)) as (keep & score_of & E).
    rewrite E in Hrec. apply in_map_iff in Hrec. destruct Hrec as (c & <- & Hc).
    apply filter_In in Hc. destruct Hc as [Hc Hk].
    apply andb_true_iff in Hk. simpl. split; tauto. }
  assert (Hd1 : forall k e, In (k, e) d1 ->
                  k = content_id (App.hybrid_content e) /\ App.hybrid_cf_score e = 0 /\
                  App.hybrid_score e = App.content_score e * 0.6 /\
                  good (App.hybrid_content e)).
  { intros k e Hin. apply hybrid_content_entries in Hin.
    destruct Hin as (Hk & Hz & Hs & rec & Hrec & Erec).
    repeat (split; [assumption|]). rewrite <- Erec.
    unfold content_based, App.get_content_recommendations in Hrec.
    destruct (get_content db cid) as [cur|]; [|contradiction].
    apply firstn_In in Hrec. unfold sorted_desc in Hrec. apply sort_In in Hrec.
    apply content_candidate in Hrec. split; tauto. }
  assert (Hd2 : forall k e, In (k, e) d2 ->
                  k = content_id (App.hybrid_content e) /\ good (App.hybrid_content e)).
  { apply hybrid_merged_entries; [exact Hcf|].
    intros k e Hin. destruct (Hd1 k e Hin) as (Hk & _ & _ & Hg). split; assumption. }
  assert (Hkeys : NoDup (keys d2)).
  { unfold d2. apply (fold_setitem_unique_keys (fun rec => content_id (App.cf_content rec))).
    - intros acc x. destruct (lookup acc _); eexists; reflexivity.
    - unfold d1.
      apply (fold_setitem_unique_keys (fun rec => content_id (App.rec_content rec))).
      + intros acc x. eexists; reflexivity.
      + constructor. }
  assert (Hids : map (fun e => content_id (App.hybrid_content e)) (values d2) = keys d2).
  { unfold values, keys. rewrite map_map. apply map_ext_in.
    intros [k e] Hin. simpl. symmetry. apply (Hd2 k e Hin). }
  split; [|split].
  - apply slice_unique_keys.
    eapply Permutation_NoDup; [apply Permutation_map, sort_perm|].
    rewrite Hids. exact Hkeys.
  - intros e He. apply firstn_In in He. unfold sorted_desc in He. apply sort_In in He.
    apply value_entry in He. destruct He as [k He]. apply (Hd2 k e He).
  - intros Hunique e He.
    apply firstn_In in He. unfold sorted_desc in He. apply sort_In in He.
    apply value_entry in He. destruct He as [k He].
    revert He. apply hybrid_merged_scores.
    + unfold cf_based.
      destruct (app_cf_shape db now uid (limit / 2 + 1)) as (keep & score_of & E).
      rewrite E, map_map. simpl. apply selected_rows_unique_ids; exact Hunique.
    + intros k1 e1 Hin. destruct (Hd1 k1 e1 Hin) as (_ & Hz & Hs & _).
      split; [rewrite Hs, Hz; lra | intros _; exact Hz].
Qed.

Lemma app_hybrid_entries_witness :
  NoDup (map content_id (contents Examples.db_two_posts)) /\
  forall e, In e (App.get_hybrid_recommendations Examples.db_two_posts 0 "u1" 1 5) ->
    App.hybrid_score e = App.content_score e * 0.6 + App.hybrid_cf_score e * 0.4.
Proof.
  assert (Hunique : NoDup (map content_id (contents Examples.db_two_posts))).
  { simpl. repeat constructor; simpl; intuition discriminate. }
  split; [exact Hunique|].
  exact (proj2 (proj2 (app_hybrid_entries Examples.db_two_posts 0 "u1" 1 5)) Hunique).
Defined.

(** ** Cold start of the route module's collaborative filtering *)

Lemma user_item_matrix_users (rows : list UserInteraction) (m : App.UserItemMatrix)
    (u : string) :
  In u (keys (fold_left (fun m i =>
                           setitem m (user_id i)
                             (setitem (get m (user_id i) []) (interaction_content_id i)
                                      (interaction_score i)))
                        rows m))
  <-> In u (keys m) \/ In u (map user_id rows).
Proof.
  revert m; induction rows as [|i rows IH]; intros m; simpl; [tauto|].
  rewrite IH, keys_setitem_In. intuition.
Qed.

Lemma no_neighbour_among_self (m : App.UserItemMatrix) (users : list string)
    (uid : string) (items : dict Z R) :
  (forall u, In u users -> u = uid) ->
  App.user_similarities m users uid items = [].
Proof.
  unfold App.user_similarities.
  assert (G : forall acc : dict string R,
            (forall u, In u users -> u = uid) ->
            fold_left (fun sims u =>
                         if negb (u =? uid)%string
                         then let sim := App.calculate_user_similarity items (get m u []) in
                              if Rltb 0 sim then setitem sims u sim else sims
                         else sims) users acc = acc);
    [|apply G].
  induction users as [|u users IH]; intros acc Hall; simpl; [reflexivity|].
  rewrite (Hall u (or_introl eq_refl)), String.eqb_refl. simpl.
  apply IH. intros u' Hu'. apply Hall; right; exact Hu'.
Qed.

(** X10.  The route module's collaborative filtering recommends nothing to a
    user without an interaction in the last 30 days, and nothing when
    nobody else has one. *)
Theorem app_cf_cold_start :
  forall (db : Database) (now : Z) (uid : string) (limit : nat),
    (forall i, In i (App.recent_interactions db now) -> user_id i <> uid) \/
    (forall i, In i (App.recent_interactions db now) -> user_id i = uid) ->
    App.get_collaborative_filtering_recommendations db now uid limit = [].
Proof.
  intros db now uid limit Hcold.
  unfold App.get_collaborative_filtering_recommendations, App.build_user_item_matrix.
  cbv beta iota zeta.
  destruct (negb (has_key _ uid)) eqn:Ekey; [reflexivity|].
  apply negb_false_iff, has_key_In, user_item_matrix_users in Ekey.
  destruct Ekey as [[]|Ekey].
  apply in_map_iff in Ekey. destruct Ekey as (i & Ei & Hi).
  destruct Hcold as [Hnone|Hself]; [exfalso; exact (Hnone i Hi Ei)|].
  rewrite no_neighbour_among_self.
  - simpl. rewrite Req0_true by reflexivity. reflexivity.
  - intros u Hu. apply set_of_In, in_map_iff in Hu.
    destruct Hu as (j & <- & Hj). apply Hself; exact Hj.
Qed.

Lemma app_cf_cold_start_witness :
  (forall i, In i (App.recent_interactions Examples.db_one_view 200) -> user_id i = "u1"%string)
  /\ App.get_collaborative_filtering_recommendations Examples.db_one_view 200 "u1" 5 = [].
Proof.
  assert (Hself : forall i, In i (App.recent_interactions Examples.db_one_view 200) ->
                            user_id i = "u1"%string).
  { intros i Hi. apply filter_In in Hi. destruct Hi as [[<-|[]] _]. reflexivity. }
  split; [exact Hself|].
  exact (app_cf_cold_start Examples.db_one_view 200 "u1" 5 (or_intror Hself)).
Defined.

(** ** Tracking *)

(** X11.  [track_user_interaction] stores the event exactly when its score is
    not negative, its type is one of the five the table allows and the
    content exists: then one row with a fresh id, the given fields and the
    current time is appended; otherwise the store is left as it was.  No
    other table is touched. *)
Theorem track_user_interaction_stores_valid_events :
  forall (db : Database) (now : Z) (uid : string) (cid : Z) (itype : string) (iscore : R),
    let db' := App.track_user_interaction db now uid cid itype iscore in
    let valid := 0 <= iscore /\ In itype interaction_types /\
                 exists c, In c (contents db) /\ content_id c = cid in
    (valid ->
     exists rid, ~ In rid (map interaction_id (interactions db)) /\
       interactions db'
       = interactions db
         ++ [{| interaction_id := rid; user_id := uid; interaction_content_id := cid;
                interaction_type := itype; interaction_score := iscore;
                timestamp := now |}]) /\
    (~ valid -> db' = db) /\
    contents db' = contents db /\ users db' = users db /\ products db' = products db /\
    orders db' = orders db /\ order_items db' = order_items db /\
    cart_items db' = cart_items db.
Proof.
  intros db now uid cid itype iscore db' valid.
  unfold db', App.track_user_interaction, add_interaction.
  set (row := {| interaction_id := next_interaction_id db; user_id := uid;
                 interaction_content_id := cid; interaction_type := itype;
                 interaction_score := iscore; timestamp := now |}).
  pose proof (interaction_ok_iff db row) as Hok. simpl in Hok. fold valid in Hok.
  destruct (interaction_ok db row); simpl.
  - split; [|split; [|repeat split]].
    + intros _. exists (next_interaction_id db).
      split; [apply next_interaction_id_fresh | reflexivity].
    + intros Hn. exfalso. apply Hn, Hok. reflexivity.
  - split; [|split; [|repeat split]].
    + intros Hv. apply Hok in Hv. discriminate.
    + reflexivity.
Qed.

(** X12.  A feedback whose action is not one of the five known ones changes
    nothing, and neither does a 'dismissed' feedback on an item the user
    has no 'view' event on: the new event would carry the score -0.5, which
    the table's CHECK constraint rejects. *)
Theorem feedback_dropped :
  forall (db : Database) (now : Z) (uid : string) (cid : Z) (action : string),
    (lookup Engine.action_mapping action = None ->
     Engine.track_recommendation_feedback db now uid cid action = db) /\
    ((forall i, In i (interactions db) -> user_id i = uid ->
                interaction_content_id i = cid -> interaction_type i <> "view"%string) ->
     Engine.track_recommendation_feedback db now uid cid "dismissed" = db).
Proof.
  intros db now uid cid action. split.
  - intros E. unfold Engine.track_recommendation_feedback. rewrite E. reflexivity.
  - intros Hnone. unfold Engine.track_recommendation_feedback.
    change (lookup Engine.action_mapping "dismissed"%string)
      with (Some ("view"%string, -0.5)).
    cbv beta iota.
    destruct (find _ (interactions db)) as [old|] eqn:Ef.
    + exfalso. apply find_some in Ef. destruct Ef as [Hin Hp].
      rewrite !andb_true_iff in Hp. destruct Hp as [[Hu Hc] Ht].
      apply String.eqb_eq in Hu, Ht. apply Z.eqb_eq in Hc.
      exact (Hnone old Hin Hu Hc Ht).
    + unfold add_interaction, interaction_ok. cbn [interaction_score].
      assert (E : Rleb 0 (-0.5) = false).
      { unfold Rleb. destruct (Rle_dec 0 (-0.5)); [lra | reflexivity]. }
      rewrite E. reflexivity.
Qed.

Lemma feedback_dropped_witness :
  (forall i, In i (interactions Examples.db_untagged) -> user_id i = "u1"%string ->
             interaction_content_id i = 1%Z -> interaction_type i <> "view"%string) /\
  Engine.track_recommendation_feedback Examples.db_untagged 100 "u1" 1 "dismissed"
  = Examples.db_untagged.
Proof.
  assert (Hnone : forall i, In i (interactions Examples.db_untagged) ->
                            user_id i = "u1"%string -> interaction_content_id i = 1%Z ->
                            interaction_type i <> "view"%string)
    by (intros i []).
  split; [exact Hnone|].
  exact (proj2 (feedback_dropped Examples.db_untagged 100 "u1" 1 "dismissed") Hnone).
Defined.

(** ** The content engine: trending, preferences, content features *)

(** X13.  [_get_trending_recommendations] returns at most the number asked for;
    each item is a published catalogue row created within the last 30
    days; items with more interactions come first and, among items with
    equally many, the more recently created ones. *)
Theorem engine_trending_sound :
  forall (db : Database) (now : Z) (n : nat),
    (List.length (Engine._get_trending_recommendations db now n) <= n)%nat /\
    (forall c, In c (Engine._get_trending_recommendations db now n) ->
       In c (contents db) /\ is_published c = true /\
       (now - 30 * seconds_per_day <= created_at c)%Z) /\
    StronglySorted
      (fun c1 c2 =>
         (Engine.interaction_count db c2 < Engine.interaction_count db c1)%nat \/
         (Engine.interaction_count db c2 = Engine.interaction_count db c1 /\
          (created_at c2 <= created_at c1)%Z))
      (Engine._get_trending_recommendations db now n).
Proof.
  intros db now n. unfold Engine._get_trending_recommendations. cbv zeta.
  split; [apply firstn_le_length|]. split.
  - intros c Hc. apply firstn_In, sort_In, filter_In in Hc.
    destruct Hc as [Hc Hk]. apply andb_true_iff in Hk. destruct Hk as [Hpub Hrecent].
    apply Z.leb_le in Hrecent. tauto.
  - apply firstn_StronglySorted, sort_ordered.
    + intros a b c; lia.
    + intros y x E. apply orb_true_iff in E.
      rewrite andb_true_iff, Nat.ltb_lt, Nat.eqb_eq, Z.ltb_lt in E. lia.
    + intros y x E. apply orb_false_iff in E.
      rewrite andb_false_iff, Nat.ltb_ge, Nat.eqb_neq, Z.ltb_ge in E. lia.
Qed.

Lemma rows_in_score_order {A} (f : A -> R) (l : list (A * R)) :
  (forall p, In p l -> snd p = f (fst p)) ->
  StronglySorted (fun a b => snd b <= snd a) l ->
  StronglySorted (fun a b => f b <= f a) (map fst l).
Proof.
  intros Hf Hs. induction Hs as [|p l Hs IH Hall]; simpl; constructor.
  - apply IH. intros q Hq. apply Hf; right; exact Hq.
  - rewrite Forall_forall in *. intros a Ha. apply in_map_iff in Ha.
    destruct Ha as (q & <- & Hq).
    rewrite <- (Hf p (or_introl eq_refl)), <- (Hf q (or_intror Hq)).
    exact (Hall q Hq).
Qed.

(** X14.  [get_preference_based_recommendations] returns at most the number
    asked for, published catalogue rows only, in descending order of their
    preference score. *)
Theorem preference_based_ranked :
  forall (db : Database) (now : Z) (uid : string) (prefs : Engine.Preferences) (n : nat),
    (List.length (Engine.get_preference_based_recommendations db now uid prefs n) <= n)%nat /\
    (forall c, In c (Engine.get_preference_based_recommendations db now uid prefs n) ->
       In c (contents db) /\ is_published c = true) /\
    StronglySorted
      (fun c1 c2 => Engine.preference_score prefs now c2
                    <= Engine.preference_score prefs now c1)
      (Engine.get_preference_based_recommendations db now uid prefs n).
Proof.
  intros db now uid prefs n. unfold Engine.get_preference_based_recommendations. cbv zeta.
  split; [rewrite length_map; apply firstn_le_length|]. split.
  - intros c Hc. apply in_map_iff in Hc. destruct Hc as ([c' s] & E & Hc).
    simpl in E; subst c'. apply firstn_In in Hc. unfold sorted_desc in Hc.
    apply sort_In, in_map_iff in Hc. destruct Hc as (c' & E & Hc).
    inversion E; subst. apply filter_In in Hc. destruct Hc as [Hc Hk].
    apply andb_true_iff in Hk. tauto.
  - apply rows_in_score_order.
    + intros p Hp. apply firstn_In in Hp. unfold sorted_desc in Hp.
      apply sort_In, in_map_iff in Hp. destruct Hp as (c & <- & _). reflexivity.
    + apply firstn_StronglySorted, sorted_desc_sorted.
Qed.

(** X15.  With fewer than three published items the document-frequency guard of
    the vectorizer fails, no feature matrix is built, and the
    content-based strategy returns nothing. *)
Theorem content_based_needs_three_documents :
  forall vectorize (st : Engine.State) (db : Database) (now : Z) (uid : string) (n : nat),
    Engine.content_matrix st = None ->
    (List.length (filter is_published (contents db)) <= 2)%nat ->
    Engine.get_content_based_recommendations vectorize st db now uid n = ([], st).
Proof.
  intros vectorize st db now uid n Hnone Hfew.
  unfold Engine.get_content_based_recommendations. rewrite Hnone.
  assert (E : Engine.build_content_features vectorize st db = st).
  { unfold Engine.build_content_features.
    destruct (filter is_published (contents db)) as [|c l] eqn:Ef; [reflexivity|].
    cbv zeta. rewrite fit_transform_small; [reflexivity|].
    rewrite length_map. exact Hfew. }
  rewrite E, Hnone. reflexivity.
Qed.

Lemma content_based_needs_three_documents_witness :
  Engine.content_matrix Engine.initial_state = None /\
  (List.length (filter is_published (contents Examples.db_two_posts)) <= 2)%nat /\
  Engine.get_content_based_recommendations Examples.no_weighting Engine.initial_state
    Examples.db_two_posts 864000 "u1" 4 = ([], Engine.initial_state).
Proof.
  split; [reflexivity|]. split; [simpl; lia|].
  apply content_based_needs_three_documents; [reflexivity | simpl; lia].
Defined.

(** ** A profile of zero scores *)

Section ZeroScores.
Context {K : Type} `{KeyLaws K}.

Lemma get_zero (d : dict K R) (k : K) : Spec.zero_values d -> get d k 0 = 0.
Proof.
  unfold get, Spec.zero_values.
  induction d as [|[k' v'] d IH]; simpl; intros Hd; [reflexivity|].
  inversion Hd; subst. destruct (keq k k'); [assumption | apply IH; assumption].
Qed.

Lemma additem_zero (d : dict K R) (k : K) (v : R) :
  Spec.zero_values d -> v = 0 -> Spec.zero_values (additem d k v).
Proof.
  intros Hd ->. unfold additem. rewrite (get_zero d k Hd), Rplus_0_r.
  unfold Spec.zero_values in *. induction d as [|[k' v'] d IH]; simpl.
  - repeat constructor.
  - inversion Hd; subst. destruct (keq k k'); constructor; auto.
Qed.

Lemma additem_not_empty (d : dict K R) (k : K) (v : R) : additem d k v <> [].
Proof.
  unfold additem. destruct d as [|[k' v'] d]; simpl; [discriminate|].
  destruct (keq k k'); discriminate.
Qed.
End ZeroScores.

Lemma accumulate_zero (db : Database) (n : nat)
    (acc : dict string R * dict string R * dict string R)
    (entry : nat * UserInteraction) :
  interaction_score (snd entry) = 0 ->
  Spec.zero_values (fst (fst acc)) /\ Spec.zero_values (snd (fst acc))
  /\ Spec.zero_values (snd acc) ->
  Spec.zero_values (fst (fst (Engine.accumulate db n acc entry))) /\
  Spec.zero_values (snd (fst (Engine.accumulate db n acc entry))) /\
  Spec.zero_values (snd (Engine.accumulate db n acc entry)).
Proof.
  destruct acc as [[cs aus] ts], entry as [i x]. cbn [fst snd].
  intros Hs (Hc & Ha & Ht). unfold Engine.accumulate.
  destruct (get_content db _) as [c|]; [|cbn; auto].
  destruct (negb (is_published c)); [cbn; auto|].
  set (w := _ * _ * interaction_score x).
  assert (Hw : w = 0) by (unfold w; rewrite Hs; ring).
  cbn [fst snd]. repeat split; try (apply additem_zero; assumption).
  clearbody w. revert ts Ht.
  induction (Engine.tag_list c) as [|t l IH]; intros ts Ht; simpl.
  - exact Ht.
  - apply IH. apply additem_zero; [exact Ht | rewrite Hw; ring].
Qed.

Lemma accumulate_keeps_categories (db : Database) (n : nat)
    (acc : dict string R * dict string R * dict string R)
    (entry : nat * UserInteraction) :
  fst (fst acc) <> [] \/
  (exists c, get_content db (interaction_content_id (snd entry)) = Some c
             /\ is_published c = true) ->
  fst (fst (Engine.accumulate db n acc entry)) <> [].
Proof.
  destruct acc as [[cs aus] ts], entry as [i x]. cbn [fst snd]. intros Hcase.
  unfold Engine.accumulate.
  destruct (get_content db _) as [c|] eqn:Ec.
  - destruct (is_published c) eqn:Ep; cbn [negb fst].
    + apply additem_not_empty.
    + destruct Hcase as [Hne|(c' & E & Hp)]; [exact Hne|]. congruence.
  - cbn [fst]. destruct Hcase as [Hne|(c' & E & Hp)]; [exact Hne | discriminate].
Qed.

Lemma fold_accumulate_zero (db : Database) (n : nat)
    (entries : list (nat * UserInteraction))
    (acc : dict string R * dict string R * dict string R) :
  (forall e, In e entries -> interaction_score (snd e) = 0) ->
  Spec.zero_values (fst (fst acc)) /\ Spec.zero_values (snd (fst acc))
  /\ Spec.zero_values (snd acc) ->
  Spec.zero_values (fst (fst (fold_left (Engine.accumulate db n) entries acc))).
Proof.
  revert acc; induction entries as [|e entries IH]; intros acc He Hacc; simpl;
    [exact (proj1 Hacc)|].
  apply IH; [intros e' He'; apply He; right; exact He'|].
  apply accumulate_zero; [apply He; left; reflexivity | exact Hacc].
Qed.

Lemma fold_accumulate_categories (db : Database) (n : nat)
    (entries : list (nat * UserInteraction))
    (acc : dict string R * dict string R * dict string R) :
  fst (fst acc) <> [] \/
  (exists e c, In e entries /\
               get_content db (interaction_content_id (snd e)) = Some c /\
               is_published c = true) ->
  fst (fst (fold_left (Engine.accumulate db n) entries acc)) <> [].
Proof.
  revert acc; induction entries as [|e entries IH]; intros acc Hcase; simpl.
  - destruct Hcase as [Hne|(e & c & [] & _)]; exact Hne.
  - apply IH. destruct Hcase as [Hne|(e' & c & [<-|Hin] & Hc & Hp)].
    + left. apply accumulate_keeps_categories. left; exact Hne.
    + left. apply accumulate_keeps_categories. right. exists c; auto.
    + right. exists e', c; auto.
Qed.

Lemma enumerate_from_covers {A} (l : list A) (i : nat) (x : A) :
  In x l -> exists j, In (j, x) (enumerate_from i l).
Proof.
  revert i; induction l as [|y l IH]; intros i; simpl; [contradiction|].
  intros [->|Hin]; [exists i; auto|].
  destruct (IH (S i) Hin) as [j Hj]. exists j; auto.
Qed.

(** X16.  A user whose interactions all carry the score 0, one of them recent
    and on a published item, gets the default profile: the category
    scores are all 0, the normalisation divides by their maximum, and the
    ZeroDivisionError is answered with [_get_default_preferences] -- the
    profile of a user without any interaction. *)
Theorem zero_scores_give_default_profile :
  forall (db : Database) (now : Z) (uid : string),
    (forall i, In i (interactions db) -> user_id i = uid -> interaction_score i = 0) ->
    (exists i c, In i (interactions db) /\ user_id i = uid /\
                 (now - 90 * seconds_per_day <= timestamp i)%Z /\
                 get_content db (interaction_content_id i) = Some c /\
                 is_published c = true) ->
    Engine.analyze_user_behavior db now uid = Engine._get_default_preferences.
Proof.
  intros db now uid Hzero (i0 & c0 & Hi0 & Hu0 & Ht0 & Hc0 & Hp0).
  unfold Engine.analyze_user_behavior. cbv zeta.
  set (rows := filter _ (interactions db)).
  assert (Hrow0 : In i0 rows).
  { apply filter_In. split; [exact Hi0|].
    apply andb_true_iff. split; [apply String.eqb_eq; exact Hu0 | apply Z.leb_le; exact Ht0]. }
  assert (Hrows : forall i, In i rows -> interaction_score i = 0).
  { intros i Hi. apply filter_In in Hi. destruct Hi as [Hi Hk].
    apply andb_true_iff in Hk. destruct Hk as [Hu _]. apply String.eqb_eq in Hu.
    apply Hzero; assumption. }
  destruct rows as [|r rows'] eqn:Er; [contradiction|].
  rewrite <- Er in *. clear Er r rows'.
  pose proof (fold_accumulate_zero db (List.length rows)
                (enumerate (sorted_asc timestamp rows)) ([], [], [])) as Hz.
  pose proof (fold_accumulate_categories db (List.length rows)
                (enumerate (sorted_asc timestamp rows)) ([], [], [])) as Hne.
  destruct (fold_left _ _ _) as [[cs aus] ts]. cbn [fst snd] in Hz, Hne.
  assert (Hcs0 : Spec.zero_values cs).
  { apply Hz.
    - intros [j x] Hin. cbn. apply Hrows.
      apply enumerate_from_In in Hin. apply sort_In in Hin. exact Hin.
    - repeat split; constructor. }
  assert (Hcs : cs <> []).
  { apply Hne. right.
    assert (Hs : In i0 (sorted_asc timestamp rows)) by (apply sort_In; exact Hrow0).
    destruct (enumerate_from_covers _ 0 _ Hs) as [j Hj].
    exists (j, i0), c0. auto. }
  destruct cs as [|[k v] cs']; [congruence|].
  cbn [nonempty_dict].
  assert (Hmax : Engine.max_value (values ((k, v) :: cs')) = 0).
  { destruct (max_value_spec (values ((k, v) :: cs'))) as [Hin _]; [discriminate|].
    unfold values in Hin. apply in_map_iff in Hin. destruct Hin as (kv & E & Hin).
    unfold values. rewrite <- E. unfold Spec.zero_values in Hcs0.
    rewrite Forall_forall in Hcs0. apply Hcs0; exact Hin. }
  rewrite Hmax. unfold Engine.normalize at 1. cbn [mapM]. unfold truediv at 1.
  rewrite Req0_true by reflexivity. reflexivity.
Qed.

Lemma zero_scores_give_default_profile_witness :
  let db := Examples.store [Examples.post 1 None 0] [Examples.event 1 "u1" 1 0 100] in
  Engine.analyze_user_behavior db 200 "u1" = Engine._get_default_preferences.
Proof.
  intros db. apply zero_scores_give_default_profile.
  - intros i [<-|[]] _. reflexivity.
  - exists (Examples.event 1 "u1" 1 0 100), (Examples.post 1 None 0).
    repeat split; [left; reflexivity | vm_compute; discriminate].
Defined.

(** ** The product engine *)

Lemma get_product_unique (db : Database) (p : Product) :
  NoDup (map product_id (products db)) -> In p (products db) ->
  get_product db (product_id p) = Some p.
Proof.
  unfold get_product. induction (products db) as [|q l IH]; simpl; [contradiction|].
  intros Hnd Hin. inversion Hnd as [|? ? Hnotin Hnd']; subst.
  destruct Hin as [->|Hin]; [rewrite Z.eqb_refl; reflexivity|].
  destruct (product_id q =? product_id p)%Z eqn:E; [|apply IH; assumption].
  apply Z.eqb_eq in E. exfalso. apply Hnotin. rewrite E.
  apply in_map; exact Hin.
Qed.

(** X17.  With unique product ids, [get_popular_products] returns the rows of
    its sales ranking, each with the score 0.5: at most [limit] active
    products, those with more units in order items first and, among
    products with equally many, the more recently created ones. *)
Theorem popular_products_ranked :
  forall (db : Database) (limit : nat),
    NoDup (map product_id (products db)) ->
    (List.length (ProductEngine.get_popular_products db limit) <= limit)%nat /\
    (forall r, In r (ProductEngine.get_popular_products db limit) ->
       ProductEngine.score r = 0.5 /\ In (ProductEngine.product r) (products db) /\
       is_active (ProductEngine.product r) = true) /\
    StronglySorted
      (fun p1 p2 =>
         (ProductEngine.total_sold db p2 < ProductEngine.total_sold db p1)%Z \/
         (ProductEngine.total_sold db p2 = ProductEngine.total_sold db p1 /\
          (product_created_at p2 <= product_created_at p1)%Z))
      (map ProductEngine.product (ProductEngine.get_popular_products db limit)).
Proof.
  intros db limit Hunique.
  assert (Hrows : forall p, In p (ProductEngine.popular_query db limit) ->
                            In p (products db) /\ is_active p = true).
  { intros p Hp. unfold ProductEngine.popular_query in Hp.
    apply firstn_In, sort_In, filter_In in Hp. exact Hp. }
  assert (E : ProductEngine.get_popular_products db limit
              = map (fun p => {| ProductEngine.product := p; ProductEngine.score := 0.5;
                                 ProductEngine.reason := "Popular product" |})
                    (ProductEngine.popular_query db limit)).
  { unfold ProductEngine.get_popular_products.
    induction (ProductEngine.popular_query db limit) as [|p l IH]; [reflexivity|].
    simpl. rewrite (get_product_unique db p Hunique) by (apply Hrows; left; reflexivity).
    simpl. f_equal. apply IH. intros q Hq. apply Hrows; right; exact Hq. }
  rewrite E. split; [|split].
  - rewrite length_map. unfold ProductEngine.popular_query. apply firstn_le_length.
  - intros r Hr. apply in_map_iff in Hr. destruct Hr as (p & <- & Hp). simpl.
    destruct (Hrows p Hp). tauto.
  - rewrite map_map. simpl. rewrite map_id.
    unfold ProductEngine.popular_query. apply firstn_StronglySorted, sort_ordered.
    + intros a b c; lia.
    + intros y x Hb. apply orb_true_iff in Hb.
      rewrite andb_true_iff, Z.ltb_lt, Z.eqb_eq, Z.ltb_lt in Hb. lia.
    + intros y x Hb. apply orb_false_iff in Hb.
      rewrite andb_false_iff, Z.ltb_ge, Z.eqb_neq, Z.ltb_ge in Hb. lia.
Qed.

Lemma popular_products_ranked_witness :
  NoDup (map product_id (products Examples.db_shop)) /\
  map (fun r => product_id (ProductEngine.product r))
      (ProductEngine.get_popular_products Examples.db_shop 5) = [1%Z; 2%Z] /\
  (forall r, In r (ProductEngine.get_popular_products Examples.db_shop 5) ->
     ProductEngine.score r = 0.5 /\ In (ProductEngine.product r) (products Examples.db_shop) /\
     is_active (ProductEngine.product r) = true).
Proof.
  assert (Hunique : NoDup (map product_id (products Examples.db_shop))).
  { simpl. repeat constructor; simpl; intuition discriminate. }
  split; [exact Hunique|]. split; [reflexivity|].
  exact (proj1 (proj2 (popular_products_ranked Examples.db_shop 5 Hunique))).
Defined.

(** The merge loops of the product hybrid: an entry is appended only when
    its product id was not seen before.  [ok] is any property of the
    entries. *)
Lemma merge_keeps_products_apart (ok : ProductEngine.Recommendation -> Prop)
    (step : list ProductEngine.Recommendation * list Z -> ProductEngine.Recommendation
            -> list ProductEngine.Recommendation * list Z)
    (l : list ProductEngine.Recommendation)
    (acc : list ProductEngine.Recommendation * list Z) :
  (forall recs seen rec, In rec l ->
     step (recs, seen) rec = (recs, seen) \/
     (mem (product_id (ProductEngine.product rec)) seen = false /\
      exists rec', product_id (ProductEngine.product rec')
                   = product_id (ProductEngine.product rec) /\ ok rec' /\
                   step (recs, seen) rec
                   = (recs ++ [rec'], product_id (ProductEngine.product rec) :: seen))) ->
  NoDup (map (fun r => product_id (ProductEngine.product r)) (fst acc)) ->
  (forall r, In r (fst acc) -> In (product_id (ProductEngine.product r)) (snd acc) /\ ok r) ->
  NoDup (map (fun r => product_id (ProductEngine.product r)) (fst (fold_left step l acc))) /\
  (forall r, In r (fst (fold_left step l acc)) ->
     In (product_id (ProductEngine.product r)) (snd (fold_left step l acc)) /\ ok r).
Proof.
  revert acc; induction l as [|rec l IH]; intros [recs seen] Hstep Hnd Hseen; simpl.
  - split; assumption.
  - assert (Hstep' : forall recs seen rec', In rec' l ->
              step (recs, seen) rec' = (recs, seen) \/
              (mem (product_id (ProductEngine.product rec')) seen = false /\
               exists rec'', product_id (ProductEngine.product rec'')
                             = product_id (ProductEngine.product rec') /\ ok rec'' /\
                             step (recs, seen) rec'
                             = (recs ++ [rec''],
                                product_id (ProductEngine.product rec') :: seen)))
      by (intros; apply Hstep; right; assumption).
    destruct (Hstep recs seen rec (or_introl eq_refl))
      as [->|(Hnew & rec' & Eid & Hok & ->)].
    + apply IH; assumption.
    + apply mem_false in Hnew. simpl in Hnd, Hseen. apply IH; [exact Hstep'| |]; simpl.
      * rewrite map_app. simpl. rewrite Eid.
        apply NoDup_app; [exact Hnd | repeat constructor; intros [] |].
        intros k Hk [<-|[]]. apply in_map_iff in Hk. destruct Hk as (r & Er & Hr).
        apply Hnew. rewrite <- Er. apply Hseen; exact Hr.
      * intros r Hr. apply in_app_or in Hr. destruct Hr as [Hr|[<-|[]]].
        -- split; [right|]; apply Hseen; exact Hr.
        -- split; [left; symmetry; exact Eid | exact Hok].
Qed.

Lemma category_fill (ok : ProductEngine.Recommendation -> Prop) (limit : nat)
    (entry : Product -> ProductEngine.Recommendation) (prods : list Product)
    (recs : list ProductEngine.Recommendation) :
  (forall p, In p prods -> ok (entry p)) ->
  (forall r, In r recs -> ok r) ->
  forall r,
    In r (fold_left (fun recs p =>
                       if (List.length recs <? limit)%nat then recs ++ [entry p] else recs)
                    prods recs) -> ok r.
Proof.
  revert recs; induction prods as [|p prods IH]; intros recs Hp Hrecs r; simpl.
  - apply Hrecs.
  - apply IH; [intros q Hq; apply Hp; right; exact Hq|].
    intros r' Hr'. destruct (List.length recs <? limit)%nat; [|apply Hrecs; exact Hr'].
    apply in_app_or in Hr'. destruct Hr' as [Hr'|[<-|[]]];
      [apply Hrecs; exact Hr' | apply Hp; left; reflexivity].
Qed.

Lemma category_rounds (db : Database) (purchased : list Z) (limit : nat)
    (all_cats cats : list string) (recs : list ProductEngine.Recommendation)
    (r : ProductEngine.Recommendation) :
  let ok := fun r : ProductEngine.Recommendation =>
              ProductEngine.score r = 0.8 /\
              In (ProductEngine.product r) (products db) /\
              is_active (ProductEngine.product r) = true /\
              In (product_category (ProductEngine.product r)) all_cats /\
              ~ In (product_id (ProductEngine.product r)) purchased in
  (forall cat, In cat cats -> In cat all_cats) ->
  (forall r', In r' recs -> ok r') ->
  In r (fold_left (fun recs cat =>
          let prods :=
            firstn limit
              (sort (fun y x => (product_created_at x <? product_created_at y)%Z)
                 (filter (fun p =>
                            ((product_category p =? cat)%string && is_active p
                             && negb (mem (product_id p) purchased))%bool)
                         (products db))) in
          fold_left (fun recs p =>
                       if (List.length recs <? limit)%nat
                       then recs ++ [{| ProductEngine.product := p; ProductEngine.score := 0.8;
                                        ProductEngine.reason :=
                                          "Based on your interest in " ++ cat |}]
                       else recs) prods recs)
          cats recs) ->
  ok r.
Proof.
  intros ok. revert recs; induction cats as [|cat cats IH]; intros recs Hsub Hrecs; simpl.
  - apply Hrecs.
  - apply IH; [intros c Hc; apply Hsub; right; exact Hc|].
    apply category_fill; [|exact Hrecs].
    intros p Hp. apply firstn_In, sort_In, filter_In in Hp. destruct Hp as [Hp Hk].
    rewrite !andb_true_iff, negb_true_iff, mem_false in Hk.
    destruct Hk as [[Hcat Hact] Hnew]. apply String.eqb_eq in Hcat.
    unfold ok; simpl. repeat split; try assumption.
    rewrite Hcat. apply Hsub; left; reflexivity.
Qed.

Lemma category_based_at_most_limit (db : Database) (uid : string) (limit : nat) :
  (List.length (ProductEngine.get_category_based_recommendations db uid limit)
   <= limit)%nat.
Proof.
  unfold ProductEngine.get_category_based_recommendations.
  destruct (ProductEngine.category_query db uid).
  - unfold ProductEngine.get_popular_products, ProductEngine.popular_query.
    set (rows := sort _ _). clearbody rows. revert rows.
    induction limit as [|n IH]; intros rows; [reflexivity|].
    destruct rows as [|p rows]; simpl; [lia|].
    specialize (IH rows). destruct (get_product db _); simpl; lia.
  - apply firstn_le_length.
Qed.

Lemma category_based_score_values (db : Database) (uid : string) (limit : nat)
    (r : ProductEngine.Recommendation) :
  In r (ProductEngine.get_category_based_recommendations db uid limit) ->
  ProductEngine.score r = 0.8 \/ ProductEngine.score r = 0.5.
Proof.
  unfold ProductEngine.get_category_based_recommendations.
  destruct (ProductEngine.category_query db uid) as [|cat0 cats'].
  - intros Hr. right. eapply popular_scores; exact Hr.
  - intros Hr. left. apply firstn_In in Hr.
    apply (category_rounds db (ProductEngine.purchased_query db uid) limit
             (cat0 :: cats') (cat0 :: cats') [] r); [auto | intros r' [] | exact Hr].
Qed.

(** X18.  [get_category_based_recommendations] returns at most [limit] entries.
    For a user without completed orders they are the popular products;
    otherwise every entry has the score 0.8 and an active catalogue
    product, from one of the user's (at most three) preferred categories,
    that the user has not bought. *)
Theorem category_based_sound :
  forall (db : Database) (uid : string) (limit : nat),
    (List.length (ProductEngine.get_category_based_recommendations db uid limit)
     <= limit)%nat /\
    (List.length (ProductEngine.category_query db uid) <= 3)%nat /\
    (ProductEngine.category_query db uid = [] ->
     ProductEngine.get_category_based_recommendations db uid limit
     = ProductEngine.get_popular_products db limit) /\
    (ProductEngine.category_query db uid <> [] ->
     forall r, In r (ProductEngine.get_category_based_recommendations db uid limit) ->
       ProductEngine.score r = 0.8 /\
       In (ProductEngine.product r) (products db) /\
       is_active (ProductEngine.product r) = true /\
       In (product_category (ProductEngine.product r))
          (ProductEngine.category_query db uid) /\
       ~ In (product_id (ProductEngine.product r)) (ProductEngine.purchased_query db uid)).
Proof.
  intros db uid limit. split; [|split; [|split]].
  - apply category_based_at_most_limit.
  - unfold ProductEngine.category_query. rewrite length_map. apply firstn_le_length.
  - intros E. unfold ProductEngine.get_category_based_recommendations. rewrite E.
    reflexivity.
  - intros Hne r Hr. unfold ProductEngine.get_category_based_recommendations in Hr.
    destruct (ProductEngine.category_query db uid) as [|cat0 cats'] eqn:Ecats;
      [congruence|].
    apply firstn_In in Hr. revert Hr.
    apply (category_rounds db (ProductEngine.purchased_query db uid) limit
             (cat0 :: cats') (cat0 :: cats') []); [auto | intros r' []].
Qed.

(** X19.  The product hybrid never lists a product twice, and the score of every
    entry is one of three constants: 0.5 * 1.2 for an entry of the
    user-based list (which holds popular products only), 0.8 for a
    category-based entry and 0.5 for a popular product; no entry carries a
    score derived from a similarity. *)
Theorem product_hybrid_entries :
  forall (db : Database) (cache : ProductEngine.Matrix) (uid : string) (limit : nat),
    NoDup (map (fun r => product_id (ProductEngine.product r))
               (fst (ProductEngine.get_hybrid_recommendations db cache uid limit))) /\
    (forall r, In r (fst (ProductEngine.get_hybrid_recommendations db cache uid limit)) ->
       ProductEngine.score r = 0.5 * 1.2 \/ ProductEngine.score r = 0.8
       \/ ProductEngine.score r = 0.5) /\
    NoDup (map product_id (fst (ProductApi.get_user_recommendations db cache uid limit))).
Proof.
  intros db cache uid limit.
  assert (Hapi : fst (ProductApi.get_user_recommendations db cache uid limit)
                 = map ProductEngine.product
                       (fst (ProductEngine.get_hybrid_recommendations db cache uid limit))).
  { unfold ProductApi.get_user_recommendations.
    destruct (ProductEngine.get_hybrid_recommendations db cache uid limit); reflexivity. }
  rewrite Hapi, map_map. clear Hapi.
  cut (NoDup (map (fun r => product_id (ProductEngine.product r))
                  (fst (ProductEngine.get_hybrid_recommendations db cache uid limit))) /\
       (forall r, In r (fst (ProductEngine.get_hybrid_recommendations db cache uid limit)) ->
          ProductEngine.score r = 0.5 * 1.2 \/ ProductEngine.score r = 0.8
          \/ ProductEngine.score r = 0.5)); [tauto|].
  set (ok := fun r : ProductEngine.Recommendation =>
               ProductEngine.score r = 0.5 * 1.2 \/ ProductEngine.score r = 0.8
               \/ ProductEngine.score r = 0.5).
  unfold ProductEngine.get_hybrid_recommendations.
  pose proof (user_based_is_popular db cache uid (limit / 2 + 1)) as Eub.
  destruct (ProductEngine.get_user_based_recommendations db cache uid (limit / 2 + 1))
    as [user_based cache'].
  cbn [fst] in Eub. cbv zeta. cbn [fst].
  set (category_based :=
         ProductEngine.get_category_based_recommendations db uid (limit / 2 + 1)).
  assert (Hcat : forall r, In r category_based -> ok r).
  { intros r Hr. right. eapply category_based_score_values; exact Hr. }
  assert (H1 : NoDup (map (fun r => product_id (ProductEngine.product r))
                          (fst (ProductEngine.add_user_based user_based))) /\
               (forall r, In r (fst (ProductEngine.add_user_based user_based)) ->
                  In (product_id (ProductEngine.product r))
                     (snd (ProductEngine.add_user_based user_based)) /\ ok r)).
  { unfold ProductEngine.add_user_based. apply merge_keeps_products_apart.
    - intros recs seen rec Hrec.
      destruct (mem (product_id (ProductEngine.product rec)) seen) eqn:E; simpl;
        [left; reflexivity | right].
      split; [reflexivity|]. eexists. split; [|split; [|reflexivity]]; [reflexivity|].
      left. simpl. rewrite Eub in Hrec. rewrite (popular_scores _ _ _ Hrec). reflexivity.
    - constructor.
    - intros r []. }
  assert (H2 : NoDup (map (fun r => product_id (ProductEngine.product r))
                          (fst (ProductEngine.add_category_based limit category_based
                                  (ProductEngine.add_user_based user_based)))) /\
               (forall r, In r (fst (ProductEngine.add_category_based limit category_based
                                       (ProductEngine.add_user_based user_based))) ->
                  In (product_id (ProductEngine.product r))
                     (snd (ProductEngine.add_category_based limit category_based
                             (ProductEngine.add_user_based user_based))) /\ ok r)).
  { unfold ProductEngine.add_category_based.
    apply merge_keeps_products_apart; [|exact (proj1 H1) | exact (proj2 H1)].
    intros recs seen rec Hrec.
    destruct (mem (product_id (ProductEngine.product rec)) seen) eqn:E; simpl;
      [left; reflexivity|].
    destruct (List.length recs <? limit)%nat; [right | left; reflexivity].
    split; [reflexivity|]. exists rec. split; [reflexivity|].
    split; [apply Hcat; exact Hrec | reflexivity]. }
  set (acc := ProductEngine.add_category_based limit category_based
                (ProductEngine.add_user_based user_based)) in *.
  assert (H3 : NoDup (map (fun r => product_id (ProductEngine.product r))
                          (fst (if (List.length (fst acc) <? limit)%nat
                                then ProductEngine.add_popular
                                       (ProductEngine.get_popular_products db
                                          (limit - List.length (fst acc))) acc
                                else acc))) /\
               (forall r, In r (fst (if (List.length (fst acc) <? limit)%nat
                                     then ProductEngine.add_popular
                                            (ProductEngine.get_popular_products db
                                               (limit - List.length (fst acc))) acc
                                     else acc)) -> ok r)).
  { destruct (List.length (fst acc) <? limit)%nat;
      [|split; [exact (proj1 H2) | intros r Hr; apply (proj2 H2); exact Hr]].
    unfold ProductEngine.add_popular.
    destruct (merge_keeps_products_apart ok
                (fun '(recs, seen) rec =>
                   if negb (mem (product_id (ProductEngine.product rec)) seen)
                   then (recs ++ [rec], product_id (ProductEngine.product rec) :: seen)
                   else (recs, seen))
                (ProductEngine.get_popular_products db (limit - List.length (fst acc)))
                acc) as [Hnd Hall]; [|exact (proj1 H2) | exact (proj2 H2) |].
    - intros recs seen rec Hrec.
      destruct (mem (product_id (ProductEngine.product rec)) seen) eqn:E; simpl;
        [left; reflexivity | right].
      split; [reflexivity|]. exists rec. split; [reflexivity|].
      split; [|reflexivity]. right; right. eapply popular_scores; exact Hrec.
    - split; [exact Hnd | intros r Hr; apply Hall; exact Hr]. }
  destruct H3 as [Hnd Hall]. split.
  - apply slice_unique_keys; exact Hnd.
  - intros r Hr. apply Hall. eapply firstn_In; exact Hr.
Qed.

(** ** The user-product matrix *)

Lemma matrix_add_entry (m : ProductEngine.Matrix) (u u' : string) (p p' : Z) (v : R) :
  get (get (ProductEngine.matrix_add m u' p' v) u []) p 0
  = get (get m u []) p 0 + (if ((u =? u')%string && (p =? p')%Z)%bool then v else 0).
Proof.
  unfold ProductEngine.matrix_add.
  destruct (u =? u')%string eqn:Eu; cbn [andb].
  - apply String.eqb_eq in Eu; subst u'. unfold get at 2. rewrite lookup_setitem_eq.
    destruct (p =? p')%Z eqn:Ep.
    + apply Z.eqb_eq in Ep; subst p'. rewrite get_additem_eq. reflexivity.
    + apply Z.eqb_neq in Ep. rewrite get_additem_neq by exact Ep. lra.
  - apply String.eqb_neq in Eu. unfold get at 2.
    rewrite lookup_setitem_neq by exact Eu. fold (get m u []). lra.
Qed.

(** Adding the rows of a grouped query (one row per key) to the matrix
    adds, at an entry, the value of the row of that entry. *)
Lemma matrix_add_rows (value : Z -> R) (rows : dict (string * Z) Z)
    (m : ProductEngine.Matrix) (u : string) (p : Z) :
  value 0%Z = 0 -> NoDup (keys rows) ->
  get (get (fold_left (fun m '((u, p), q) => ProductEngine.matrix_add m u p (value q))
                      rows m) u []) p 0
  = get (get m u []) p 0 + value (get rows (u, p) 0%Z).
Proof.
  intros Hzero. revert m; induction rows as [|[[u' p'] q] rows IH]; intros m Hnd.
  - cbn [fold_left]. change (get (@nil (string * Z * Z)) (u, p) 0%Z) with 0%Z.
    rewrite Hzero. lra.
  - inversion Hnd as [|? ? Hnotin Hnd']; subst.
    cbn [fold_left]. rewrite (IH _ Hnd'), matrix_add_entry.
    assert (Hget : get ((u', p', q) :: rows) (u, p) 0%Z
                   = if ((u =? u')%string && (p =? p')%Z)%bool then q
                     else get rows (u, p) 0%Z).
    { unfold get. cbn [lookup keq Key_pair Key_string Key_Z fst snd].
      destruct ((u =? u')%string && (p =? p')%Z)%bool; reflexivity. }
    rewrite Hget.
    destruct ((u =? u')%string && (p =? p')%Z)%bool eqn:E.
    + apply andb_true_iff in E. destruct E as [Eu Ep].
      apply String.eqb_eq in Eu. apply Z.eqb_eq in Ep. subst u' p'.
      assert (Habsent : get rows (u, p) 0%Z = 0%Z).
      { unfold get. destruct (lookup rows (u, p)) as [q'|] eqn:El; [|reflexivity].
        exfalso. apply Hnotin. apply lookup_In_keys. eauto. }
      rewrite Habsent, Hzero. lra.
    + lra.
Qed.

Lemma group_total_app {K} `{Key K} (k : K) (l1 l2 : list (K * Z)) :
  Spec.group_total k (l1 ++ l2) = (Spec.group_total k l1 + Spec.group_total k l2)%Z.
Proof.
  unfold Spec.group_total. rewrite filter_app, map_app.
  induction (map snd (filter (fun r => keq k (fst r)) l1)) as [|x l IH]; simpl; [reflexivity|].
  rewrite IH. lia.
Qed.

Lemma group_total_per_user (rows_of : string -> list ((string * Z) * Z)) (total : Z)
    (users : list string) (u : string) (p : Z) :
  (forall u', u' <> u -> Spec.group_total (u, p) (rows_of u') = 0%Z) ->
  Spec.group_total (u, p) (rows_of u) = total ->
  NoDup users -> In u users ->
  Spec.group_total (u, p) (flat_map rows_of users) = total.
Proof.
  intros Hother Hself. induction users as [|u' users IH]; intros Hnd Hin; [contradiction|].
  apply NoDup_cons_iff in Hnd. destruct Hnd as [Hnotin Hnd'].
  simpl. rewrite group_total_app.
  destruct Hin as [->|Hin].
  - rewrite Hself.
    assert (Hrest : Spec.group_total (u, p) (flat_map rows_of users) = 0%Z).
    { clear IH Hnd'. induction users as [|v users IH]; [reflexivity|].
      simpl. rewrite group_total_app, Hother, IH; [reflexivity | | ].
      - intros Hv. apply Hnotin. right; exact Hv.
      - intros ->. apply Hnotin. left; reflexivity. }
    rewrite Hrest. lia.
  - rewrite Hother, (IH Hnd' Hin); [reflexivity|].
    intros ->. contradiction.
Qed.

Lemma total_app (l1 l2 : list Z) :
  fold_right Z.add 0%Z (l1 ++ l2)
  = (fold_right Z.add 0%Z l1 + fold_right Z.add 0%Z l2)%Z.
Proof. induction l1 as [|x l1 IH]; simpl; [reflexivity | rewrite IH; lia]. Qed.

Lemma group_total_cons (u u' : string) (p p' q : Z) (rows : list ((string * Z) * Z)) :
  Spec.group_total (u, p) (((u', p'), q) :: rows)
  = ((if ((u =? u')%string && (p =? p')%Z)%bool then q else 0)
     + Spec.group_total (u, p) rows)%Z.
Proof.
  unfold Spec.group_total. cbn [filter fst snd keq Key_pair Key_string Key_Z].
  destruct ((u =? u')%string && (p =? p')%Z)%bool; reflexivity.
Qed.

Lemma cart_rows_total (items : list CartItem) (u u' : string) (p : Z) :
  Spec.group_total (u, p)
    (flat_map (fun ci => if (cart_user_id ci =? u')%string
                         then [((u', cart_product_id ci), cart_quantity ci)] else [])
              items)
  = if (u =? u')%string
    then fold_right Z.add 0%Z
           (map cart_quantity
              (filter (fun ci => ((cart_user_id ci =? u)%string
                                  && (cart_product_id ci =? p)%Z)%bool) items))
    else 0%Z.
Proof.
  induction items as [|ci items IH]; simpl.
  - destruct (u =? u')%string; reflexivity.
  - destruct (cart_user_id ci =? u')%string eqn:Ec; simpl.
    + rewrite group_total_cons, IH. destruct (u =? u')%string eqn:Eu; simpl; [|reflexivity].
      apply String.eqb_eq in Eu; subst u'. rewrite Ec. simpl.
      rewrite (Z.eqb_sym (cart_product_id ci) p).
      destruct (p =? cart_product_id ci)%Z; simpl; lia.
    + rewrite IH. destruct (u =? u')%string eqn:Eu; [|reflexivity].
      apply String.eqb_eq in Eu; subst u'. rewrite Ec. reflexivity.
Qed.

Lemma order_rows_total (items : list OrderItem) (oid : Z) (u u' : string) (p : Z) :
  Spec.group_total (u, p)
    (flat_map (fun oi => if (item_order_id oi =? oid)%Z
                         then [((u', item_product_id oi), item_quantity oi)] else [])
              items)
  = if (u =? u')%string
    then fold_right Z.add 0%Z
           (map item_quantity
              (filter (fun oi => ((item_order_id oi =? oid)%Z
                                  && (item_product_id oi =? p)%Z)%bool) items))
    else 0%Z.
Proof.
  induction items as [|oi items IH]; simpl.
  - destruct (u =? u')%string; reflexivity.
  - destruct (item_order_id oi =? oid)%Z; simpl; [|exact IH].
    rewrite group_total_cons, IH. destruct (u =? u')%string; simpl; [|reflexivity].
    rewrite (Z.eqb_sym (item_product_id oi) p).
    destruct (p =? item_product_id oi)%Z; simpl; lia.
Qed.

Lemma purchase_rows_total (db : Database) (os : list Order) (u u' : string) (p : Z) :
  Spec.group_total (u, p)
    (flat_map (fun o =>
       if ((order_user_id o =? u')%string && (order_status o =? "completed")%string)%bool
       then flat_map (fun oi =>
              if (item_order_id oi =? order_id o)%Z
              then [((u', item_product_id oi), item_quantity oi)] else [])
              (order_items db)
       else []) os)
  = if (u =? u')%string
    then fold_right Z.add 0%Z
           (flat_map (fun o =>
              if ((order_user_id o =? u)%string
                  && (order_status o =? "completed")%string)%bool
              then map item_quantity
                     (filter (fun oi => ((item_order_id oi =? order_id o)%Z
                                         && (item_product_id oi =? p)%Z)%bool)
                             (order_items db))
              else []) os)
    else 0%Z.
Proof.
  induction os as [|o os IH]; simpl.
  - destruct (u =? u')%string; reflexivity.
  - rewrite group_total_app, IH. destruct (u =? u')%string eqn:Eu.
    + apply String.eqb_eq in Eu; subst u'. rewrite total_app. f_equal.
      destruct (_ && _)%bool; [|reflexivity].
      rewrite order_rows_total, String.eqb_refl. reflexivity.
    + destruct (_ && _)%bool; [|reflexivity].
      rewrite order_rows_total, Eu. reflexivity.
Qed.

(** X20.  An entry of the user-product matrix is the number of units the user
    bought in completed orders plus 0.3 times the number of units in the
    user's cart. *)
Theorem product_matrix_entry :
  forall (db : Database) (u : string) (p : Z),
    NoDup (users db) -> In u (users db) ->
    get (get (ProductEngine.build_user_product_matrix db) u []) p 0
    = IZR (Spec.purchased db u p) + IZR (Spec.in_cart db u p) * 0.3.
Proof.
  intros db u p Hnd Hin. unfold ProductEngine.build_user_product_matrix. cbv zeta.
  rewrite (matrix_add_rows (fun q => IZR q * 0.3));
    [|lra | apply group_sum_unique_keys].
  rewrite (matrix_add_rows IZR); [|reflexivity | apply group_sum_unique_keys].
  change (get (@nil (string * dict Z R)) u []) with (@nil (Z * R)).
  change (get (@nil (Z * R)) p 0) with 0.
  unfold ProductEngine.purchase_query, ProductEngine.cart_query.
  rewrite !group_sum_get.
  rewrite (group_total_per_user _ (Spec.purchased db u p) (users db) u p); try assumption.
  - rewrite (group_total_per_user _ (Spec.in_cart db u p) (users db) u p); try assumption.
    + lra.
    + intros u' Hne. rewrite cart_rows_total.
      destruct (u =? u')%string eqn:E; [|reflexivity].
      apply String.eqb_eq in E. congruence.
    + rewrite cart_rows_total, String.eqb_refl. reflexivity.
  - intros u' Hne. rewrite purchase_rows_total.
    destruct (u =? u')%string eqn:E; [|reflexivity].
    apply String.eqb_eq in E. congruence.
  - rewrite purchase_rows_total, String.eqb_refl. reflexivity.
Qed.

Lemma product_matrix_entry_witness :
  NoDup (users Examples.db_shop) /\ In "u1"%string (users Examples.db_shop) /\
  get (get (ProductEngine.build_user_product_matrix Examples.db_shop) "u1"%string []) 2%Z 0
  = IZR (Spec.purchased Examples.db_shop "u1" 2)
    + IZR (Spec.in_cart Examples.db_shop "u1" 2) * 0.3.
Proof.
  assert (Hnd : NoDup (users Examples.db_shop)) by (repeat constructor; intros []).
  assert (Hin : In "u1"%string (users Examples.db_shop)) by (left; reflexivity).
  split; [exact Hnd|]. split; [exact Hin|].
  exact (product_matrix_entry Examples.db_shop "u1" 2 Hnd Hin).
Defined.

(** ** The module-level functions of the product engine *)

Lemma popular_at_most_limit (db : Database) (limit : nat) :
  (List.length (ProductEngine.get_popular_products db limit) <= limit)%nat.
Proof.
  unfold ProductEngine.get_popular_products, ProductEngine.popular_query.
  set (rows := sort _ _). clearbody rows. revert rows.
  induction limit as [|n IH]; intros rows; [reflexivity|].
  destruct rows as [|p rows]; simpl; [lia|].
  specialize (IH rows). destruct (get_product db _); simpl; lia.
Qed.

(** X21.  [get_product_recommendations_for_user] returns at most [limit] entries
    whatever the recommendation type, and the popular products for every
    type other than 'category_based' and 'hybrid' -- also for 'user_based'.
    [get_similar_products] returns the popular products or nothing.
    [get_user_recommendations] returns at most [limit] products. *)
Theorem product_api_results :
  forall (db : Database) (cache : ProductEngine.Matrix) (uid : string) (limit : nat),
    (forall recommendation_type,
       (List.length (fst (ProductApi.get_product_recommendations_for_user
                            db cache uid recommendation_type limit)) <= limit)%nat /\
       (recommendation_type <> "category_based"%string ->
        recommendation_type <> "hybrid"%string ->
        fst (ProductApi.get_product_recommendations_for_user
               db cache uid recommendation_type limit)
        = ProductEngine.get_popular_products db limit)) /\
    (forall pid,
       fst (ProductApi.get_similar_products db cache pid limit)
       = ProductEngine.get_popular_products db limit \/
       fst (ProductApi.get_similar_products db cache pid limit) = []) /\
    (List.length (fst (ProductApi.get_user_recommendations db cache uid limit)) <= limit)%nat.
Proof.
  intros db cache uid limit. split; [|split].
  - intros t. unfold ProductApi.get_product_recommendations_for_user.
    destruct (t =? "user_based")%string eqn:E1; cbn [try_except].
    { rewrite user_based_is_popular. split; [apply popular_at_most_limit | reflexivity]. }
    destruct (t =? "category_based")%string eqn:E2; cbn [try_except fst].
    { apply String.eqb_eq in E2.
      split; [apply category_based_at_most_limit | congruence]. }
    destruct (t =? "hybrid")%string eqn:E3; cbn [try_except fst].
    { apply String.eqb_eq in E3. split; [|congruence].
      unfold ProductEngine.get_hybrid_recommendations.
      destruct (ProductEngine.get_user_based_recommendations _ _ _ _) as [ub c'].
      cbn [fst]. apply firstn_le_length. }
    split; [apply popular_at_most_limit | reflexivity].
  - intros pid. unfold ProductApi.get_similar_products. cbn [try_except].
    apply item_based_is_popular_or_empty.
  - unfold ProductApi.get_user_recommendations.
    destruct (ProductEngine.get_hybrid_recommendations db cache uid limit)
      as [recs c'] eqn:E. cbn [try_except fst]. rewrite length_map.
    replace recs with (fst (ProductEngine.get_hybrid_recommendations db cache uid limit))
      by (rewrite E; reflexivity).
    unfold ProductEngine.get_hybrid_recommendations.
    destruct (ProductEngine.get_user_based_recommendations _ _ _ _) as [ub c''].
    cbn [fst]. apply firstn_le_length.
Qed.

(** ** The classifier *)

Lemma keyword_rounds_nonneg (text : string) (w1 w2 : string)
    (groups : dict string (list string)) (score : R) :
  0 <= score ->
  0 <= fold_left (fun score '(keyword_type, keywords) =>
                    if (keyword_type =? w1)%string
                    then score + INR (Classifier.matches keywords text) * 0.08
                    else if (keyword_type =? w2)%string
                    then score + INR (Classifier.matches keywords text) * 0.06
                    else score + INR (Classifier.matches keywords text) * 0.04)
                 groups score.
Proof.
  revert score; induction groups as [|[kt kws] groups IH]; intros score Hs; simpl;
    [exact Hs|].
  pose proof (pos_INR (Classifier.matches kws text)) as Hm.
  apply IH. destruct (kt =? w1)%string; [|destruct (kt =? w2)%string]; nra.
Qed.

(** X22.  Both scores of the classifier lie between 0 and 1, whatever the text,
    the category and the outcome of the regular-expression searches; and
    the classification is always one of the three values the CHECK
    constraint on [Content.user_type] allows. *)
Theorem classifier_scores_and_result :
  forall (re_search : string -> bool -> string -> bool)
         (title content category : string) (tags : option (list string)) (text : string),
    0 <= Classifier._calculate_tech_score re_search text category <= 1 /\
    0 <= Classifier._calculate_business_score re_search text category <= 1 /\
    In (Classifier.classify_content re_search title content category tags) user_types.
Proof.
  intros re_search title content category tags text. split; [|split].
  - unfold Classifier._calculate_tech_score. cbv zeta.
    destruct (_ =? 0)%nat; [lra|].
    set (s0 := if mem category _ then _ else _).
    assert (H0 : 0 <= s0) by (unfold s0; destruct (mem category _); lra).
    pose proof (keyword_rounds_nonneg text "programming" "tech_concepts"
                  Classifier.tech_keywords s0 H0) as H1.
    set (s1 := fold_left _ _ _) in *.
    destruct (re_search _ false text), (re_search _ true text), (re_search _ false text);
      unfold Rmin; destruct (Rle_dec _ _); lra.
  - unfold Classifier._calculate_business_score. cbv zeta.
    destruct (_ =? 0)%nat; [lra|].
    set (s0 := if mem category _ then _ else _).
    assert (H0 : 0 <= s0) by (unfold s0; destruct (mem category _); lra).
    pose proof (keyword_rounds_nonneg text "strategy" "management"
                  Classifier.business_keywords s0 H0) as H1.
    set (s1 := fold_left _ _ _) in *.
    destruct (re_search _ false text), (re_search _ false text), (re_search _ false text);
      unfold Rmin; destruct (Rle_dec _ _); lra.
  - unfold Classifier.classify_content, user_types. cbv zeta.
    destruct (_ && _)%bool; [left; reflexivity|].
    destruct (_ && _)%bool; [right; left; reflexivity | right; right; left; reflexivity].
Qed.

Lemma lower_append (a b : string) : lower (a ++ b) = (lower a ++ lower b)%string.
Proof. induction a as [|c a IH]; simpl; [reflexivity | rewrite IH; reflexivity]. Qed.

Lemma lower_join_space (l : list string) :
  lower (join " " l) = join " " (map lower l).
Proof.
  induction l as [|x l IH]; [reflexivity|].
  destruct l as [|y l]; [reflexivity|].
  change (join " " (x :: y :: l)) with (x ++ " " ++ join " " (y :: l))%string.
  change (join " " (map lower (x :: y :: l)))
    with (lower x ++ " " ++ join " " (map lower (y :: l)))%string.
  rewrite !lower_append, IH. reflexivity.
Qed.

(** X23.  The classification depends on the title, the content and the tags
    only through their lower-cased forms: two inputs that differ in letter
    case alone are classified alike.  (The category is compared as it
    is.) *)
Theorem classify_content_ignores_case :
  forall (re_search : string -> bool -> string -> bool)
         (title title' content content' category : string)
         (tags tags' : option (list string)),
    lower title = lower title' ->
    lower content = lower content' ->
    map lower (match tags with Some l => l | None => [] end)
    = map lower (match tags' with Some l => l | None => [] end) ->
    Classifier.classify_content re_search title content category tags
    = Classifier.classify_content re_search title' content' category tags'.
Proof.
  intros re_search title title' content content' category tags tags' Ht Hc Htags.
  unfold Classifier.classify_content. cbv zeta.
  assert (E : lower (title ++ " " ++ content ++ " "
                     ++ join " " (match tags with Some l => l | None => [] end))
              = lower (title' ++ " " ++ content' ++ " "
                       ++ join " " (match tags' with Some l => l | None => [] end))).
  { rewrite !lower_append, !lower_join_space, Ht, Hc, Htags. reflexivity. }
  rewrite E. reflexivity.
Qed.

Lemma classify_content_ignores_case_witness :
  Classifier.classify_content (fun _ _ _ => false)
    "Python API" "Guide" "Tutorial" (Some ["SQL"%string])
  = Classifier.classify_content (fun _ _ _ => false)
      "python api" "GUIDE" "Tutorial" (Some ["sql"%string]).
Proof. apply classify_content_ignores_case; reflexivity. Defined.

(** [round(x, n)] is within half a unit of the [n]-th decimal place. *)
Lemma round_error (x : R) (n : nat) :
  Rabs (Py.round x n - x) <= / (2 * 10 ^ n).
Proof.
  unfold Py.round, round_half_even.
  assert (Hp : 0 < 10 ^ n) by (apply pow_lt; lra).
  set (y := x * 10 ^ n).
  destruct (base_Int_part y) as [Hlo Hhi].
  set (f := Int_part y) in *.
  assert (Hbound : Rabs (IZR (if Rltb (y - IZR f) (1 / 2) then f
                              else if Rltb (1 / 2) (y - IZR f) then (f + 1)%Z
                              else if Z.even f then f else (f + 1)%Z) - y) <= 1 / 2).
  { destruct (Rltb (y - IZR f) (1 / 2)) eqn:E1.
    - apply Rltb_spec in E1. apply Rabs_le. lra.
    - assert (H1 : 1 / 2 <= y - IZR f).
      { unfold Rltb in E1. destruct (Rlt_dec (y - IZR f) (1 / 2)); [discriminate | lra]. }
      assert (Hplus : Rabs (IZR (f + 1) - y) <= 1 / 2)
        by (rewrite plus_IZR; apply Rabs_le; lra).
      destruct (Rltb (1 / 2) (y - IZR f)) eqn:E2; [exact Hplus|].
      assert (H2 : y - IZR f <= 1 / 2).
      { unfold Rltb in E2. destruct (Rlt_dec (1 / 2) (y - IZR f)); [discriminate | lra]. }
      destruct (Z.even f); [apply Rabs_le; lra | exact Hplus]. }
  match goal with
  | |- context [IZR (if ?c then ?a else ?b)] => set (z := IZR (if c then a else b)) in *
  end.
  replace (z / 10 ^ n - x) with ((z - y) / 10 ^ n) by (unfold y; field; lra).
  unfold Rdiv. rewrite Rabs_mult, (Rabs_right (/ 10 ^ n))
    by (left; apply Rinv_0_lt_compat; exact Hp).
  replace (/ (2 * 10 ^ n)) with (1 / 2 * / 10 ^ n) by (field; lra).
  apply Rmult_le_compat_r; [left; apply Rinv_0_lt_compat; exact Hp | exact Hbound].
Qed.

(** X24.  [get_classification_explanation] reports the classification of
    [classify_content], scores within 0.0005 of the two scores, and at
    most ten keywords per side, each a keyword of the classifier's tables
    that occurs in the lower-cased text. *)
Theorem classification_explanation_sound :
  forall (re_search : string -> bool -> string -> bool) (format_2f : R -> string)
         (title content category : string) (tags : option (list string)),
    let e := Classifier.get_classification_explanation re_search format_2f
               title content category tags in
    let full_text :=
      lower (title ++ " " ++ content ++ " "
             ++ join " " (match tags with Some l => l | None => [] end)) in
    Classifier.expl_classification e
    = Classifier.classify_content re_search title content category tags /\
    Rabs (Classifier.expl_tech_score e
          - Classifier._calculate_tech_score re_search full_text category) <= 0.0005 /\
    Rabs (Classifier.expl_business_score e
          - Classifier._calculate_business_score re_search full_text category) <= 0.0005 /\
    (List.length (Classifier.expl_tech_keywords e) <= 10)%nat /\
    (List.length (Classifier.expl_business_keywords e) <= 10)%nat /\
    (forall kw, In kw (Classifier.expl_tech_keywords e) ->
       substring_in kw full_text = true /\
       exists group, In group (values Classifier.tech_keywords) /\ In kw group) /\
    (forall kw, In kw (Classifier.expl_business_keywords e) ->
       substring_in kw full_text = true /\
       exists group, In group (values Classifier.business_keywords) /\ In kw group).
Proof.
  intros re_search format_2f title content category tags e full_text.
  assert (Hround : forall x, Rabs (Py.round x 3 - x) <= 0.0005).
  { intros x. eapply Rle_trans; [apply round_error|]. simpl. lra. }
  assert (Hkw : forall (groups : list (list string)) (kw : string),
            In kw (firstn 10 (flat_map (fun keyword_group =>
                                filter (fun kw => substring_in kw full_text) keyword_group)
                              groups)) ->
            substring_in kw full_text = true /\ exists group, In group groups /\ In kw group).
  { intros groups kw Hin. apply firstn_In, in_flat_map in Hin.
    destruct Hin as (group & Hg & Hin). apply filter_In in Hin.
    split; [tauto | exists group; tauto]. }
  unfold e, Classifier.get_classification_explanation. cbv zeta.
  cbn [Classifier.expl_classification Classifier.expl_tech_score
       Classifier.expl_business_score Classifier.expl_tech_keywords
       Classifier.expl_business_keywords].
  split; [reflexivity|]. split; [apply Hround|]. split; [apply Hround|].
  split; [apply firstn_le_length|]. split; [apply firstn_le_length|].
  split; intros kw Hin; apply Hkw; exact Hin.
Qed.

(** ** Tags of a content row *)

Lemma rstrip_idempotent (s : string) : rstrip (rstrip s) = rstrip s.
Proof.
  induction s as [|c s IH]; [reflexivity|].
  simpl. destruct (is_empty (rstrip s) && is_space c)%bool eqn:E; [reflexivity|].
  simpl. rewrite IH, E. reflexivity.
Qed.

Lemma lstrip_head (s : string) :
  match lstrip s with
  | EmptyString => True
  | String c _ => is_space c = false
  end.
Proof.
  induction s as [|c s IH]; simpl; [exact I|].
  destruct (is_space c) eqn:E; [exact IH | exact E].
Qed.

Lemma lstrip_fixed (s : string) :
  match s with EmptyString => True | String c _ => is_space c = false end ->
  lstrip s = s.
Proof. destruct s as [|c s]; simpl; [reflexivity|]. intros ->. reflexivity. Qed.

Lemma rstrip_head (s : string) :
  match s with EmptyString => True | String c _ => is_space c = false end ->
  match rstrip s with EmptyString => True | String c _ => is_space c = false end.
Proof.
  destruct s as [|c s]; simpl; [auto|]. intros E.
  rewrite E, andb_false_r. exact E.
Qed.

Lemma strip_idempotent (s : string) : strip (strip s) = strip s.
Proof.
  unfold strip. rewrite (lstrip_fixed (rstrip (lstrip s))).
  - apply rstrip_idempotent.
  - apply rstrip_head, lstrip_head.
Qed.

Lemma strip_chars (p : ascii -> bool) (s : string) :
  Spec.all_chars p s = true -> Spec.all_chars p (strip s) = true.
Proof.
  intros Hs. unfold strip.
  assert (Hl : Spec.all_chars p (lstrip s) = true).
  { induction s as [|c s IH]; simpl; [reflexivity|].
    simpl in Hs. apply andb_true_iff in Hs.
    destruct (is_space c); [apply IH; tauto|]. simpl. apply andb_true_iff; exact Hs. }
  revert Hl. generalize (lstrip s). clear. intros s.
  induction s as [|c s IH]; simpl; [reflexivity|].
  rewrite andb_true_iff. intros [Hc Hs].
  destruct (is_empty (rstrip s) && is_space c)%bool; [reflexivity|].
  simpl. rewrite Hc, (IH Hs). reflexivity.
Qed.

Lemma split_on_aux_chars (sep : ascii) (s cur piece : string) :
  Spec.all_chars (fun c => negb (Ascii.eqb c sep)) cur = true ->
  In piece (split_on_aux sep s cur) ->
  Spec.all_chars (fun c => negb (Ascii.eqb c sep)) piece = true.
Proof.
  revert cur; induction s as [|c s IH]; simpl; intros cur Hcur Hin.
  - destruct Hin as [<-|[]]; exact Hcur.
  - destruct (Ascii.eqb c sep) eqn:E.
    + destruct Hin as [<-|Hin]; [exact Hcur | apply (IH EmptyString); auto].
    + apply (IH (cur ++ String c EmptyString)%string); [|exact Hin].
      rewrite all_chars_append_char, Hcur, E. reflexivity.
Qed.

(** X25.  Every tag [get_tags_list] returns is non-empty, has no leading or
    trailing whitespace and contains no comma. *)
Theorem tags_list_clean :
  forall (c : Content) (tag : string),
    In tag (get_tags_list c) ->
    tag <> EmptyString /\ strip tag = tag /\
    Spec.all_chars (fun ch => negb (Ascii.eqb ch ",")) tag = true.
Proof.
  intros c tag. unfold get_tags_list.
  destruct (tags c) as [t|]; [|contradiction].
  destruct (is_empty t); [contradiction|].
  intros Hin. apply filter_In in Hin. destruct Hin as [Hin Hne].
  apply in_map_iff in Hin. destruct Hin as (piece & <- & Hpiece).
  split; [|split].
  - intros E. rewrite E in Hne. discriminate.
  - apply strip_idempotent.
  - apply strip_chars. unfold split_on in Hpiece.
    revert Hpiece. apply split_on_aux_chars. reflexivity.
Qed.

Lemma tags_list_clean_witness :
  In "Tech"%string (get_tags_list (Examples.post 1 (Some " News ,, Tech "%string) 0)) /\
  strip "Tech" = "Tech"%string.
Proof.
  assert (Hin : In "Tech"%string
                   (get_tags_list (Examples.post 1 (Some " News ,, Tech "%string) 0)))
    by (vm_compute; right; left; reflexivity).
  split; [exact Hin|].
  exact (proj1 (proj2 (tags_list_clean _ _ Hin))).
Defined.

Lemma append_char_assoc (cur a : string) (c : ascii) :
  ((cur ++ String c EmptyString) ++ a)%string = (cur ++ String c a)%string.
Proof. induction cur as [|x cur IH]; simpl; [reflexivity | rewrite IH; reflexivity]. Qed.

Lemma append_empty (s : string) : (s ++ "")%string = s.
Proof. induction s as [|c s IH]; simpl; [reflexivity | rewrite IH; reflexivity]. Qed.

Lemma split_on_aux_piece (sep : ascii) (a b cur : string) :
  Spec.all_chars (fun c => negb (Ascii.eqb c sep)) a = true ->
  split_on_aux sep (a ++ b) cur = split_on_aux sep b (cur ++ a).
Proof.
  revert cur; induction a as [|c a IH]; intros cur; simpl.
  - intros _. rewrite append_empty. reflexivity.
  - rewrite andb_true_iff, negb_true_iff. intros [Hc Ha].
    rewrite Hc, (IH _ Ha), append_char_assoc. reflexivity.
Qed.

Lemma split_joined_tags (t : string) (l : list string) (cur : string) :
  (forall x, In x (t :: l) ->
     Spec.all_chars (fun c => negb (Ascii.eqb c ",")) x = true) ->
  split_on_aux "," (join ", " (t :: l)) cur
  = (cur ++ t)%string :: map (fun x => (" " ++ x)%string) l.
Proof.
  revert t cur; induction l as [|t' l IH]; intros t cur Hall.
  - simpl join. rewrite <- (append_empty t) at 1.
    rewrite split_on_aux_piece by (apply Hall; left; reflexivity). reflexivity.
  - change (join ", " (t :: t' :: l)) with (t ++ ", " ++ join ", " (t' :: l))%string.
    rewrite split_on_aux_piece by (apply Hall; left; reflexivity).
    change (", " ++ join ", " (t' :: l))%string
      with (String "," (String " " (join ", " (t' :: l)))).
    cbn [split_on_aux]. change (Ascii.eqb "," ",") with true.
    change (Ascii.eqb " " ",") with false. cbv iota.
    rewrite IH by (intros x Hx; apply Hall; right; exact Hx). reflexivity.
Qed.

(** X26.  [set_tags_list] followed by [get_tags_list] gives the list back when
    its tags are clean (non-empty, without surrounding whitespace, without
    a comma) -- which the tags [get_tags_list] returns always are. *)
Theorem tags_round_trip :
  forall (c : Content) (tags_list : list string),
    (forall tag, In tag tags_list ->
       tag <> EmptyString /\ strip tag = tag /\
       Spec.all_chars (fun ch => negb (Ascii.eqb ch ",")) tag = true) ->
    get_tags_list (set_tags_list c tags_list) = tags_list.
Proof.
  intros c [|t l] Hclean; [reflexivity|].
  unfold get_tags_list, set_tags_list. cbn [tags].
  assert (Hne : is_empty (join ", " (t :: l)) = false).
  { destruct (Hclean t (or_introl eq_refl)) as (Ht & _).
    destruct t as [|ch t]; [congruence|]. destruct l; reflexivity. }
  rewrite Hne. unfold split_on.
  rewrite split_joined_tags by (intros x Hx; apply Hclean; exact Hx).
  cbn [map append]. rewrite map_map.
  assert (Hstrip : forall x, In x (t :: l) -> strip x = x /\ is_empty x = false).
  { intros x Hx. destruct (Hclean x Hx) as (Hx0 & Hx1 & _). split; [exact Hx1|].
    destruct x; [congruence | reflexivity]. }
  destruct (Hstrip t (or_introl eq_refl)) as [Et Et'].
  rewrite Et. cbn [filter]. rewrite Et'. cbn [negb]. f_equal.
  assert (Hl : forall x, In x l -> strip x = x /\ is_empty x = false)
    by (intros x Hx; apply Hstrip; right; exact Hx).
  clear -Hl. induction l as [|x l IH]; [reflexivity|].
  cbn [map filter].
  change (strip (String " " x)) with (strip x).
  destruct (Hl x (or_introl eq_refl)) as [Ex Ex']. rewrite Ex, Ex'. cbn [negb].
  f_equal. apply IH. intros y Hy. apply Hl; right; exact Hy.
Qed.

Lemma tags_round_trip_witness :
  get_tags_list (set_tags_list (Examples.post 1 None 0) ["News"; "Big Tech"]%string)
  = ["News"; "Big Tech"]%string.
Proof.
  apply tags_round_trip.
  intros tag [<-|[<-|[]]]; (split; [discriminate | split; reflexivity]).
Defined.

(** ** Coupons *)

Lemma Rmin_cases (x y : R) : (Rmin x y = x /\ x <= y) \/ (Rmin x y = y /\ y <= x).
Proof. unfold Rmin. destruct (Rle_dec x y); [left | right]; split; lra. Qed.

(** X27.  For an order amount that is not negative and a coupon whose discount
    value (and cap, if it has one) is not negative and whose percentage is
    at most 100, [calculate_discount] never raises when the columns
    [minimum_amount] and [usage_count] are set, and the discount lies
    between 0 and the order amount; it is 0 for a coupon that is not valid
    and for an amount below the minimum, and a percentage discount does
    not exceed a non-zero cap. *)
Theorem coupon_discount_within_order :
  forall (c : Coupon) (now : Z) (amount m : R) (n : Z),
    0 <= amount -> 0 <= discount_value c ->
    (discount_type c = "percentage"%string -> discount_value c <= 100) ->
    (forall cap, maximum_discount c = Some cap -> 0 <= cap) ->
    minimum_amount c = Some m -> usage_count c = Some n ->
    exists valid d,
      is_valid c now = Ok valid /\
      calculate_discount c now amount = Ok d /\
      0 <= d <= amount /\
      (valid = false \/ amount < m -> d = 0) /\
      (forall cap, discount_type c = "percentage"%string ->
                   maximum_discount c = Some cap -> cap <> 0 -> d <= cap).
Proof.
  intros c now amount m n Hamount Hvalue Hpct Hcap Hmin Hcount.
  assert (Hv : exists valid, is_valid c now = Ok valid).
  { unfold is_valid. rewrite Hcount.
    destruct (coupon_is_active c) as [[|]|]; cbn [negb]; eauto.
    destruct (starts_at c) as [t|]; [destruct (now <? t)%Z; [eauto|]|];
      (destruct (expires_at c) as [t'|]; [destruct (t' <? now)%Z; [eauto|]|];
       (destruct (usage_limit c) as [limit|]; [|eauto];
        destruct (limit =? 0)%Z; [eauto|]; destruct (limit <=? n)%Z; eauto)). }
  destruct Hv as [valid Hv]. exists valid.
  unfold calculate_discount. rewrite Hv, Hmin. cbn [bind].
  destruct valid; cbn [negb bind].
  - destruct (Rltb amount m) eqn:Elt.
    + exists 0. split; [reflexivity|]. split; [reflexivity|]. split; [lra|].
      split; [reflexivity|]. intros cap _ E _. specialize (Hcap cap E). lra.
    + assert (Hge : m <= amount).
      { unfold Rltb in Elt. destruct (Rlt_dec amount m); [discriminate | lra]. }
      destruct (discount_type c =? "percentage")%string eqn:Ep.
      * apply String.eqb_eq in Ep. specialize (Hpct Ep).
        assert (Hd : 0 <= amount * (discount_value c / 100) <= amount) by (split; nra).
        destruct (maximum_discount c) as [cap|] eqn:Ecap.
        -- specialize (Hcap cap eq_refl).
           destruct (Req0 cap) eqn:Ez.
           ++ eexists. split; [reflexivity|]. split; [reflexivity|].
              split; [exact Hd|]. split.
              ** intros [F|F]; [discriminate | lra].
              ** intros cap' _ E Hnz. inversion E; subst cap'.
                 unfold Req0 in Ez. destruct (Req_dec_T cap 0); [contradiction | discriminate].
           ++ eexists. split; [reflexivity|]. split; [reflexivity|].
              destruct (Rmin_cases (amount * (discount_value c / 100)) cap)
                as [[-> Hle]|[-> Hle]].
              ** split; [exact Hd|]. split.
                 --- intros [F|F]; [discriminate | lra].
                 --- intros cap' _ E _. inversion E; subst cap'. exact Hle.
              ** split; [lra|]. split.
                 --- intros [F|F]; [discriminate | lra].
                 --- intros cap' _ E _. inversion E; subst cap'. lra.
        -- eexists. split; [reflexivity|]. split; [reflexivity|].
           split; [exact Hd|]. split.
           ++ intros [F|F]; [discriminate | lra].
           ++ intros cap' _ E. discriminate.
      * assert (Hnp : discount_type c <> "percentage"%string)
          by (apply String.eqb_neq; exact Ep).
        destruct (discount_type c =? "fixed")%string.
        -- eexists. split; [reflexivity|]. split; [reflexivity|].
           destruct (Rmin_cases (discount_value c) amount) as [[-> Hle]|[-> Hle]];
             (split; [lra|]; split;
              [intros [F|F]; [discriminate | lra] | intros cap' E; contradiction]).
        -- exists 0. split; [reflexivity|]. split; [reflexivity|].
           split; [lra|]. split; [reflexivity | intros cap' E; contradiction].
  - exists 0. split; [reflexivity|]. split; [reflexivity|]. split; [lra|].
    split; [reflexivity|]. intros cap _ E _. specialize (Hcap cap E). lra.
Qed.

Lemma coupon_discount_within_order_witness :
  let c := {| discount_type := "percentage"; discount_value := 20;
              minimum_amount := Some 50; maximum_discount := Some 15;
              usage_limit := Some 0%Z; usage_count := Some 7%Z;
              starts_at := None; expires_at := Some 900%Z;
              coupon_is_active := Some true |} in
  exists valid d,
    is_valid c 100 = Ok valid /\ calculate_discount c 100 100 = Ok d /\
    0 <= d <= 100 /\ (valid = false \/ 100 < 50 -> d = 0) /\
    (forall cap, discount_type c = "percentage"%string ->
                 maximum_discount c = Some cap -> cap <> 0 -> d <= cap).
Proof.
  intros c.
  apply (coupon_discount_within_order c 100 100 50 7%Z); simpl; try lra; try reflexivity.
  intros cap E. inversion E. lra.
Defined.

(** ** Uploaded files *)

Lemma substring_in_dot (c : ascii) (s : string) :
  substring_in "." (String c s) = (Ascii.eqb c "." || substring_in "." s)%bool.
Proof.
  change (substring_in "." (String c s))
    with (if String.prefix "." (String c s) then true else substring_in "." s).
  cbn [String.prefix].
  destruct (ascii_dec "." c) as [<-|Hne]; [destruct s; reflexivity|].
  destruct (Ascii.eqb c ".") eqn:E; [|reflexivity].
  apply Ascii.eqb_eq in E. congruence.
Qed.

Lemma rpartition_found (s : string) :
  substring_in "." s = true -> exists before after, rpartition "." s = Some (before, after).
Proof.
  induction s as [|c s IH]; [discriminate|].
  rewrite substring_in_dot. cbn [rpartition].
  destruct (rpartition "." s) as [[b a]|]; [eauto|].
  destruct (Ascii.eqb c "."); [eauto|].
  intros Hs. destruct (IH Hs) as (b & a & E). discriminate.
Qed.

Lemma rpartition_extension (name ext : string) :
  Spec.all_chars (fun c => negb (Ascii.eqb c ".")) ext = true ->
  rpartition "." (name ++ "." ++ ext) = Some (name, ext) /\
  substring_in "." (name ++ "." ++ ext) = true.
Proof.
  intros Hext.
  assert (Hnone : rpartition "." ext = None).
  { induction ext as [|c ext IH]; [reflexivity|].
    simpl in Hext. apply andb_true_iff in Hext. destruct Hext as [Hc Hext].
    cbn [rpartition]. rewrite (IH Hext). apply negb_true_iff in Hc. rewrite Hc.
    reflexivity. }
  induction name as [|c name [IH1 IH2]].
  - change ("" ++ "." ++ ext)%string with (String "." ext).
    rewrite substring_in_dot. cbn [rpartition]. rewrite Hnone. split; reflexivity.
  - change (String c name ++ "." ++ ext)%string with (String c (name ++ "." ++ ext)).
    rewrite substring_in_dot, IH2, orb_true_r. cbn [rpartition]. rewrite IH1.
    split; reflexivity.
Qed.

Lemma typed_extension_allowed (group : list string) (e : string) :
  (forall x, In x group -> mem x App.ALL_ALLOWED_EXTENSIONS = true) ->
  mem e group = true -> mem e App.ALL_ALLOWED_EXTENSIONS = true.
Proof. intros Hgroup He. apply Hgroup, mem_In, He. Qed.

(** X28.  [allowed_file] never raises (the test for a dot guards the index into
    the split name) and decides by the lower-cased text after the last
    dot.  [get_file_type] always yields one of the six types the CHECK
    constraint on [File.file_type] allows, and every extension it gives a
    type other than 'other' is an allowed extension. *)
Theorem upload_helpers_consistent :
  (forall filename, exists allowed, App.allowed_file filename = Ok allowed) /\
  (forall filename, substring_in "." filename = false ->
                    App.allowed_file filename = Ok false) /\
  (forall name ext,
     Spec.all_chars (fun c => negb (Ascii.eqb c ".")) ext = true ->
     App.allowed_file (name ++ "." ++ ext)
     = Ok (mem (lower ext) App.ALL_ALLOWED_EXTENSIONS)) /\
  (forall extension, In (App.get_file_type extension) file_types) /\
  (forall extension,
     App.get_file_type extension <> "other"%string ->
     mem (lower extension) App.ALL_ALLOWED_EXTENSIONS = true).
Proof.
  split; [|split; [|split; [|split]]].
  - intros filename. unfold App.allowed_file.
    destruct (substring_in "." filename) eqn:E; [|eauto].
    destruct (rpartition_found filename E) as (b & a & Er).
    unfold rsplit1. rewrite Er. simpl. eauto.
  - intros filename E. unfold App.allowed_file. rewrite E. reflexivity.
  - intros name ext Hext. unfold App.allowed_file, rsplit1.
    destruct (rpartition_extension name ext Hext) as [-> ->]. reflexivity.
  - intros extension. unfold App.get_file_type, file_types. cbv zeta.
    repeat (destruct (mem (lower extension) _); [simpl; tauto|]). simpl; tauto.
  - intros extension. unfold App.get_file_type. cbv zeta.
    destruct (mem _ App.ALLOWED_IMAGE_EXTENSIONS) eqn:E1.
    { intros _. revert E1. apply typed_extension_allowed.
      intros x Hx. simpl in Hx. repeat (destruct Hx as [<-|Hx]; [reflexivity|]).
      contradiction. }
    destruct (mem _ App.ALLOWED_DOCUMENT_EXTENSIONS) eqn:E2.
    { intros _. revert E2. apply typed_extension_allowed.
      intros x Hx. simpl in Hx. repeat (destruct Hx as [<-|Hx]; [reflexivity|]).
      contradiction. }
    destruct (mem _ App.ALLOWED_VIDEO_EXTENSIONS) eqn:E3.
    { intros _. revert E3. apply typed_extension_allowed.
      intros x Hx. simpl in Hx. repeat (destruct Hx as [<-|Hx]; [reflexivity|]).
      contradiction. }
    destruct (mem _ App.ALLOWED_AUDIO_EXTENSIONS) eqn:E4.
    { intros _. revert E4. apply typed_extension_allowed.
      intros x Hx. simpl in Hx. repeat (destruct Hx as [<-|Hx]; [reflexivity|]).
      contradiction. }
    destruct (mem _ App.ALLOWED_ARCHIVE_EXTENSIONS) eqn:E5.
    { intros _. revert E5. apply typed_extension_allowed.
      intros x Hx. simpl in Hx. repeat (destruct Hx as [<-|Hx]; [reflexivity|]).
      contradiction. }
    intros F. contradiction.
Qed.

Lemma upload_helpers_consistent_witness :
  App.allowed_file "Report.final.PDF" = Ok true /\
  App.get_file_type "PDF" = "document"%string /\
  App.allowed_file "data.csv" = Ok true /\ App.get_file_type "csv" = "other"%string.
Proof.
  destruct upload_helpers_consistent as (_ & _ & Hext & _ & _).
  split; [exact (Hext "Report.final"%string "PDF"%string eq_refl)|].
  split; [reflexivity|].
  split; [exact (Hext "data"%string "csv"%string eq_refl) | reflexivity].
Defined.

(** ** Repeated feedback *)

Lemma update_first_appended (p : UserInteraction -> bool) (row row' : UserInteraction)
    (l : list UserInteraction) :
  find p l = None -> p row = true ->
  find p (l ++ [row]) = Some row /\ update_first p row' (l ++ [row]) = l ++ [row'].
Proof.
  intros Hnone Hrow. induction l as [|x l IH]; simpl.
  - rewrite Hrow. split; reflexivity.
  - simpl in Hnone. destruct (p x); [discriminate|].
    destruct (IH Hnone) as [-> ->]. split; reflexivity.
Qed.

(** X29.  Two feedbacks of a user on an item whose actions map to the same
    interaction type ('liked' and 'saved', say) leave one event, not two:
    the first appends an event under an id no stored event has, the second
    adds its score to it and moves its timestamp. *)
Theorem feedback_accumulates :
  forall (db : Database) (now1 now2 : Z) (uid : string) (cid : Z)
         (action1 action2 itype : string) (score1 score2 : R),
    lookup Engine.action_mapping action1 = Some (itype, score1) ->
    lookup Engine.action_mapping action2 = Some (itype, score2) ->
    0 <= score1 -> 0 <= score1 + score2 ->
    (exists c, In c (contents db) /\ content_id c = cid) ->
    (forall i, In i (interactions db) -> user_id i = uid ->
               interaction_content_id i = cid -> interaction_type i <> itype) ->
    exists rid : Z,
      ~ In rid (map interaction_id (interactions db)) /\
      interactions
        (Engine.track_recommendation_feedback
           (Engine.track_recommendation_feedback db now1 uid cid action1)
           now2 uid cid action2)
      = interactions db
        ++ [{| interaction_id := rid; user_id := uid;
               interaction_content_id := cid; interaction_type := itype;
               interaction_score := score1 + score2; timestamp := now2 |}].
Proof.
  intros db now1 now2 uid cid action1 action2 itype score1 score2
         Ha1 Ha2 Hs1 Hs2 (c & Hc & Hcid) Hnew.
  exists (next_interaction_id db). split; [apply next_interaction_id_fresh|].
  pose proof (feedback_type_allowed _ _ _ Ha1) as Htype.
  set (same := fun i : UserInteraction =>
                 ((user_id i =? uid)%string && (interaction_content_id i =? cid)%Z
                  && (interaction_type i =? itype)%string)%bool).
  assert (Hnone : find same (interactions db) = None).
  { destruct (find same (interactions db)) as [old|] eqn:Ef; [|reflexivity].
    exfalso. apply find_some in Ef. destruct Ef as [Hin Hp]. unfold same in Hp.
    rewrite !andb_true_iff in Hp. destruct Hp as [[Hu Hc'] Ht].
    apply String.eqb_eq in Hu, Ht. apply Z.eqb_eq in Hc'.
    exact (Hnew old Hin Hu Hc' Ht). }
  assert (Hexists : existsb (fun c0 => (content_id c0 =? cid)%Z) (contents db) = true).
  { apply existsb_exists. exists c. split; [exact Hc | apply Z.eqb_eq; exact Hcid]. }
  set (row1 := {| interaction_id := next_interaction_id db; user_id := uid;
                  interaction_content_id := cid; interaction_type := itype;
                  interaction_score := score1; timestamp := now1 |}).
  assert (E1 : Engine.track_recommendation_feedback db now1 uid cid action1
               = with_interactions db (interactions db ++ [row1])).
  { unfold Engine.track_recommendation_feedback. rewrite Ha1. fold same. rewrite Hnone.
    unfold add_interaction, interaction_ok. cbn [interaction_score interaction_type
      interaction_content_id]. rewrite (Rleb_true _ _ Hs1), Htype, Hexists. reflexivity. }
  rewrite E1. unfold Engine.track_recommendation_feedback. rewrite Ha2. fold same.
  cbn [interactions with_interactions].
  assert (Hrow1 : same row1 = true).
  { unfold same, row1. cbn. rewrite !String.eqb_refl, Z.eqb_refl. reflexivity. }
  destruct (update_first_appended same row1
              {| interaction_id := next_interaction_id db; user_id := uid;
                 interaction_content_id := cid; interaction_type := itype;
                 interaction_score := score1 + score2; timestamp := now2 |}
              (interactions db) Hnone Hrow1) as [Hfind Hupd].
  rewrite Hfind. unfold update_interaction, interaction_ok.
  cbn [interaction_score interaction_type interaction_content_id row1
       contents with_interactions].
  rewrite (Rleb_true _ _ Hs2), Htype, Hexists. cbn [andb try_except interactions
    with_interactions interaction_id user_id]. exact Hupd.
Qed.

Lemma feedback_accumulates_witness :
  exists rid : Z,
    ~ In rid (map interaction_id (interactions Examples.db_untagged)) /\
    interactions
      (Engine.track_recommendation_feedback
         (Engine.track_recommendation_feedback Examples.db_untagged 100 "u1" 1 "liked")
         200 "u1" 1 "saved")
    = interactions Examples.db_untagged
      ++ [{| interaction_id := rid; user_id := "u1"; interaction_content_id := 1;
             interaction_type := "like"; interaction_score := 2.0 + 3.0;
             timestamp := 200 |}].
Proof.
  apply (feedback_accumulates Examples.db_untagged 100 200 "u1" 1 "liked" "saved" "like"
           2.0 3.0); try reflexivity; try lra.
  - exists (Examples.post 1 None 0). split; [left|]; reflexivity.
  - intros i [].
Defined.

(** ** The overall relevance score *)

(** Rounding keeps a number between two integers between them. *)
Lemma round_half_even_within (y : R) (a b : Z) :
  IZR a <= y <= IZR b -> (a <= round_half_even y <= b)%Z.
Proof.
  intros [Ha Hb]. unfold round_half_even.
  destruct (base_Int_part y) as [Hlo Hhi].
  set (f := Int_part y) in *.
  assert (Haf : (a <= f)%Z).
  { apply Z.lt_succ_r. apply lt_IZR. rewrite succ_IZR. lra. }
  assert (Hfb : (f <= b)%Z) by (apply le_IZR; lra).
  assert (Hup : 0 < y - IZR f -> (f + 1 <= b)%Z).
  { intros Hd. apply Z.le_succ_l. apply lt_IZR. lra. }
  destruct (Rltb (y - IZR f) (1 / 2)) eqn:E1; [lia|].
  assert (H1 : 1 / 2 <= y - IZR f).
  { unfold Rltb in E1. destruct (Rlt_dec (y - IZR f) (1 / 2)); [discriminate | lra]. }
  assert (Hf1 : (f + 1 <= b)%Z) by (apply Hup; lra).
  destruct (Rltb (1 / 2) (y - IZR f)); [lia|]. destruct (Z.even f); lia.
Qed.

Lemma weighted_rounds_within (ai_scores : dict string (dict string Relevance.json))
    (lo hi : R) (ws : dict string R) (ts tw : R) :
  (forall k entry s, lookup ai_scores k = Some entry ->
                     lookup entry "score"%string = Some (Relevance.JNum s) ->
                     lo <= s <= hi) ->
  (forall k w, In (k, w) ws -> 0 < w) ->
  0 <= tw -> lo * tw <= ts <= hi * tw ->
  match foldM (fun '(total_score, total_weight) '(criterion, weight) =>
                 match lookup ai_scores criterion with
                 | Some entry =>
                     match lookup entry "score"%string with
                     | Some (Relevance.JNum score) =>
                         Ok (total_score + score * weight, total_weight + weight)
                     | Some (Relevance.JStr _) => Raise TypeError
                     | None => Ok (total_score, total_weight)
                     end
                 | None => Ok (total_score, total_weight)
                 end) ws (ts, tw) with
  | Raise _ => True
  | Ok r =>
      0 <= snd r /\ lo * snd r <= fst r <= hi * snd r /\
      ((forall k w entry, In (k, w) ws -> lookup ai_scores k = Some entry ->
                          lookup entry "score"%string = None) ->
       r = (ts, tw))
  end.
Proof.
  intros Hrange. revert ts tw; induction ws as [|[k w] ws IH]; intros ts tw Hw Htw Hts.
  - simpl. auto.
  - cbn [foldM].
    assert (Hw' : forall k w, In (k, w) ws -> 0 < w)
      by (intros k' w' Hin; apply (Hw k' w'); right; exact Hin).
    pose proof (Hw k w (or_introl eq_refl)) as Hpos.
    assert (Hskip :
              match foldM (fun '(total_score, total_weight) '(criterion, weight) =>
                 match lookup ai_scores criterion with
                 | Some entry =>
                     match lookup entry "score"%string with
                     | Some (Relevance.JNum score) =>
                         Ok (total_score + score * weight, total_weight + weight)
                     | Some (Relevance.JStr _) => Raise TypeError
                     | None => Ok (total_score, total_weight)
                     end
                 | None => Ok (total_score, total_weight)
                 end) ws (ts, tw) with
              | Raise _ => True
              | Ok r =>
                  0 <= snd r /\ lo * snd r <= fst r <= hi * snd r /\
                  ((forall k0 w0 entry, In (k0, w0) ((k, w) :: ws) ->
                      lookup ai_scores k0 = Some entry ->
                      lookup entry "score"%string = None) ->
                   r = (ts, tw))
              end).
    { specialize (IH ts tw Hw' Htw Hts). destruct (foldM _ ws (ts, tw)) as [r|e]; [|exact I].
      destruct IH as (H1 & H2 & H3). split; [exact H1|]. split; [exact H2|].
      intros Habsent. apply H3. intros k' w' entry Hin.
      apply (Habsent k' w' entry); right; exact Hin. }
    destruct (lookup ai_scores k) as [entry|] eqn:E; [|exact Hskip].
    destruct (lookup entry "score"%string) as [[s|str]|] eqn:Es; cbn [bind];
      [|exact I|exact Hskip].
    destruct (Hrange k entry s E Es) as [Hlo Hhi].
    assert (Hts' : lo * (tw + w) <= ts + s * w <= hi * (tw + w)) by nra.
    assert (Htw' : 0 <= tw + w) by lra.
    specialize (IH (ts + s * w) (tw + w) Hw' Htw' Hts').
    destruct (foldM _ ws (ts + s * w, tw + w)) as [r|e]; [|exact I].
    destruct IH as (H1 & H2 & _). split; [exact H1|]. split; [exact H2|].
    intros Habsent. specialize (Habsent k w entry (or_introl eq_refl) E). congruence.
Qed.

(** X30.  [_calculate_overall_score] is 5.0 when none of the six criteria has a
    score; otherwise, when the numeric scores lie between two integers
    (1 and 10 for the scale the analysis uses), the overall score lies
    between them too, or is the 5.0 of the fallback. *)
Theorem overall_score_within_scale :
  forall (ai_scores : dict string (dict string Relevance.json)) (lo hi : Z),
    (forall k entry s, lookup ai_scores k = Some entry ->
                       lookup entry "score"%string = Some (Relevance.JNum s) ->
                       IZR lo <= s <= IZR hi) ->
    ((forall k w entry, In (k, w) Relevance.weights -> lookup ai_scores k = Some entry ->
                        lookup entry "score"%string = None) ->
     Relevance._calculate_overall_score ai_scores = 5.0) /\
    (Relevance._calculate_overall_score ai_scores = 5.0 \/
     IZR lo <= Relevance._calculate_overall_score ai_scores <= IZR hi).
Proof.
  intros ai_scores lo hi Hrange. unfold Relevance._calculate_overall_score.
  pose proof (weighted_rounds_within ai_scores (IZR lo) (IZR hi) Relevance.weights 0 0 Hrange)
    as Hfold.
  destruct (foldM _ Relevance.weights (0, 0)) as [[ts tw]|e];
    [|split; [intros _; reflexivity | left; reflexivity]].
  destruct Hfold as (Htw & Hts & Hnone); [| lra | lra |].
  { intros k w Hin. unfold Relevance.weights in Hin. simpl in Hin.
    repeat (destruct Hin as [E|Hin]; [inversion E; lra|]). contradiction. }
  cbn [fst snd bind] in *. split.
  - intros Habsent. specialize (Hnone Habsent). inversion Hnone; subst.
    rewrite Rltb_false by lra. reflexivity.
  - destruct (Rltb 0 tw) eqn:E; [right | left; reflexivity].
    apply Rltb_spec in E. cbn [try_except]. unfold Py.round.
    assert (Hq : IZR lo <= ts / tw <= IZR hi).
    { split.
      - apply (Rmult_le_reg_r tw); [exact E|]. unfold Rdiv.
        rewrite Rmult_assoc, Rinv_l by lra. lra.
      - apply (Rmult_le_reg_r tw); [exact E|]. unfold Rdiv.
        rewrite Rmult_assoc, Rinv_l by lra. lra. }
    destruct (round_half_even_within (ts / tw * 10 ^ 1) (lo * 10) (hi * 10)) as [H1 H2].
    { rewrite !mult_IZR. simpl. lra. }
    apply IZR_le in H1, H2. rewrite mult_IZR in H1, H2. simpl. simpl in H1, H2.
    set (z := IZR (round_half_even _)) in *.
    replace (z / (10 * 1)) with (z * / 10) by (field; lra).
    split; lra.
Qed.

Lemma overall_score_within_scale_witness :
  let ai_scores :=
    [("clarity"%string, [("score"%string, Relevance.JNum 7);
                         ("explanation"%string, Relevance.JStr "clear")]);
     ("depth"%string, [("explanation"%string, Relevance.JStr "thin")])] in
  (forall k entry s, lookup ai_scores k = Some entry ->
                     lookup entry "score"%string = Some (Relevance.JNum s) ->
                     IZR 1 <= s <= IZR 10) /\
  (Relevance._calculate_overall_score ai_scores = 5.0 \/
   IZR 1 <= Relevance._calculate_overall_score ai_scores <= IZR 10).
Proof.
  intros ai_scores.
  assert (Hrange : forall k entry s, lookup ai_scores k = Some entry ->
                     lookup entry "score"%string = Some (Relevance.JNum s) ->
                     IZR 1 <= s <= IZR 10).
  { intros k entry s. unfold ai_scores. cbn [lookup keq Key_string].
    destruct (k =? "clarity")%string.
    - intros E; inversion E; subst. cbn. intros E'; inversion E'. lra.
    - destruct (k =? "depth")%string; [|discriminate].
      intros E; inversion E; subst. cbn. discriminate. }
  split; [exact Hrange|].
  exact (proj2 (overall_score_within_scale ai_scores 1 10 Hrange)).
Defined.
